(** * TCP and UDP chat rooms: wire codec, session registry, peer protocol

    A shallow embedding of [tcp_client_server_chat.py] and
    [udp_p2p_chat.py].  Python values are modelled as follows.

    - [bytes] is [list byte]; a [str] is the list of its code points.
    - A [StreamReader] is the list of the bytes that the peer has sent and
      that have not been read yet, all of them buffered, followed by the
      end of the stream.  A [StreamWriter] is known to the codec by the
      bytes written to it so far.
    - Python exceptions are the constructors of [exn]; code that may raise
      runs in the state and error monad [M], which keeps the effects made
      before the exception was raised. *)

From Stdlib Require Import ZArith List Bool Lia String Ascii.
From Stdlib Require Import Strings.Byte.
Import ListNotations.

Local Open Scope Z_scope.

(** ** Exceptions, and the state and error monad *)

Inductive exn : Type :=
| struct_error
| UnicodeEncodeError
| UnicodeDecodeError
| ValueError
| IndexError
| AttributeError
| EOFError.

Inductive outcome (A : Type) : Type :=
| Ok (a : A)
| Raise (e : exn).

Arguments Ok {A} a.
Arguments Raise {A} e.

Definition M (S A : Type) : Type := S -> outcome A * S.

Definition ret {S A} (a : A) : M S A := fun s => (Ok a, s).

Definition bind {S A B} (m : M S A) (k : A -> M S B) : M S B :=
  fun s => match m s with
           | (Ok a, s') => k a s'
           | (Raise e, s') => (Raise e, s')
           end.

Definition raise {S A} (e : exn) : M S A := fun s => (Raise e, s).

Definition get {S} : M S S := fun s => (Ok s, s).

Definition put {S} (s : S) : M S unit := fun _ => (Ok tt, s).

Definition modify {S} (f : S -> S) : M S unit := fun s => (Ok tt, f s).

(** [try_except m handler]: Python's [try: m  except Exception: handler]. *)
Definition try_except {S A} (m : M S A) (handler : exn -> M S A) : M S A :=
  fun s => match m s with
           | (Ok a, s') => (Ok a, s')
           | (Raise e, s') => handler e s'
           end.

(** Runs a computation on a component of the state. *)
Definition zoom {S T A} (proj : S -> T) (upd : T -> S -> S) (m : M T A) : M S A :=
  fun s => let (r, t') := m (proj s) in (r, upd t' s).

Declare Scope monad_scope.
Delimit Scope monad_scope with monad.
Notation "x <- m ;; k" := (bind m (fun x => k))
  (at level 61, m at next level, right associativity) : monad_scope.
Notation "m ;; k" := (bind m (fun _ => k))
  (at level 61, right associativity) : monad_scope.
Local Open Scope monad_scope.

(** [for x in l: body x] *)
Fixpoint for_each {S A} (l : list A) (body : A -> M S unit) : M S unit :=
  match l with
  | [] => ret tt
  | x :: l' => body x ;; for_each l' body
  end.

(** [[m for _ in range(n)]] *)
Fixpoint replicateM {S A} (n : nat) (m : M S A) : M S (list A) :=
  match n with
  | O => ret []
  | S n' => x <- m ;; xs <- replicateM n' m ;; ret (x :: xs)
  end.

(** ** Bytes and strings *)

Definition bytes : Type := list byte.

Definition b2z (b : byte) : Z := Z.of_N (Byte.to_N b).

Definition z2b (z : Z) : byte :=
  match Byte.of_N (Z.to_N z) with
  | Some b => b
  | None => x00
  end.

(** A [str]: its code points, each in [0, 0x10FFFF]. *)
Definition str : Type := list Z.

(** A string literal of the source. *)
Definition lit (s : string) : str :=
  map (fun a => Z.of_N (N_of_ascii a)) (list_ascii_of_string s).

Definition str_eqb (a b : str) : bool :=
  if list_eq_dec Z.eq_dec a b then true else false.

(** *** [str.encode()] and [bytes.decode()]: strict UTF-8 *)

Definition is_surrogate (c : Z) : bool := (0xD800 <=? c) && (c <=? 0xDFFF).

(** The code points that [str.encode()] accepts. *)
Definition scalar_value (c : Z) : bool :=
  (0 <=? c) && (c <=? 0x10FFFF) && negb (is_surrogate c).

Definition encode_code_point (c : Z) : option bytes :=
  if negb (scalar_value c) then None
  else if c <? 0x80 then Some [z2b c]
  else if c <? 0x800 then
    Some [z2b (0xC0 + c / 64); z2b (0x80 + c mod 64)]
  else if c <? 0x10000 then
    Some [z2b (0xE0 + c / 4096); z2b (0x80 + (c / 64) mod 64);
          z2b (0x80 + c mod 64)]
  else
    Some [z2b (0xF0 + c / 262144); z2b (0x80 + (c / 4096) mod 64);
          z2b (0x80 + (c / 64) mod 64); z2b (0x80 + c mod 64)].

Fixpoint encode (s : str) : outcome bytes :=
  match s with
  | [] => Ok []
  | c :: s' =>
      match encode_code_point c, encode s' with
      | Some bs, Ok rest => Ok (bs ++ rest)
      | None, _ => Raise UnicodeEncodeError
      | _, Raise e => Raise e
      end
  end.

Definition in_range (lo hi x : Z) : bool := (lo <=? x) && (x <=? hi).

Definition continuation (b : byte) : bool := in_range 0x80 0xBF (b2z b).

Definition tail6 (b : byte) : Z := b2z b - 0x80.

Definition cons_ok (c : Z) (r : outcome str) : outcome str :=
  match r with Ok s => Ok (c :: s) | Raise e => Raise e end.

(** The well-formed byte sequences of the Unicode standard; anything else
    raises [UnicodeDecodeError]. *)
Fixpoint decode (data : bytes) : outcome str :=
  let bad := Raise UnicodeDecodeError in
  match data with
  | [] => Ok []
  | b0 :: r0 =>
      let z0 := b2z b0 in
      if z0 <? 0x80 then cons_ok z0 (decode r0)
      else match r0 with
      | [] => bad
      | b1 :: r1 =>
          let z1 := b2z b1 in
          if in_range 0xC2 0xDF z0 then
            if continuation b1
            then cons_ok ((z0 - 0xC0) * 64 + tail6 b1) (decode r1)
            else bad
          else match r1 with
          | [] => bad
          | b2 :: r2 =>
              if in_range 0xE0 0xEF z0 then
                if in_range (if z0 =? 0xE0 then 0xA0 else 0x80)
                            (if z0 =? 0xED then 0x9F else 0xBF) z1
                   && continuation b2
                then cons_ok ((z0 - 0xE0) * 4096 + tail6 b1 * 64 + tail6 b2)
                             (decode r2)
                else bad
              else match r2 with
              | [] => bad
              | b3 :: r3 =>
                  if in_range 0xF0 0xF4 z0 then
                    if in_range (if z0 =? 0xF0 then 0x90 else 0x80)
                                (if z0 =? 0xF4 then 0x8F else 0xBF) z1
                       && continuation b2 && continuation b3
                    then cons_ok ((z0 - 0xF0) * 262144 + tail6 b1 * 4096
                                  + tail6 b2 * 64 + tail6 b3)
                                 (decode r3)
                    else bad
                  else bad
              end
          end
      end
  end.

(** ** The [struct] formats of the source: ['<i'] and ['<?'] *)

Inductive frmt : Type :=
| fmt_i   (* '<i': 4-byte little-endian signed integer *)
| fmt_q.  (* '<?': 1-byte boolean *)

Inductive value : Type :=
| VInt (z : Z)
| VBool (b : bool).

Definition calcsize (f : frmt) : Z :=
  match f with fmt_i => 4 | fmt_q => 1 end.

(** [struct.pack('<i', v)] raises [struct.error] outside the 32-bit range. *)
Definition pack_i (v : Z) : outcome bytes :=
  if (-2147483648 <=? v) && (v <=? 2147483647) then
    Ok [z2b (v mod 256); z2b ((v / 256) mod 256);
        z2b ((v / 65536) mod 256); z2b ((v / 16777216) mod 256)]
  else Raise struct_error.

Definition pack_q (b : bool) : bytes := [if b then x01 else x00].

Definition struct_pack (f : frmt) (v : value) : outcome bytes :=
  match f, v with
  | fmt_i, VInt z => pack_i z
  | fmt_i, VBool b => pack_i (if b then 1 else 0)
  | fmt_q, VBool b => Ok (pack_q b)
  | fmt_q, VInt z => Ok (pack_q (negb (z =? 0)))
  end.

(** [struct.unpack(frmt, data)]: [struct.error] unless [data] has exactly
    [calcsize(frmt)] bytes. *)
Definition struct_unpack (f : frmt) (data : bytes) : outcome value :=
  match f, data with
  | fmt_i, [b0; b1; b2; b3] =>
      let u := b2z b0 + 256 * b2z b1 + 65536 * b2z b2 + 16777216 * b2z b3 in
      Ok (VInt (if u <? 2147483648 then u else u - 4294967296))
  | fmt_q, [b0] => Ok (VBool (negb (b2z b0 =? 0)))
  | _, _ => Raise struct_error
  end.

(** ** Stream readers and writers *)

(** The bytes still to be read, all buffered, then end of stream. *)
Definition StreamReader : Type := bytes.

(** [await reader.read(n)]: at most [n] bytes, and fewer only when the
    stream ends before; everything up to the end of the stream when [n] is
    negative; nothing when [n] is 0. *)
Definition read (n : Z) : M StreamReader bytes :=
  fun buf =>
    if n =? 0 then (Ok [], buf)
    else if n <? 0 then (Ok buf, [])
    else (Ok (firstn (Z.to_nat n) buf), skipn (Z.to_nat n) buf).

(** [writer.write(data)] on the bytes written so far. *)
Definition write (data : bytes) : M bytes unit :=
  modify (fun out => out ++ data).

Definition lift_outcome {S A} (r : outcome A) : M S A := fun s => (r, s).

(** ** The wire codec (lines 11 to 73 of the TCP source) *)

Definition recv_formatted_data (f : frmt) : M StreamReader value :=
  data <- read (calcsize f) ;;
  lift_outcome (struct_unpack f data).

Definition recv_single_value (f : frmt) : M StreamReader value :=
  recv_formatted_data f.

(** The two uses of the source: an integer and a boolean. *)
Definition recv_int : M StreamReader Z :=
  v <- recv_single_value fmt_i ;;
  match v with VInt z => ret z | VBool b => ret (if b then 1 else 0) end.

Definition recv_bool : M StreamReader bool :=
  v <- recv_single_value fmt_q ;;
  match v with VBool b => ret b | VInt z => ret (negb (z =? 0)) end.

Definition recv_str : M StreamReader str :=
  length <- recv_int ;;
  data <- read length ;;
  lift_outcome (decode data).

Definition recv_str_list : M StreamReader (list str) :=
  length <- recv_int ;;
  replicateM (Z.to_nat length) recv_str.

Definition send_single_value (f : frmt) (v : value) : M bytes unit :=
  data <- lift_outcome (struct_pack f v) ;;
  write data.

Definition send_str (string : str) : M bytes unit :=
  string' <- lift_outcome (encode string) ;;
  data <- lift_outcome (pack_i (Z.of_nat (List.length string'))) ;;
  write (data ++ string').

Definition send_str_list (strings : list str) : M bytes unit :=
  length <- lift_outcome (pack_i (Z.of_nat (List.length strings))) ;;
  write length ;;
  for_each strings send_str.

(** [sends m data]: whatever was written before, [m] returns normally
    having written exactly [data]. *)
Definition sends (m : M bytes unit) (data : bytes) : Prop :=
  forall out, m out = (Ok tt, out ++ data).

(** A string that [send_str] can always send: Unicode scalar values, and
    few enough of them for the 32-bit length prefix. *)
Definition sendable (s : str) : Prop :=
  Forall (fun c => scalar_value c = true) s /\
  4 * Z.of_nat (List.length s) <= 2147483647.

(** The bytes that a sender writes. *)
Definition wire (m : M bytes unit) : bytes := snd (m []).

(** A string of four characters that take one, two, three and four bytes:
    h, e with acute accent, the euro sign, a grinning face. *)
Definition sample : str := [0x68; 0xE9; 0x20AC; 0x1F600].

(** ** Python lists *)

(** [l.pop(0)] *)
Definition list_pop0 {A} : M (list A) A :=
  fun l => match l with
           | [] => (Raise IndexError, l)
           | x :: l' => (Ok x, l')
           end.

(** [l.append(x)] *)
Definition list_append {A} (x : A) : M (list A) unit :=
  modify (fun l => l ++ [x]).

Fixpoint remove_first {A} (eqb : A -> A -> bool) (x : A) (l : list A)
  : option (list A) :=
  match l with
  | [] => None
  | y :: l' =>
      if eqb y x then Some l'
      else match remove_first eqb x l' with
           | Some r => Some (y :: r)
           | None => None
           end
  end.

(** [l.remove(x)]: drops the first element equal to [x], [ValueError] when
    there is none. *)
Definition list_remove {A} (eqb : A -> A -> bool) (x : A) : M (list A) unit :=
  fun l => match remove_first eqb x l with
           | Some l' => (Ok tt, l')
           | None => (Raise ValueError, l)
           end.

(** [l[i]] for the indices the source uses. *)
Definition list_index {S A} (l : list A) (i : nat) : M S A :=
  match nth_error l i with
  | Some x => ret x
  | None => raise IndexError
  end.

(** The last [n] elements of [l], in the order of [l]. *)
Definition last_n {A} (n : nat) (l : list A) : list A :=
  skipn (List.length l - n) l.

(** A list of ten elements or more without its first element. *)
Definition evicted {A} (h : list A) : list A :=
  if 10 <=? Z.of_nat (List.length h) then tl h else h.

(** [l] without the first element equal to [x]. *)
Fixpoint without {A} (eqb : A -> A -> bool) (x : A) (l : list A) : list A :=
  match l with
  | [] => []
  | y :: l' => if eqb y x then l' else y :: without eqb x l'
  end.

(** ** The TCP server: [ServerTCP] *)

(** A writer: the connection it belongs to and the address of its peer,
    [writer.get_extra_info('peername')[0]]. *)
Record StreamWriter : Type := { wid : nat; peername : str }.

Definition writer_eqb (a b : StreamWriter) : bool :=
  Nat.eqb (wid a) (wid b) && str_eqb (peername a) (peername b).

(** A chat message: [(time, username, message)]. *)
Definition message_t : Type := (str * str * str)%type.

(** A user record: [(address, username)]. *)
Definition user_t : Type := (str * str)%type.

Definition user_eqb (a b : user_t) : bool :=
  str_eqb (fst a) (fst b) && str_eqb (snd a) (snd b).

Record ServerTCP : Type := {
  WRITERS : list StreamWriter;
  USERNAMES_LIST : list user_t;
  RECENT_MESSAGES : list message_t }.

(** [ServerTCP.__init__] *)
Definition ServerTCP_init : ServerTCP :=
  {| WRITERS := []; USERNAMES_LIST := []; RECENT_MESSAGES := [] |}.

Definition set_WRITERS (l : list StreamWriter) (self : ServerTCP) : ServerTCP :=
  {| WRITERS := l; USERNAMES_LIST := USERNAMES_LIST self;
     RECENT_MESSAGES := RECENT_MESSAGES self |}.

Definition set_USERNAMES_LIST (l : list user_t) (self : ServerTCP) : ServerTCP :=
  {| WRITERS := WRITERS self; USERNAMES_LIST := l;
     RECENT_MESSAGES := RECENT_MESSAGES self |}.

Definition set_RECENT_MESSAGES (l : list message_t) (self : ServerTCP) : ServerTCP :=
  {| WRITERS := WRITERS self; USERNAMES_LIST := USERNAMES_LIST self;
     RECENT_MESSAGES := l |}.

Definition get_history : M ServerTCP (list message_t) :=
  self <- get ;; ret (RECENT_MESSAGES self).

(** Lines 206 and 207. *)
Definition evict_if_full : M ServerTCP unit :=
  self <- get ;;
  if 10 <=? Z.of_nat (List.length (RECENT_MESSAGES self))
  then zoom RECENT_MESSAGES set_RECENT_MESSAGES (_ <- list_pop0 ;; ret tt)
  else ret tt.

Definition update_history (time username message : str) : M ServerTCP unit :=
  let new_message := (time, username, message) in
  evict_if_full ;;
  zoom RECENT_MESSAGES set_RECENT_MESSAGES (list_append new_message).

(** A message received: one call of [update_history]. *)
Definition record_message (m : message_t) : M ServerTCP unit :=
  let '(time, username, message) := m in update_history time username message.

(** *** What the server does to the network *)

Inductive io : Type :=
| Wrote (w : StreamWriter) (data : bytes)
| Closed (w : StreamWriter).

(** The server object and the trace of its writes and closes, oldest
    first. *)
Record Server : Type := { self : ServerTCP; net : list io }.

Definition set_self (s : ServerTCP) (sv : Server) : Server :=
  {| self := s; net := net sv |}.

Definition on_self {A} (m : M ServerTCP A) : M Server A := zoom self set_self m.

(** Runs the codec's sends on [writer] and logs what they wrote. *)
Definition send (writer : StreamWriter) (m : M bytes unit) : M Server unit :=
  fun sv => let (r, data) := m [] in
            (r, {| self := self sv; net := net sv ++ [Wrote writer data] |}).

(** [writer.close()] *)
Definition close (writer : StreamWriter) : M Server unit :=
  modify (fun sv => {| self := self sv; net := net sv ++ [Closed writer] |}).

(** The bytes that a trace delivers to the peer of [w]. *)
Fixpoint written (w : StreamWriter) (t : list io) : bytes :=
  match t with
  | [] => []
  | Wrote w' data :: t' =>
      if writer_eqb w' w then data ++ written w t' else written w t'
  | Closed _ :: t' => written w t'
  end.

Definition list_of_message (m : message_t) : list str :=
  let '(time, username, message) := m in [time; username; message].

Definition send_history (writer : StreamWriter) (history : list message_t)
  : M Server unit :=
  send writer (send_single_value fmt_i (VInt 371)) ;;
  send writer (send_single_value fmt_i (VInt (Z.of_nat (List.length history)))) ;;
  if negb (Nat.eqb (List.length history) 0) then
    for_each history (fun message =>
      send writer (send_str_list (list_of_message message)))
  else ret tt.

Definition send_new_message (message_info : list str) : M Server unit :=
  sv <- get ;;
  for_each (WRITERS (self sv)) (fun writer =>
    send writer (send_single_value fmt_i (VInt 372)) ;;
    send writer (send_str_list message_info)).

(** *** [server_handle_request] *)

(** The state of one run of the handler: the server it shares with the
    other runs, its own reader and its local variable [user_info], [None]
    for the empty tuple. *)
Record Handler : Type := {
  server : Server;
  reader : StreamReader;
  user_info : option user_t }.

Definition set_server (sv : Server) (h : Handler) : Handler :=
  {| server := sv; reader := reader h; user_info := user_info h |}.

Definition set_reader (r : StreamReader) (h : Handler) : Handler :=
  {| server := server h; reader := r; user_info := user_info h |}.

Definition set_user_info (u : option user_t) (h : Handler) : Handler :=
  {| server := server h; reader := reader h; user_info := u |}.

Definition recv {A} (m : M StreamReader A) : M Handler A := zoom reader set_reader m.

Definition srv {A} (m : M Server A) : M Handler A := zoom server set_server m.

(** [await writer.drain()]: no effect on the registry or the trace. *)
Definition drain : M Handler unit := ret tt.

(** How an iteration of [while True] ends. *)
Inductive ctl : Type :=
| Continue
| Break
| Return.

(** [user_info] compared with the records of [USERNAMES_LIST]: the empty
    tuple equals none of them. *)
Definition USERNAMES_LIST_remove (user_info : option user_t) : M (list user_t) unit :=
  match user_info with
  | Some u => list_remove user_eqb u
  | None => raise ValueError
  end.

(** Lines 260 to 279: [if protocol_num == 471]. *)
Definition handle_join (writer : StreamWriter) : M Handler ctl :=
  client_username <- recv recv_str ;;
  h <- get ;;
  if existsb (fun client_id => str_eqb client_username (snd client_id))
             (USERNAMES_LIST (self (server h)))
  then
    srv (send writer (send_single_value fmt_q (VBool false))) ;;
    srv (on_self (zoom WRITERS set_WRITERS (list_remove writer_eqb writer))) ;;
    drain ;;
    srv (close writer) ;;
    ret Return
  else
    srv (send writer (send_single_value fmt_q (VBool true))) ;;
    drain ;;
    let addr := peername writer in
    let new_user := (addr, client_username) in
    modify (set_user_info (Some new_user)) ;;
    srv (on_self (zoom USERNAMES_LIST set_USERNAMES_LIST (list_append new_user))) ;;
    history <- srv (on_self get_history) ;;
    srv (send_history writer history) ;;
    drain ;;
    ret Continue.

(** Lines 281 to 294: [if protocol_num == 472]. *)
Definition handle_post (writer : StreamWriter) : M Handler ctl :=
  received <- try_except (message_info <- recv recv_str_list ;; ret (Some message_info))
                         (fun _ => ret None) ;;
  match received with
  | None => ret Break
  | Some message_info =>
      srv (send_new_message message_info) ;;
      drain ;;
      time <- list_index message_info 0 ;;
      username <- list_index message_info 1 ;;
      message <- list_index message_info 2 ;;
      srv (on_self (update_history time username message)) ;;
      ret Continue
  end.

(** Lines 259 to 294: the two [if]s on the tag that was read. *)
Definition dispatch (writer : StreamWriter) (protocol_num : Z) : M Handler ctl :=
  c <- (if protocol_num =? 471 then handle_join writer else ret Continue) ;;
  match c with
  | Continue =>
      if protocol_num =? 472 then handle_post writer else ret Continue
  | _ => ret c
  end.

(** One iteration of the [while True] of lines 254 to 294. *)
Definition loop_body (writer : StreamWriter) : M Handler ctl :=
  tag <- try_except (protocol_num <- recv recv_int ;; ret (Some protocol_num))
                    (fun e => match e with
                              | struct_error => ret None
                              | _ => raise e
                              end) ;;
  match tag with
  | None => ret Break
  | Some protocol_num => dispatch writer protocol_num
  end.

(** [while True: body], at most [fuel] iterations; [None] when the fuel
    runs out before the loop is left. *)
Fixpoint while_true {S} (fuel : nat) (body : M S ctl) : M S (option ctl) :=
  match fuel with
  | O => ret None
  | Datatypes.S fuel' =>
      c <- body ;;
      match c with
      | Continue => while_true fuel' body
      | _ => ret (Some c)
      end
  end.

(** Lines 295 to 298. *)
Definition cleanup (writer : StreamWriter) : M Handler unit :=
  h <- get ;;
  srv (on_self (zoom USERNAMES_LIST set_USERNAMES_LIST
                     (USERNAMES_LIST_remove (user_info h)))) ;;
  srv (on_self (zoom WRITERS set_WRITERS (list_remove writer_eqb writer))) ;;
  srv (close writer).

(** What follows the loop: nothing after the [return] of line 268, the
    clean-up after a [break]. *)
Definition after_loop (writer : StreamWriter) (c : option ctl)
  : M Handler (option unit) :=
  match c with
  | None => ret None
  | Some Return => ret (Some tt)
  | Some _ => cleanup writer ;; ret (Some tt)
  end.

(** The loop and what follows it.  Every iteration that continues has read
    a tag of four bytes, so the length of the reader bounds the number of
    iterations. *)
Definition serve (writer : StreamWriter) : M Handler (option unit) :=
  h <- get ;;
  c <- while_true (Datatypes.S (List.length (reader h))) (loop_body writer) ;;
  after_loop writer c.

(** Lines 251 to 253. *)
Definition accept (writer : StreamWriter) : M Handler unit :=
  srv (on_self (zoom WRITERS set_WRITERS (list_append writer))) ;;
  modify (set_user_info None).

Definition server_handle_request (reader : StreamReader) (writer : StreamWriter)
  : M Server (option unit) :=
  fun sv =>
    let (r, h) := (accept writer ;; serve writer)
                    {| server := sv; reader := reader; user_info := None |} in
    (r, server h).

(** The runs of the handler interleave at their reads.  A step of the
    server is one of the pieces above, run by some connection in some
    local state. *)
Inductive server_step (sv : Server) : Server -> Prop :=
| step_accept (w : StreamWriter) (h : Handler) r h' :
    server h = sv -> accept w h = (r, h') -> server_step sv (server h')
| step_loop_body (w : StreamWriter) (h : Handler) r h' :
    server h = sv -> loop_body w h = (r, h') -> server_step sv (server h')
| step_cleanup (w : StreamWriter) (h : Handler) r h' :
    server h = sv -> cleanup w h = (r, h') -> server_step sv (server h').

Inductive reachable : Server -> Prop :=
| reachable_init : reachable {| self := ServerTCP_init; net := [] |}
| reachable_step sv sv' : reachable sv -> server_step sv sv' -> reachable sv'.

Definition usernames (sv : Server) : list str :=
  map snd (USERNAMES_LIST (self sv)).

(** The state in which the loop starts. *)
Definition accepted (w : StreamWriter) (h : Handler) : Handler :=
  {| server :=
       {| self := set_WRITERS (WRITERS (self (server h)) ++ [w]) (self (server h));
          net := net (server h) |};
     reader := reader h;
     user_info := None |}.

(** The state that [cleanup] leaves for a connection that has joined. *)
Definition disconnected (w : StreamWriter) (u : user_t) (h : Handler) : Handler :=
  {| server :=
       {| self :=
            {| WRITERS := without writer_eqb w (WRITERS (self (server h)));
               USERNAMES_LIST :=
                 without user_eqb u (USERNAMES_LIST (self (server h)));
               RECENT_MESSAGES := RECENT_MESSAGES (self (server h)) |};
          net := net (server h) ++ [Closed w] |};
     reader := reader h;
     user_info := user_info h |}.


(** What [send_new_message] adds to the trace: for each writer the tag
    and the message. *)
Definition fan_out (tag payload : bytes) (ws : list StreamWriter) : list io :=
  flat_map (fun w => [Wrote w tag; Wrote w payload]) ws.

(** The state after a message [(t, u, m)] was handled. *)
Definition posted (tag payload : bytes) (t u m : str) (rest : StreamReader)
           (h : Handler) : Handler :=
  {| server :=
       {| self := set_RECENT_MESSAGES
                    (evicted (RECENT_MESSAGES (self (server h))) ++ [(t, u, m)])
                    (self (server h));
          net := net (server h) ++ fan_out tag payload (WRITERS (self (server h))) |};
     reader := rest;
     user_info := user_info h |}.

(** *** A small chat room, for examples *)

Definition ann_writer : StreamWriter := {| wid := 1; peername := lit "10.0.0.1" |}.
Definition bob_writer : StreamWriter := {| wid := 2; peername := lit "10.0.0.2" |}.
Definition ann : user_t := (lit "10.0.0.1", lit "ann").

(** Ann has joined; Bob has connected and not joined yet. *)
Definition room : Server :=
  {| self := {| WRITERS := [ann_writer; bob_writer];
                USERNAMES_LIST := [ann];
                RECENT_MESSAGES := [] |};
     net := [] |}.

Definition hello : list str := [lit "10:00:00"; lit "ann"; lit "hi"].

Definition cat_writer : StreamWriter := {| wid := 3; peername := lit "10.0.0.3" |}.

Definition ann_handler (rd : StreamReader) : Handler :=
  {| server := room; reader := rd; user_info := Some ann |}.

(** ** The TCP client: [ClientTCP] *)

Inductive task : Type :=
| task_send_message (username : str)
| task_recv_new_message.

(** The connection of a client and its console: [reader] holds what the
    server sends, [stdin] the lines that [input()] will return, [stdout]
    the prompts and the printed lines, [tasks] the tasks created. *)
Record Client : Type := {
  c_reader : StreamReader;
  c_writer : bytes;
  c_closed : bool;
  stdin : list str;
  stdout : list str;
  tasks : list task }.

Definition set_c_reader (r : StreamReader) (c : Client) : Client :=
  {| c_reader := r; c_writer := c_writer c; c_closed := c_closed c;
     stdin := stdin c; stdout := stdout c; tasks := tasks c |}.

Definition set_c_writer (w : bytes) (c : Client) : Client :=
  {| c_reader := c_reader c; c_writer := w; c_closed := c_closed c;
     stdin := stdin c; stdout := stdout c; tasks := tasks c |}.

Definition c_recv {A} (m : M StreamReader A) : M Client A :=
  zoom c_reader set_c_reader m.

Definition c_send (m : M bytes unit) : M Client unit :=
  zoom c_writer set_c_writer m.

Definition c_close : M Client unit :=
  modify (fun c =>
    {| c_reader := c_reader c; c_writer := c_writer c; c_closed := true;
       stdin := stdin c; stdout := stdout c; tasks := tasks c |}).

Definition print (line : str) : M Client unit :=
  modify (fun c =>
    {| c_reader := c_reader c; c_writer := c_writer c; c_closed := c_closed c;
       stdin := stdin c; stdout := stdout c ++ [line]; tasks := tasks c |}).

(** [input(prompt)] *)
Definition input (prompt : str) : M Client str :=
  print prompt ;;
  c <- get ;;
  match stdin c with
  | [] => raise EOFError
  | line :: rest =>
      put {| c_reader := c_reader c; c_writer := c_writer c;
             c_closed := c_closed c; stdin := rest; stdout := stdout c;
             tasks := tasks c |} ;;
      ret line
  end.

Definition create_task (t : task) : M Client unit :=
  modify (fun c =>
    {| c_reader := c_reader c; c_writer := c_writer c; c_closed := c_closed c;
       stdin := stdin c; stdout := stdout c; tasks := tasks c ++ [t] |}).

(** ['%s %s: %s' % (a, b, c)] *)
Definition format_line (a b c : str) : str :=
  a ++ lit " " ++ b ++ lit ": " ++ c.

(** Lines 117 to 119: the body of the loop over the history. *)
Definition print_past_message : M Client unit :=
  past_message <- c_recv recv_str_list ;;
  a <- list_index past_message 0 ;;
  b <- list_index past_message 1 ;;
  c <- list_index past_message 2 ;;
  print (format_line a b c).

Definition prompt : str := lit "Enter your username for the chatroom: ".

(** Returns [None] where the source returns without a value. *)
Definition start_chatting : M Client (option str) :=
  c_send (send_single_value fmt_i (VInt 471)) ;;
  username <- input prompt ;;
  c_send (send_str username) ;;
  returned <- try_except
    (status <- c_recv recv_bool ;;
     if negb status then c_close ;; ret true else ret false)
    (fun _ =>
       print (lit "Exception during Entering username") ;;
       c_close ;; ret true) ;;
  if returned : bool then ret None
  else
    response <- c_recv recv_int ;;
    (if response =? 371 then
       past_messages_num <- c_recv recv_int ;;
       if past_messages_num =? 0 then ret tt
       else
         for_each (List.seq 0 (Z.to_nat past_messages_num)) (fun _ =>
           print_past_message)
     else ret tt) ;;
    ret (Some username).

(** [not valid_username]: true for [None] and for the empty string. *)
Definition falsy (v : option str) : bool :=
  match v with
  | None => true
  | Some [] => true
  | Some (_ :: _) => false
  end.

(** Lines 163 to 170.  The two tasks then run concurrently until the
    sending one returns (lines 172 to 177); that part is not modelled. *)
Definition connect_to_server : M Client unit :=
  valid_username <- start_chatting ;;
  if falsy valid_username then ret tt
  else
    match valid_username with
    | Some username =>
        create_task (task_send_message username) ;;
        create_task task_recv_new_message
    | None => ret tt
    end.

(** The client [c] after it has written [sent], read the server's bytes
    down to [rest] and its input down to [more], and printed [lines]. *)
Definition after_join (c : Client) (sent : bytes) (rest : StreamReader)
           (more lines : list str) : Client :=
  {| c_reader := rest; c_writer := c_writer c ++ sent; c_closed := c_closed c;
     stdin := more; stdout := stdout c ++ lines; tasks := tasks c |}.

Definition with_tasks (ts : list task) (c : Client) : Client :=
  {| c_reader := c_reader c; c_writer := c_writer c; c_closed := c_closed c;
     stdin := stdin c; stdout := stdout c; tasks := tasks c ++ ts |}.

Definition history_line (m : message_t) : str :=
  let '(time, username, message) := m in format_line time username message.

(** A client to whom the server has answered "accepted" and sent the
    history [history]; [lines] is what the user will type. *)
Definition accepted_client (history : list message_t) (lines : list str) : Client :=
  {| c_reader :=
       pack_q true ++
       written cat_writer
         (net (snd (send_history cat_writer history
                                 {| self := ServerTCP_init; net := [] |}))) ++ [];
     c_writer := []; c_closed := false;
     stdin := lines; stdout := []; tasks := [] |}.

(** ** The UDP peer: [ChatProtocol] *)

Module UDP.

Definition PORT : Z := 5238.

(** The [message] field of an envelope: a string in the envelopes of kind
    370, 471 and 472 that the source sends, the history list in those of
    kind 371. *)
Inductive payload : Type :=
| PStr (s : str)
| PList (l : list str).

(** The dictionary that [pack_message] pickles.  [pickle] is modelled by
    the identity: a datagram is the envelope it carries. *)
Record envelope : Type := {
  protocol_num : Z;
  username : str;
  message : payload }.

Definition address : Type := (str * Z)%type.

(** The protocol object with its transport: [sent] are the datagrams
    handed to [transport.sendto], [stdout] the printed lines. *)
Record ChatProtocol : Type := {
  USERNAME : str;
  NEW_USER : bool;
  RECENT_MESSAGES : payload;
  transport_closed : bool;
  sent : list (envelope * address);
  stdout : list str }.

(** The class attributes and [__init__]. *)
Definition ChatProtocol_init (name : str) : ChatProtocol :=
  {| USERNAME := name; NEW_USER := true; RECENT_MESSAGES := PList [];
     transport_closed := false; sent := []; stdout := [] |}.

Definition set_RECENT_MESSAGES (p : payload) (self : ChatProtocol) : ChatProtocol :=
  {| USERNAME := USERNAME self; NEW_USER := NEW_USER self;
     RECENT_MESSAGES := p; transport_closed := transport_closed self;
     sent := sent self; stdout := stdout self |}.

Definition set_NEW_USER (b : bool) (self : ChatProtocol) : ChatProtocol :=
  {| USERNAME := USERNAME self; NEW_USER := b;
     RECENT_MESSAGES := RECENT_MESSAGES self;
     transport_closed := transport_closed self;
     sent := sent self; stdout := stdout self |}.

Definition transport_close : M ChatProtocol unit :=
  modify (fun self =>
    {| USERNAME := USERNAME self; NEW_USER := NEW_USER self;
       RECENT_MESSAGES := RECENT_MESSAGES self; transport_closed := true;
       sent := sent self; stdout := stdout self |}).

Definition transport_sendto (data : envelope) (addr : address) : M ChatProtocol unit :=
  modify (fun self =>
    {| USERNAME := USERNAME self; NEW_USER := NEW_USER self;
       RECENT_MESSAGES := RECENT_MESSAGES self;
       transport_closed := transport_closed self;
       sent := sent self ++ [(data, addr)]; stdout := stdout self |}).

Definition print (line : str) : M ChatProtocol unit :=
  modify (fun self =>
    {| USERNAME := USERNAME self; NEW_USER := NEW_USER self;
       RECENT_MESSAGES := RECENT_MESSAGES self;
       transport_closed := transport_closed self;
       sent := sent self; stdout := stdout self ++ [line] |}).

Definition pack_message (protocol_num : Z) (username : str) (message : payload)
  : envelope :=
  {| protocol_num := protocol_num; username := username; message := message |}.

Definition unpack_message (message_data : envelope) : envelope := message_data.

(** [for x in p]: the elements of a list, the characters of a string. *)
Definition iterate (p : payload) : list str :=
  match p with
  | PList l => l
  | PStr s => map (fun c => [c]) s
  end.

(** The node [self] with the history [l] and the output [out]. *)
Definition heard_state (self : ChatProtocol) (l out : list str)
  : ChatProtocol :=
  {| USERNAME := USERNAME self; NEW_USER := NEW_USER self;
     RECENT_MESSAGES := PList l;
     transport_closed := transport_closed self;
     sent := sent self; stdout := out |}.

(** The node after it has adopted the history [l]. *)
Definition adopted (self : ChatProtocol) (l : list str) : ChatProtocol :=
  {| USERNAME := USERNAME self; NEW_USER := false;
     RECENT_MESSAGES := PList l;
     transport_closed := transport_closed self;
     sent := sent self; stdout := stdout self ++ l |}.

(** The node after it has sent [reply] to [addr]. *)
Definition replied (self : ChatProtocol) (reply : envelope) (addr : address)
  : ChatProtocol :=
  {| USERNAME := USERNAME self; NEW_USER := NEW_USER self;
     RECENT_MESSAGES := RECENT_MESSAGES self;
     transport_closed := transport_closed self;
     sent := sent self ++ [(reply, addr)]; stdout := stdout self |}.

Section Node.

(** [str(l)] for a list [l], which the ['%s'] of [format_message] applies
    to a message that is a list; not modelled further. *)
Variable str_of_list : list str -> str.

Definition str_of (p : payload) : str :=
  match p with
  | PStr s => s
  | PList l => str_of_list l
  end.

(** [current_time] is [datetime.now().strftime("%H:%M:%S")]. *)
Definition format_message (current_time username : str) (message : payload) : str :=
  lit "> " ++ current_time ++ lit " " ++ username ++ lit ": " ++ str_of message.

Definition send_history (username : str) (addr : address) : M ChatProtocol unit :=
  self <- get ;;
  let response :=
    if negb (str_eqb username (USERNAME self))
    then pack_message 371 (USERNAME self) (RECENT_MESSAGES self)
    else pack_message 370 [] (PStr []) in
  transport_sendto response (fst addr, PORT).

(** [len(self.RECENT_MESSAGES)] *)
Definition len (p : payload) : Z :=
  match p with
  | PList l => Z.of_nat (List.length l)
  | PStr s => Z.of_nat (List.length s)
  end.

(** A list method on [self.RECENT_MESSAGES]; a string has neither [pop] nor
    [append]: [AttributeError]. *)
Definition on_history {A} (m : M (list str) A) : M ChatProtocol A :=
  fun self =>
    match RECENT_MESSAGES self with
    | PList l => let (r, l') := m l in (r, set_RECENT_MESSAGES (PList l') self)
    | PStr _ => (Raise AttributeError, self)
    end.

(** Lines 106 and 107. *)
Definition evict_if_full : M ChatProtocol unit :=
  self <- get ;;
  if 10 <=? len (RECENT_MESSAGES self)
  then on_history (_ <- list_pop0 ;; ret tt)
  else ret tt.

(** Lines 106 to 109. *)
Definition on_chat_broadcast (new_message : str) : M ChatProtocol unit :=
  evict_if_full ;;
  on_history (list_append new_message) ;;
  print new_message.

(** [now] is the clock of the receiver and [my_ip] the result of
    [get_ip()] when the datagram arrives. *)
Definition datagram_received (now my_ip : str) (data : envelope) (addr : address)
  : M ChatProtocol unit :=
  let message_data := unpack_message data in
  let protocol_num := protocol_num message_data in
  let username := username message_data in
  let message := message message_data in
  (if protocol_num =? 370 then transport_close else ret tt) ;;
  (if protocol_num =? 371 then
     self <- get ;;
     if NEW_USER self then
       modify (set_RECENT_MESSAGES message) ;;
       for_each (iterate message) print ;;
       modify (set_NEW_USER false)
     else ret tt
   else ret tt) ;;
  (if protocol_num =? 471 then
     if negb (str_eqb (fst addr) my_ip) then send_history username addr
     else ret tt
   else ret tt) ;;
  (if protocol_num =? 472 then
     on_chat_broadcast (format_message now username message)
   else ret tt).

(** The datagrams of a node are handled one after the other. *)
Fixpoint receive_all (my_ip : str) (ds : list (str * envelope * address))
  : M ChatProtocol unit :=
  match ds with
  | [] => ret tt
  | (now, data, addr) :: ds' =>
      datagram_received now my_ip data addr ;; receive_all my_ip ds'
  end.

(** A chat line heard by a node: the envelope that [get_messages] sends
    for it (line 78), the sender's address and the receiver's clock. *)
Record heard : Type := {
  h_now : str;
  h_username : str;
  h_text : str;
  h_addr : address }.

Definition datagram_of (c : heard) : str * envelope * address :=
  (h_now c, pack_message 472 (h_username c) (PStr (h_text c)), h_addr c).

Definition line_of (c : heard) : str :=
  format_message (h_now c) (h_username c) (PStr (h_text c)).

End Node.

End UDP.

(** ** Relations between the states before and after a computation *)

(** [respects R m]: from any state, [m] ends in a state related to it by
    [R], whether it returns or raises. *)
Definition respects {S A} (R : S -> S -> Prop) (m : M S A) : Prop :=
  forall s, R s (snd (m s)).

(** Reading only shortens the reader. *)
Definition shorter (rd rd' : StreamReader) : Prop :=
  (List.length rd' <= List.length rd)%nat.

Definition reader_shorter (h h' : Handler) : Prop :=
  shorter (reader h) (reader h').

(** [USERNAMES_LIST] is the same in both states. *)
Definition same_names_tcp (a b : ServerTCP) : Prop :=
  USERNAMES_LIST b = USERNAMES_LIST a.

Definition same_names_sv (a b : Server) : Prop :=
  same_names_tcp (self a) (self b).

Definition same_names (a b : Handler) : Prop :=
  same_names_sv (server a) (server b).

(** No username is registered twice. *)
Definition unique_names (h : Handler) : Prop := NoDup (usernames (server h)).

Definition keeps_unique (h h' : Handler) : Prop :=
  unique_names h -> unique_names h'.

(** The latch once cleared stays cleared, whatever arrives. *)
Definition latch_stays (a b : UDP.ChatProtocol) : Prop :=
  UDP.NEW_USER a = false -> UDP.NEW_USER b = false.

(** The latch is not touched. *)
Definition latch_same (a b : UDP.ChatProtocol) : Prop :=
  UDP.NEW_USER b = UDP.NEW_USER a.

(** What an accepted client is sent after the byte of the answer: the
    run of [send_history] on the server. *)
Definition history_frames (history : list message_t) (payloads : list bytes) : Prop :=
  Forall2 (fun m pl => sends (send_str_list (list_of_message m)) pl)
          history payloads.

(** ** The two loops of the TCP client *)

(** [input()] without a prompt, as [send_message] runs it in the
    executor. *)
Definition read_line : M Client str :=
  c <- get ;;
  match stdin c with
  | [] => raise EOFError
  | line :: rest =>
      put {| c_reader := c_reader c; c_writer := c_writer c;
             c_closed := c_closed c; stdin := rest; stdout := stdout c;
             tasks := tasks c |} ;;
      ret line
  end.

Definition goodbye : str := lit "You left the chatroom. Goodbye.".

(** Lines 123 to 139.  [clock] holds what
    [datetime.now().strftime("%H:%M:%S")] gives in the successive
    iterations; the model stops with [None] when it has no reading left. *)
Fixpoint send_message (clock : list str) (username : str) : M Client (option unit) :=
  match clock with
  | [] => ret None
  | str_time :: clock' =>
      message <- read_line ;;
      match message with
      | [] => print goodbye ;; ret (Some tt)
      | _ :: _ =>
          c_send (send_single_value fmt_i (VInt 472)) ;;
          c_send (send_str_list [str_time; username; message]) ;;
          send_message clock' username
      end
  end.

(** [print(a, b + ':', c)] *)
Definition print_line (a b c : str) : str :=
  a ++ lit " " ++ (b ++ lit ":") ++ lit " " ++ c.

(** One iteration of the loop of lines 146 to 155. *)
Definition recv_new_message_body : M Client ctl :=
  received <- try_except
    (new_message_response <- c_recv recv_int ;; ret (Some new_message_response))
    (fun _ => ret None) ;;
  match received with
  | None => ret Break
  | Some new_message_response =>
      if new_message_response =? 372 then
        message <- c_recv recv_str_list ;;
        a <- list_index message 0 ;;
        b <- list_index message 1 ;;
        c <- list_index message 2 ;;
        print (print_line a b c) ;;
        ret Continue
      else ret Continue
  end.

(** Lines 142 to 155; every iteration that continues has read a tag. *)
Definition recv_new_message : M Client (option ctl) :=
  c <- get ;;
  while_true (Datatypes.S (List.length (c_reader c))) recv_new_message_body.

(** The client with the reader [rd] and the printed lines [lines] added. *)
Definition heard_client (c : Client) (rd : StreamReader) (lines : list str) : Client :=
  {| c_reader := rd; c_writer := c_writer c; c_closed := c_closed c;
     stdin := stdin c; stdout := stdout c ++ lines; tasks := tasks c |}.

(** The client after it has written [sent], read its input down to [more]
    and printed [lines]. *)
Definition typed_client (c : Client) (sent : bytes) (more lines : list str) : Client :=
  {| c_reader := c_reader c; c_writer := c_writer c ++ sent;
     c_closed := c_closed c; stdin := more; stdout := stdout c ++ lines;
     tasks := tasks c |}.

(** ** The input task of the UDP peer *)

Module UDPInput.

Import UDP.

Definition BROADCAST : address := (lit "255.255.255.255", PORT).

(** The loop of lines 71 to 79 on the lines that [input()] returns. *)
Fixpoint get_messages_loop (lines : list str) : M ChatProtocol unit :=
  match lines with
  | [] => raise EOFError
  | message :: rest =>
      match message with
      | [] => transport_close
      | _ :: _ =>
          self <- get ;;
          transport_sendto (pack_message 472 (USERNAME self) (PStr message))
                           BROADCAST ;;
          get_messages_loop rest
      end
  end.

(** Lines 62 to 79. *)
Definition get_messages (lines : list str) : M ChatProtocol unit :=
  self <- get ;;
  transport_sendto (pack_message 471 (USERNAME self) (PStr [])) BROADCAST ;;
  get_messages_loop lines.

(** The node after it has sent the envelopes [out] and closed or not. *)
Definition spoken (self : ChatProtocol) (out : list (envelope * address))
           (closed : bool) : ChatProtocol :=
  {| USERNAME := USERNAME self; NEW_USER := NEW_USER self;
     RECENT_MESSAGES := RECENT_MESSAGES self;
     transport_closed := closed;
     sent := sent self ++ out; stdout := stdout self |}.

End UDPInput.

(** ** States of the server after a join *)

(** What the server writes to a connection that it accepts: the answer,
    the tag 371, the count and the entries of the history. *)
Definition welcome (w : StreamWriter) (tag count : bytes) (payloads : list bytes)
  : list io :=
  [Wrote w (pack_q true); Wrote w tag; Wrote w count] ++ map (Wrote w) payloads.

(** The state after the connection of [w] has joined as [name]. *)
Definition joined (w : StreamWriter) (name : str) (tag count : bytes)
           (payloads : list bytes) (rest : StreamReader) (h : Handler) : Handler :=
  {| server :=
       {| self := set_USERNAMES_LIST
                    (USERNAMES_LIST (self (server h)) ++ [(peername w, name)])
                    (self (server h));
          net := net (server h) ++ welcome w tag count payloads |};
     reader := rest;
     user_info := Some (peername w, name) |}.

(** What a step of the connection of [w], whose record is [uo], leaves in
    place: the writers of the others, the records of the others, and the
    bound on the history. *)
Definition keeps_others_tcp (w : StreamWriter) (uo : option user_t)
           (a b : ServerTCP) : Prop :=
  (forall w', w' <> w -> In w' (WRITERS a) -> In w' (WRITERS b)) /\
  (forall u', Some u' <> uo -> In u' (USERNAMES_LIST a) -> In u' (USERNAMES_LIST b)) /\
  ((List.length (RECENT_MESSAGES a) <= 10)%nat ->
   (List.length (RECENT_MESSAGES b) <= 10)%nat).

Definition keeps_others (w : StreamWriter) (uo : option user_t)
           (a b : Handler) : Prop :=
  keeps_others_tcp w uo (self (server a)) (self (server b)).

(** The server object is untouched. *)
Definition same_self (a b : Server) : Prop := self b = self a.

(** The history [hist] after the messages [msgs] have gone through
    [update_history]. *)
Definition record_all (hist msgs : list message_t) : list message_t :=
  fold_left (fun hist m => evicted hist ++ [m]) msgs hist.

(** The state after the frames [frames] of the messages [msgs] were
    handled: each was fanned out, then recorded. *)
Definition posted_all (tag : bytes) (frames : list bytes) (msgs : list message_t)
           (rest : StreamReader) (h : Handler) : Handler :=
  {| server :=
       {| self := set_RECENT_MESSAGES
                    (record_all (RECENT_MESSAGES (self (server h))) msgs)
                    (self (server h));
          net := net (server h) ++
                 flat_map (fun p => fan_out tag p (WRITERS (self (server h)))) frames |};
     reader := rest;
     user_info := user_info h |}.

(** A chat line typed at [time]: the strings that [send_message] sends. *)
Definition typed (username : str) (said : str * str) : list str :=
  [fst said; username; snd said].

Definition message_of (username : str) (said : str * str) : message_t :=
  (fst said, username, snd said).

(** [frames] are the bytes of the lines [said], none of them empty. *)
Definition typed_frames (username : str) (said : list (str * str))
           (frames : list bytes) : Prop :=
  Forall2 (fun s p => snd s <> [] /\ sends (send_str_list (typed username s)) p)
          said frames.

(** The node with its transport closed. *)
Definition hung_up (self : UDP.ChatProtocol) : UDP.ChatProtocol :=
  {| UDP.USERNAME := UDP.USERNAME self; UDP.NEW_USER := UDP.NEW_USER self;
     UDP.RECENT_MESSAGES := UDP.RECENT_MESSAGES self;
     UDP.transport_closed := true;
     UDP.sent := UDP.sent self; UDP.stdout := UDP.stdout self |}.

(** * Proofs *)

(** ** Bytes *)

Lemma b2z_z2b (z : Z) : 0 <= z < 256 -> b2z (z2b z) = z.
Proof.
  intros Hz. unfold b2z, z2b.
  destruct (Byte.of_N (Z.to_N z)) as [b|] eqn:E.
  - apply Byte.to_of_N in E. rewrite E. lia.
  - apply Byte.of_N_None_iff in E. lia.
Qed.

Lemma b2z_range (b : byte) : 0 <= b2z b < 256.
Proof.
  unfold b2z. pose proof (Byte.to_N_bounded b). lia.
Qed.

Ltac byte_arith := Z.div_mod_to_equations; lia.

Lemma Some_eq {A} (x y : A) : Some x = Some y -> x = y.
Proof. congruence. Qed.

(** ** UTF-8 *)

Lemma decode_code_point (c : Z) (bs rest : bytes) :
  encode_code_point c = Some bs ->
  decode (bs ++ rest) = cons_ok c (decode rest).
Proof.
  unfold encode_code_point, scalar_value, is_surrogate.
  destruct (0 <=? c) eqn:H0; [|discriminate].
  destruct (c <=? 1114111) eqn:H1; [|discriminate].
  apply Z.leb_le in H0, H1.
  destruct ((55296 <=? c) && (c <=? 57343)) eqn:Hs; [discriminate|].
  assert (Hsur : c < 55296 \/ 57343 < c).
  { apply andb_false_iff in Hs. destruct Hs as [Hs|Hs]; apply Z.leb_gt in Hs; lia. }
  cbn [negb andb].
  destruct (c <? 128) eqn:C1.
  { apply Z.ltb_lt in C1. intros E; apply Some_eq in E; subst bs. cbn [app decode].
    rewrite b2z_z2b by lia.
    replace (c <? 128) with true by (symmetry; apply Z.ltb_lt; lia).
    reflexivity. }
  apply Z.ltb_ge in C1.
  destruct (c <? 2048) eqn:C2.
  { apply Z.ltb_lt in C2. intros E; apply Some_eq in E; subst bs. cbn [app decode].
    unfold continuation, tail6, in_range.
    rewrite !b2z_z2b by byte_arith.
    replace (192 + c / 64 <? 128) with false by (symmetry; apply Z.ltb_ge; byte_arith).
    replace ((194 <=? 192 + c / 64) && (192 + c / 64 <=? 223)) with true
      by (symmetry; apply andb_true_iff; split; apply Z.leb_le; byte_arith).
    replace ((128 <=? 128 + c mod 64) && (128 + c mod 64 <=? 191)) with true
      by (symmetry; apply andb_true_iff; split; apply Z.leb_le; byte_arith).
    replace ((192 + c / 64 - 192) * 64 + (128 + c mod 64 - 128)) with c by byte_arith.
    reflexivity. }
  apply Z.ltb_ge in C2.
  destruct (c <? 65536) eqn:C3.
  { apply Z.ltb_lt in C3. intros E; apply Some_eq in E; subst bs. cbn [app decode].
    unfold continuation, tail6, in_range.
    rewrite !b2z_z2b by byte_arith.
    replace (224 + c / 4096 <? 128) with false by (symmetry; apply Z.ltb_ge; byte_arith).
    replace ((194 <=? 224 + c / 4096) && (224 + c / 4096 <=? 223)) with false
      by (symmetry; apply andb_false_iff; right; apply Z.leb_gt; byte_arith).
    replace ((224 <=? 224 + c / 4096) && (224 + c / 4096 <=? 239)) with true
      by (symmetry; apply andb_true_iff; split; apply Z.leb_le; byte_arith).
    replace ((128 <=? 128 + c mod 64) && (128 + c mod 64 <=? 191)) with true
      by (symmetry; apply andb_true_iff; split; apply Z.leb_le; byte_arith).
    match goal with
    | |- (if ?b && true then _ else _) = _ =>
        replace b with true
    end.
    - cbn [andb].
      replace ((224 + c / 4096 - 224) * 4096 + (128 + (c / 64) mod 64 - 128) * 64
               + (128 + c mod 64 - 128)) with c by byte_arith.
      reflexivity.
    - symmetry. apply andb_true_iff. split; apply Z.leb_le.
      + destruct (224 + c / 4096 =? 224) eqn:E;
          [apply Z.eqb_eq in E | apply Z.eqb_neq in E]; byte_arith.
      + destruct (224 + c / 4096 =? 237) eqn:E;
          [apply Z.eqb_eq in E | apply Z.eqb_neq in E]; byte_arith. }
  apply Z.ltb_ge in C3.
  intros E; apply Some_eq in E; subst bs. cbn [app decode].
  unfold continuation, tail6, in_range.
  rewrite !b2z_z2b by byte_arith.
  replace (240 + c / 262144 <? 128) with false by (symmetry; apply Z.ltb_ge; byte_arith).
  replace ((194 <=? 240 + c / 262144) && (240 + c / 262144 <=? 223)) with false
    by (symmetry; apply andb_false_iff; right; apply Z.leb_gt; byte_arith).
  replace ((224 <=? 240 + c / 262144) && (240 + c / 262144 <=? 239)) with false
    by (symmetry; apply andb_false_iff; right; apply Z.leb_gt; byte_arith).
  replace ((240 <=? 240 + c / 262144) && (240 + c / 262144 <=? 244)) with true
    by (symmetry; apply andb_true_iff; split; apply Z.leb_le; byte_arith).
  replace ((128 <=? 128 + c mod 64) && (128 + c mod 64 <=? 191)) with true
    by (symmetry; apply andb_true_iff; split; apply Z.leb_le; byte_arith).
  replace ((128 <=? 128 + (c / 64) mod 64) && (128 + (c / 64) mod 64 <=? 191)) with true
    by (symmetry; apply andb_true_iff; split; apply Z.leb_le; byte_arith).
  match goal with
  | |- (if ?b && true && true then _ else _) = _ => replace b with true
  end.
  - cbn [andb].
    replace ((240 + c / 262144 - 240) * 262144 + (128 + (c / 4096) mod 64 - 128) * 4096
             + (128 + (c / 64) mod 64 - 128) * 64 + (128 + c mod 64 - 128))
      with c by byte_arith.
    reflexivity.
  - symmetry. apply andb_true_iff. split; apply Z.leb_le.
    + destruct (240 + c / 262144 =? 240) eqn:E;
        [apply Z.eqb_eq in E | apply Z.eqb_neq in E]; byte_arith.
    + destruct (240 + c / 262144 =? 244) eqn:E;
        [apply Z.eqb_eq in E | apply Z.eqb_neq in E]; byte_arith.
Qed.

Lemma decode_encode (s : str) :
  forall bs, encode s = Ok bs -> decode bs = Ok s.
Proof.
  induction s as [|c s IH]; intros bs E; cbn [encode] in E.
  - assert (bs = []) by congruence. subst. reflexivity.
  - destruct (encode_code_point c) as [cb|] eqn:Ec; [|discriminate].
    destruct (encode s) as [r|e]; [|discriminate].
    assert (bs = cb ++ r) by congruence. subst bs.
    rewrite (decode_code_point _ _ _ Ec), (IH r eq_refl). reflexivity.
Qed.

Lemma encode_code_point_length (c : Z) (bs : bytes) :
  encode_code_point c = Some bs -> (List.length bs <= 4)%nat.
Proof.
  unfold encode_code_point.
  destruct (negb (scalar_value c)); [discriminate|].
  destruct (c <? 128); [|destruct (c <? 2048); [|destruct (c <? 65536)]];
    intros E; apply Some_eq in E; subst bs; cbn [List.length]; lia.
Qed.

Lemma encode_total (s : str) :
  Forall (fun c => scalar_value c = true) s ->
  exists bs, encode s = Ok bs /\ (List.length bs <= 4 * List.length s)%nat.
Proof.
  induction 1 as [|c s Hc _ IH].
  - exists []. split; [reflexivity | cbn; lia].
  - destruct IH as (r & Er & Hr). cbn [encode]. rewrite Er.
    destruct (encode_code_point c) as [cb|] eqn:Ec.
    + exists (cb ++ r). split; [reflexivity|].
      apply encode_code_point_length in Ec.
      rewrite length_app. cbn [List.length]. lia.
    + unfold encode_code_point in Ec. rewrite Hc in Ec. cbn [negb] in Ec.
      destruct (c <? 128); [|destruct (c <? 2048); [|destruct (c <? 65536)]];
        discriminate.
Qed.

(** ** [struct] *)

Lemma unpack_pack_i (v : Z) (bs : bytes) :
  pack_i v = Ok bs -> struct_unpack fmt_i bs = Ok (VInt v).
Proof.
  unfold pack_i.
  destruct ((-2147483648 <=? v) && (v <=? 2147483647)) eqn:R; [|discriminate].
  apply andb_true_iff in R. destruct R as [Lo Hi].
  apply Z.leb_le in Lo, Hi.
  intros E. assert (Hbs : bs = [z2b (v mod 256); z2b ((v / 256) mod 256);
        z2b ((v / 65536) mod 256); z2b ((v / 16777216) mod 256)]) by congruence.
  subst bs. cbn [struct_unpack].
  rewrite !b2z_z2b by byte_arith.
  do 2 f_equal.
  destruct (_ <? 2147483648) eqn:S;
    [apply Z.ltb_lt in S | apply Z.ltb_ge in S]; byte_arith.
Qed.

Lemma pack_i_length (v : Z) (bs : bytes) :
  pack_i v = Ok bs -> List.length bs = 4%nat.
Proof.
  unfold pack_i. destruct (_ && _); [|discriminate].
  intros E. assert (Hbs : bs = [z2b (v mod 256); z2b ((v / 256) mod 256);
        z2b ((v / 65536) mod 256); z2b ((v / 16777216) mod 256)]) by congruence.
  subst bs. reflexivity.
Qed.

Lemma pack_i_total (v : Z) :
  -2147483648 <= v <= 2147483647 -> exists bs, pack_i v = Ok bs.
Proof.
  intros [Lo Hi]. unfold pack_i.
  replace ((-2147483648 <=? v) && (v <=? 2147483647)) with true; [eauto|].
  symmetry. apply andb_true_iff. split; apply Z.leb_le; lia.
Qed.

(** ** Reading what was written *)

Lemma read_exact (data rest : bytes) :
  read (Z.of_nat (List.length data)) (data ++ rest) = (Ok data, rest).
Proof.
  unfold read. destruct data as [|b data].
  - reflexivity.
  - replace (Z.of_nat (List.length (b :: data)) =? 0) with false
      by (symmetry; apply Z.eqb_neq; cbn [List.length]; lia).
    replace (Z.of_nat (List.length (b :: data)) <? 0) with false
      by (symmetry; apply Z.ltb_ge; lia).
    rewrite Nat2Z.id, firstn_app, skipn_app, Nat.sub_diag, firstn_all, skipn_all.
    cbn [firstn skipn]. rewrite app_nil_r. reflexivity.
Qed.

Lemma recv_int_pack (v : Z) (hdr rest : bytes) :
  pack_i v = Ok hdr -> recv_int (hdr ++ rest) = (Ok v, rest).
Proof.
  intros E. unfold recv_int, recv_single_value, recv_formatted_data, bind.
  pose proof (read_exact hdr rest) as R.
  rewrite (pack_i_length _ _ E) in R. cbn [calcsize]. change (Z.of_nat 4) with 4 in R.
  rewrite R. unfold lift_outcome. rewrite (unpack_pack_i _ _ E). reflexivity.
Qed.

Lemma send_str_inv (s : str) (out out' : bytes) :
  send_str s out = (Ok tt, out') ->
  exists body hdr,
    encode s = Ok body /\ pack_i (Z.of_nat (List.length body)) = Ok hdr /\
    out' = out ++ hdr ++ body /\ sends (send_str s) (hdr ++ body).
Proof.
  unfold send_str, bind, lift_outcome, write, modify.
  destruct (encode s) as [body|e] eqn:Ee; [|discriminate].
  destruct (pack_i (Z.of_nat (List.length body))) as [hdr|e] eqn:Ep; [|discriminate].
  intros E. exists body, hdr.
  split; [reflexivity|]. split; [assumption|]. split; [congruence|].
  intros o. reflexivity.
Qed.

Lemma recv_str_wire (s : str) (body hdr rest : bytes) :
  encode s = Ok body -> pack_i (Z.of_nat (List.length body)) = Ok hdr ->
  recv_str ((hdr ++ body) ++ rest) = (Ok s, rest).
Proof.
  intros Ee Ep. unfold recv_str, bind. rewrite <- app_assoc.
  rewrite (recv_int_pack _ _ _ Ep), read_exact.
  unfold lift_outcome. rewrite (decode_encode _ _ Ee). reflexivity.
Qed.

Lemma recv_send_str (s : str) (data rest : bytes) :
  sends (send_str s) data -> recv_str (data ++ rest) = (Ok s, rest).
Proof.
  intros Hs. destruct (send_str_inv s [] _ (Hs [])) as (body & hdr & Ee & Ep & Eo & _).
  cbn [app] in Eo. rewrite Eo. apply recv_str_wire; assumption.
Qed.

Lemma send_str_ok (s : str) (out out' : bytes) :
  send_str s out = (Ok tt, out') ->
  exists data, out' = out ++ data /\ sends (send_str s) data.
Proof.
  intros E. destruct (send_str_inv _ _ _ E) as (body & hdr & _ & _ & Eo & Hs).
  eauto.
Qed.

Lemma for_each_send_str_ok (ss : list str) :
  forall out out',
    for_each ss send_str out = (Ok tt, out') ->
    exists data,
      out' = out ++ data /\ sends (for_each ss send_str) data /\
      forall rest,
        replicateM (List.length ss) recv_str (data ++ rest) = (Ok ss, rest).
Proof.
  induction ss as [|s ss IH]; intros out out' E.
  - cbn in E. unfold ret in E. exists []. rewrite app_nil_r.
    split; [congruence|]. split; [|reflexivity].
    intros o. cbn. unfold ret. rewrite app_nil_r. reflexivity.
  - cbn [for_each] in E. unfold bind in E.
    destruct (send_str s out) as [[[]|e] o1] eqn:E1; [|discriminate].
    destruct (send_str_ok _ _ _ E1) as (d1 & -> & H1).
    destruct (IH _ _ E) as (d2 & -> & H2 & R2).
    exists (d1 ++ d2). split; [symmetry; apply app_assoc|]. split.
    + intros o. cbn [for_each]. unfold bind. rewrite H1, H2, app_assoc. reflexivity.
    + intros rest. cbn [List.length replicateM]. unfold bind.
      rewrite <- app_assoc, (recv_send_str _ _ _ H1), R2. reflexivity.
Qed.

Lemma send_str_list_ok (ss : list str) (out out' : bytes) :
  send_str_list ss out = (Ok tt, out') ->
  exists data,
    out' = out ++ data /\ sends (send_str_list ss) data /\
    forall rest, recv_str_list (data ++ rest) = (Ok ss, rest).
Proof.
  unfold send_str_list, bind, lift_outcome, write, modify.
  destruct (pack_i (Z.of_nat (List.length ss))) as [hdr|e] eqn:Ep; [|discriminate].
  intros E. destruct (for_each_send_str_ok _ _ _ E) as (d & -> & Hd & R).
  exists (hdr ++ d). split; [symmetry; apply app_assoc|]. split.
  - intros o. rewrite Hd, app_assoc. reflexivity.
  - intros rest. unfold recv_str_list, bind.
    rewrite <- app_assoc, (recv_int_pack _ _ _ Ep), Nat2Z.id. apply R.
Qed.

Lemma send_str_total (s : str) (out : bytes) :
  Forall (fun c => scalar_value c = true) s ->
  4 * Z.of_nat (List.length s) <= 2147483647 ->
  exists out', send_str s out = (Ok tt, out').
Proof.
  intros Hs Hl. destruct (encode_total _ Hs) as (body & Ee & Hb).
  destruct (pack_i_total (Z.of_nat (List.length body))) as (hdr & Ep); [lia|].
  unfold send_str, bind, lift_outcome, write, modify. rewrite Ee, Ep. eauto.
Qed.

Lemma send_str_list_total (ss : list str) (out : bytes) :
  Forall sendable ss ->
  Z.of_nat (List.length ss) <= 2147483647 ->
  exists out', send_str_list ss out = (Ok tt, out').
Proof.
  intros Hs Hl.
  destruct (pack_i_total (Z.of_nat (List.length ss))) as (hdr & Ep); [lia|].
  unfold send_str_list, bind, lift_outcome, write, modify. rewrite Ep.
  generalize (out ++ hdr). clear Ep Hl.
  induction Hs as [|s ss [Hc Hn] _ IH]; intros o.
  - cbn. unfold ret. eauto.
  - destruct (send_str_total s o Hc Hn) as (o1 & E1).
    cbn [for_each]. unfold bind. rewrite E1. apply IH.
Qed.

(** C4.  Round trip of the string codec.  Whenever [send_str] writes a
    string [s] (the empty one, or one with code points that take several
    bytes), [recv_str] on the written bytes, whatever follows them on the
    stream, returns [s] and leaves what follows; whenever [send_str_list]
    writes a list [L], [recv_str_list] returns [L].  The encoders do write:
    [send_str] succeeds on every string of Unicode scalar values of less
    than 2^29 code points, [send_str_list] on every list of less than 2^31
    such strings. *)
Theorem codec_round_trip (s : str) (L : list str) (out : bytes) :
  (forall out',
      send_str s out = (Ok tt, out') ->
      exists data, out' = out ++ data /\
        forall rest, recv_str (data ++ rest) = (Ok s, rest)) /\
  (forall out',
      send_str_list L out = (Ok tt, out') ->
      exists data, out' = out ++ data /\
        forall rest, recv_str_list (data ++ rest) = (Ok L, rest)) /\
  (sendable s -> exists out', send_str s out = (Ok tt, out')) /\
  (Forall sendable L -> Z.of_nat (List.length L) <= 2147483647 ->
   exists out', send_str_list L out = (Ok tt, out')).
Proof.
  repeat split.
  - intros out' E. destruct (send_str_ok _ _ _ E) as (d & -> & Hd).
    exists d. split; [reflexivity|]. intros rest. apply recv_send_str, Hd.
  - intros out' E. destruct (send_str_list_ok _ _ _ E) as (d & -> & _ & R).
    exists d. split; [reflexivity | exact R].
  - intros [Hc Hn]. apply send_str_total; assumption.
  - intros Hs Hn. apply send_str_list_total; assumption.
Qed.

Lemma codec_round_trip_witness :
  (exists data,
      wire (send_str sample) = [] ++ data /\
      forall rest, recv_str (data ++ rest) = (Ok sample, rest)) /\
  (exists data,
      wire (send_str_list [[]; sample]) = [] ++ data /\
      forall rest, recv_str_list (data ++ rest) = (Ok [[]; sample], rest)) /\
  (exists out', send_str sample [] = (Ok tt, out')) /\
  (exists out', send_str_list [[]; sample] [] = (Ok tt, out')).
Proof.
  assert (Hs : sendable sample).
  { split; [repeat constructor | cbn; lia]. }
  destruct (codec_round_trip sample [[]; sample] []) as (H1 & H2 & H3 & H4).
  split; [apply H1; reflexivity|].
  split; [apply H2; reflexivity|].
  split; [apply H3; exact Hs|].
  apply H4; [|cbn; lia].
  constructor; [split; [constructor | cbn; lia]|].
  constructor; [exact Hs | constructor].
Defined.

(** The multi-byte string on the wire: the length prefix counts the ten
    bytes of the encoding, not the four characters. *)
Example sample_on_the_wire :
  wire (send_str sample) =
  [x0a; x00; x00; x00; x68; xc3; xa9; xe2; x82; xac; xf0; x9f; x98; x80].
Proof. reflexivity. Qed.

(** C5, at the failing input.  The prefix announces five bytes and the
    stream ends after two: [recv_str] returns the two-character string made
    of them, and [recv_str_list] a list that holds it, where
    [recv_formatted_data] on a stream that is too short raises
    [struct.error]. *)
Theorem recv_str_accepts_short_read :
  recv_str [x05; x00; x00; x00; x61; x62] = (Ok [0x61; 0x62], []) /\
  recv_str_list [x01; x00; x00; x00; x05; x00; x00; x00; x61; x62] =
    (Ok [[0x61; 0x62]], []) /\
  recv_formatted_data fmt_i [x05; x00] = (Raise struct_error, []).
Proof. repeat split; reflexivity. Qed.

(** ** The history buffer *)

Ltac monad_unfold :=
  unfold bind, ret, get, put, modify, raise, zoom, lift_outcome, try_except in *.

Lemma for_each_app {S A} (f : A -> M S unit) (a b : list A) (s : S) :
  for_each (a ++ b) f s = (for_each a f ;; for_each b f) s.
Proof.
  revert s. induction a as [|x a IH]; intros s; cbn [app for_each].
  - reflexivity.
  - unfold bind in *. destruct (f x s) as [[[]|e] s1]; [apply IH | reflexivity].
Qed.

Lemma tl_skipn {A} (k : nat) (l : list A) : tl (skipn k l) = skipn (S k) l.
Proof.
  revert l. induction k as [|k IH]; intros l.
  - destruct l; reflexivity.
  - destruct l as [|x l]; [reflexivity|]. cbn [skipn]. apply IH.
Qed.

Lemma last_n_length {A} (n : nat) (l : list A) :
  List.length (last_n n l) = Nat.min (List.length l) n.
Proof. unfold last_n. rewrite length_skipn. lia. Qed.

Lemma evicted_last_n {A} (l : list A) :
  evicted (last_n 10 l) = last_n 9 l.
Proof.
  unfold evicted. rewrite last_n_length. unfold last_n.
  destruct (10 <=? Z.of_nat (Nat.min (List.length l) 10)) eqn:E.
  - apply Z.leb_le in E. rewrite tl_skipn. f_equal. lia.
  - apply Z.leb_gt in E. f_equal. lia.
Qed.

Lemma push_last_n {A} (l : list A) (x : A) :
  evicted (last_n 10 l) ++ [x] = last_n 10 (l ++ [x]).
Proof.
  rewrite evicted_last_n. unfold last_n.
  rewrite length_app. cbn [List.length]. rewrite skipn_app.
  replace (List.length l + 1 - 10)%nat with (List.length l - 9)%nat by lia.
  replace (List.length l - 9 - List.length l)%nat with 0%nat by lia.
  reflexivity.
Qed.

Lemma evict_if_full_spec (self : ServerTCP) :
  evict_if_full self =
  (Ok tt, set_RECENT_MESSAGES (evicted (RECENT_MESSAGES self)) self).
Proof.
  unfold evict_if_full, evicted. monad_unfold.
  destruct (10 <=? Z.of_nat (List.length (RECENT_MESSAGES self))) eqn:E.
  - destruct (RECENT_MESSAGES self) as [|x h] eqn:Eh; [discriminate|].
    unfold list_pop0. reflexivity.
  - destruct self; reflexivity.
Qed.

Lemma update_history_spec (time username message : str) (self : ServerTCP) :
  update_history time username message self =
  (Ok tt, set_RECENT_MESSAGES
            (evicted (RECENT_MESSAGES self) ++ [(time, username, message)]) self).
Proof.
  unfold update_history, bind. rewrite evict_if_full_spec.
  unfold list_append. monad_unfold. reflexivity.
Qed.

Lemma record_all_spec (msgs : list message_t) :
  for_each msgs record_message ServerTCP_init =
  (Ok tt, set_RECENT_MESSAGES (last_n 10 msgs) ServerTCP_init).
Proof.
  induction msgs as [|[[t u] x] msgs IH] using rev_ind.
  - reflexivity.
  - rewrite for_each_app. unfold bind at 1. rewrite IH.
    cbn [for_each record_message]. unfold bind.
    rewrite update_history_spec. unfold ret.
    cbn [RECENT_MESSAGES set_RECENT_MESSAGES]. rewrite push_last_n. reflexivity.
Qed.

Section UDPHistory.

Variable str_of_list : list str -> str.

Lemma udp_evict_if_full_spec (self : UDP.ChatProtocol) (l : list str) :
  UDP.RECENT_MESSAGES self = UDP.PList l ->
  UDP.evict_if_full self =
  (Ok tt, UDP.set_RECENT_MESSAGES (UDP.PList (evicted l)) self).
Proof.
  intros E. unfold UDP.evict_if_full, UDP.on_history, evicted. monad_unfold.
  rewrite E. cbn [UDP.len].
  destruct (10 <=? Z.of_nat (List.length l)) eqn:C.
  - destruct l as [|x l]; [discriminate|]. rewrite E. reflexivity.
  - destruct self; cbn in *; subst; reflexivity.
Qed.

Lemma on_chat_broadcast_spec (self : UDP.ChatProtocol) (l : list str) (line : str) :
  UDP.RECENT_MESSAGES self = UDP.PList l ->
  UDP.on_chat_broadcast line self =
  (Ok tt, UDP.heard_state self (evicted l ++ [line]) (UDP.stdout self ++ [line])).
Proof.
  intros E. unfold UDP.on_chat_broadcast, bind.
  rewrite (udp_evict_if_full_spec _ _ E).
  unfold UDP.on_history, list_append, UDP.print. monad_unfold. reflexivity.
Qed.

Lemma datagram_received_472 (my_ip : str) (c : UDP.heard) (self : UDP.ChatProtocol) :
  let '(now, data, addr) := UDP.datagram_of c in
  UDP.datagram_received str_of_list now my_ip data addr self =
  UDP.on_chat_broadcast (UDP.line_of str_of_list c) self.
Proof.
  unfold UDP.datagram_of, UDP.datagram_received, UDP.line_of. cbn.
  unfold bind, ret.
  destruct (UDP.on_chat_broadcast _ self) as [[[]|e] s]; reflexivity.
Qed.

Lemma receive_all_app (my_ip : str) (a b : list (str * UDP.envelope * UDP.address))
      (s : UDP.ChatProtocol) :
  UDP.receive_all str_of_list my_ip (a ++ b) s =
  (UDP.receive_all str_of_list my_ip a ;; UDP.receive_all str_of_list my_ip b) s.
Proof.
  revert s. induction a as [|[[now d] addr] a IH]; intros s; cbn [app UDP.receive_all].
  - reflexivity.
  - unfold bind in *.
    destruct (UDP.datagram_received _ _ _ _ _ s) as [[[]|e] s1];
      [apply IH | reflexivity].
Qed.

Lemma receive_chats_spec (name my_ip : str) (chats : list UDP.heard) :
  let lines := map (UDP.line_of str_of_list) chats in
  UDP.receive_all str_of_list my_ip (map UDP.datagram_of chats)
                  (UDP.ChatProtocol_init name) =
  (Ok tt, UDP.heard_state (UDP.ChatProtocol_init name) (last_n 10 lines) lines).
Proof.
  induction chats as [|c chats IH] using rev_ind.
  - reflexivity.
  - cbn zeta in *. rewrite !map_app, receive_all_app. unfold bind at 1.
    rewrite IH. cbn [map UDP.receive_all]. unfold bind.
    pose proof (datagram_received_472 my_ip c) as D.
    unfold UDP.datagram_of in *. rewrite D.
    rewrite (on_chat_broadcast_spec _ (last_n 10 (map (UDP.line_of str_of_list) chats)))
      by reflexivity.
    unfold ret, UDP.heard_state.
    cbn [UDP.USERNAME UDP.NEW_USER UDP.transport_closed UDP.sent UDP.stdout
         UDP.ChatProtocol_init].
    rewrite push_last_n. reflexivity.
Qed.

End UDPHistory.

(** C1.  History bound.  After the [N] messages [msgs] have gone through
    [update_history] on a new server, [RECENT_MESSAGES] has [min(N,10)]
    entries, the last [min(N,10)] of [msgs] in their order; on the next
    message the oldest entry leaves first, so that at most nine are left
    when the new one is appended.  The same holds for [RECENT_MESSAGES] of
    a new UDP node after the [N] chat envelopes [chats], whose entries are
    the lines formatted with the clock of the receiver. *)
Theorem history_bound
        (msgs : list message_t)
        (str_of_list : list str -> str) (name my_ip : str)
        (chats : list UDP.heard) :
  (exists self',
      for_each msgs record_message ServerTCP_init = (Ok tt, self') /\
      RECENT_MESSAGES self' = last_n 10 msgs /\
      List.length (RECENT_MESSAGES self') = Nat.min (List.length msgs) 10 /\
      forall time username message,
      exists mid,
        evict_if_full self' = (Ok tt, mid) /\
        RECENT_MESSAGES mid = last_n 9 msgs /\
        update_history time username message self' =
        zoom RECENT_MESSAGES set_RECENT_MESSAGES
             (list_append (time, username, message)) mid /\
        RECENT_MESSAGES (snd (update_history time username message self')) =
        last_n 9 msgs ++ [(time, username, message)]) /\
  (let lines := map (UDP.line_of str_of_list) chats in
   exists node',
      UDP.receive_all str_of_list my_ip (map UDP.datagram_of chats)
                      (UDP.ChatProtocol_init name) = (Ok tt, node') /\
      UDP.RECENT_MESSAGES node' = UDP.PList (last_n 10 lines) /\
      List.length (last_n 10 lines) = Nat.min (List.length chats) 10 /\
      forall line,
      exists mid,
        UDP.evict_if_full node' = (Ok tt, mid) /\
        UDP.RECENT_MESSAGES mid = UDP.PList (last_n 9 lines) /\
        UDP.RECENT_MESSAGES (snd (UDP.on_chat_broadcast line node')) =
        UDP.PList (last_n 9 lines ++ [line])).
Proof.
  split.
  - eexists. split; [apply record_all_spec|].
    cbn [RECENT_MESSAGES set_RECENT_MESSAGES].
    split; [reflexivity|]. split; [apply last_n_length|].
    intros t u x. eexists. split; [apply evict_if_full_spec|].
    cbn [RECENT_MESSAGES set_RECENT_MESSAGES].
    split; [apply evicted_last_n|].
    rewrite update_history_spec.
    cbn [RECENT_MESSAGES set_RECENT_MESSAGES snd]. rewrite evicted_last_n.
    split; reflexivity.
  - cbn zeta. eexists. split; [apply receive_chats_spec|].
    cbn [UDP.RECENT_MESSAGES UDP.heard_state].
    split; [reflexivity|]. split; [rewrite last_n_length, length_map; reflexivity|].
    intros line. eexists.
    split; [apply udp_evict_if_full_spec; reflexivity|].
    cbn [UDP.RECENT_MESSAGES UDP.set_RECENT_MESSAGES].
    split; [rewrite evicted_last_n; reflexivity|].
    erewrite on_chat_broadcast_spec by reflexivity.
    cbn [snd UDP.RECENT_MESSAGES UDP.heard_state]. rewrite evicted_last_n. reflexivity.
Qed.

(** ** The TCP server *)

Lemma str_eqb_eq (a b : str) : str_eqb a b = true <-> a = b.
Proof.
  unfold str_eqb. destruct (list_eq_dec Z.eq_dec a b); split; congruence.
Qed.

Lemma str_eqb_refl (a : str) : str_eqb a a = true.
Proof. apply str_eqb_eq. reflexivity. Qed.

Lemma writer_eqb_eq (a b : StreamWriter) : writer_eqb a b = true <-> a = b.
Proof.
  unfold writer_eqb. rewrite andb_true_iff, Nat.eqb_eq, str_eqb_eq.
  destruct a, b; cbn. split; [intros [-> ->]; reflexivity | intros E; split; congruence].
Qed.

Lemma user_eqb_eq (a b : user_t) : user_eqb a b = true <-> a = b.
Proof.
  unfold user_eqb. rewrite andb_true_iff, !str_eqb_eq.
  destruct a, b; cbn. split; [intros [-> ->]; reflexivity | intros E; split; congruence].
Qed.

Section Remove.

Context {A : Type} (eqb : A -> A -> bool).
Hypothesis eqb_eq : forall a b, eqb a b = true <-> a = b.

Lemma remove_first_in (x : A) (l : list A) :
  In x l -> remove_first eqb x l = Some (without eqb x l).
Proof.
  induction l as [|y l IH]; intros H; [destruct H|].
  cbn [remove_first without]. destruct (eqb y x) eqn:E; [reflexivity|].
  destruct H as [->|H].
  - rewrite (proj2 (eqb_eq x x) eq_refl) in E. discriminate.
  - rewrite (IH H). reflexivity.
Qed.

Lemma remove_first_not_in (x : A) (l : list A) :
  ~ In x l -> remove_first eqb x l = None.
Proof.
  induction l as [|y l IH]; intros H; [reflexivity|].
  cbn [remove_first]. destruct (eqb y x) eqn:E.
  - apply eqb_eq in E. subst. destruct H. left. reflexivity.
  - rewrite IH; [reflexivity|]. intros Hin. apply H. right. exact Hin.
Qed.

Lemma without_app_fresh (x : A) (l : list A) :
  ~ In x l -> without eqb x (l ++ [x]) = l.
Proof.
  induction l as [|y l IH]; intros H; cbn [app without].
  - rewrite (proj2 (eqb_eq x x) eq_refl). reflexivity.
  - destruct (eqb y x) eqn:E.
    + apply eqb_eq in E. subst. destruct H. left. reflexivity.
    + rewrite IH; [reflexivity|]. intros Hin. apply H. right. exact Hin.
Qed.

Lemma without_incl (x y : A) (l : list A) :
  In y (without eqb x l) -> In y l.
Proof.
  induction l as [|z l IH]; cbn [without]; [tauto|].
  destruct (eqb z x); intros H; [right; exact H|].
  destruct H as [->|H]; [left; reflexivity | right; apply IH, H].
Qed.

Lemma without_keeps (x y : A) (l : list A) :
  y <> x -> In y l -> In y (without eqb x l).
Proof.
  intros Hne. induction l as [|z l IH]; cbn [without]; [tauto|].
  intros [->|H].
  - destruct (eqb y x) eqn:E; [apply eqb_eq in E; contradiction | left; reflexivity].
  - destruct (eqb z x); [exact H | right; apply IH, H].
Qed.

Lemma without_NoDup (x : A) (l : list A) :
  NoDup l -> NoDup (without eqb x l) /\ ~ In x (without eqb x l).
Proof.
  induction 1 as [|z l Hz Hl IH]; cbn [without].
  - split; [constructor | tauto].
  - destruct (eqb z x) eqn:E.
    + apply eqb_eq in E. subst. split; assumption.
    + destruct IH as [IH1 IH2]. split.
      * constructor; [|exact IH1]. intros Hin. apply Hz. eapply without_incl, Hin.
      * intros [->|Hin]; [|apply IH2, Hin].
        rewrite (proj2 (eqb_eq x x) eq_refl) in E. discriminate.
Qed.

End Remove.

Lemma read_4 (rd : StreamReader) :
  read 4 rd = (Ok (firstn 4 rd), skipn 4 rd).
Proof. reflexivity. Qed.

Lemma short_tag_read (rd : StreamReader) :
  (List.length rd < 4)%nat -> recv_int rd = (Raise struct_error, []).
Proof.
  intros H. unfold recv_int, recv_single_value, recv_formatted_data.
  monad_unfold. cbn [calcsize]. rewrite read_4.
  destruct rd as [|a [|b [|c [|d rd]]]]; cbn in H |- *; try reflexivity; lia.
Qed.

Lemma loop_body_eof (w : StreamWriter) (h : Handler) :
  (List.length (reader h) < 4)%nat ->
  loop_body w h = (Ok Break, set_reader [] h).
Proof.
  intros H. unfold loop_body, recv. monad_unfold.
  rewrite (short_tag_read _ H). reflexivity.
Qed.

Lemma loop_body_tag (w : StreamWriter) (h : Handler) (tag : Z) (hdr rest : bytes) :
  pack_i tag = Ok hdr -> reader h = hdr ++ rest ->
  loop_body w h = dispatch w tag (set_reader rest h).
Proof.
  intros Ep Er. unfold loop_body, recv. monad_unfold.
  rewrite Er, (recv_int_pack _ _ _ Ep). reflexivity.
Qed.

Lemma dispatch_other (w : StreamWriter) (tag : Z) (h : Handler) :
  tag <> 471 -> tag <> 472 -> dispatch w tag h = (Ok Continue, h).
Proof.
  intros H1 H2. unfold dispatch.
  apply Z.eqb_neq in H1, H2. rewrite H1, H2. reflexivity.
Qed.

Lemma serve_eq (w : StreamWriter) (h : Handler) :
  serve w h =
  bind (while_true (S (List.length (reader h))) (loop_body w)) (after_loop w) h.
Proof. reflexivity. Qed.

Lemma serve_break (w : StreamWriter) (h h1 : Handler) :
  loop_body w h = (Ok Break, h1) ->
  serve w h = (cleanup w ;; ret (Some tt)) h1.
Proof.
  intros E. rewrite serve_eq. cbn [while_true]. unfold bind at 1 2.
  rewrite E. reflexivity.
Qed.


Lemma serve_raise (w : StreamWriter) (h h1 : Handler) (e : exn) :
  loop_body w h = (Raise e, h1) -> serve w h = (Raise e, h1).
Proof.
  intros E. rewrite serve_eq. cbn [while_true]. unfold bind at 1 2.
  rewrite E. reflexivity.
Qed.

Lemma cleanup_joined (w : StreamWriter) (u : user_t) (h : Handler) :
  user_info h = Some u ->
  In u (USERNAMES_LIST (self (server h))) ->
  In w (WRITERS (self (server h))) ->
  cleanup w h = (Ok tt, disconnected w u h).
Proof.
  intros Eu Hu Hw. unfold cleanup, srv, on_self, close, USERNAMES_LIST_remove,
    list_remove. monad_unfold. rewrite Eu.
  rewrite (remove_first_in _ user_eqb_eq _ _ Hu). cbn.
  rewrite (remove_first_in _ writer_eqb_eq _ _ Hw). reflexivity.
Qed.

Lemma cleanup_not_joined (w : StreamWriter) (h : Handler) :
  user_info h = None -> cleanup w h = (Raise ValueError, h).
Proof.
  intros Eu. unfold cleanup, srv, on_self, USERNAMES_LIST_remove.
  monad_unfold. rewrite Eu. destruct h as [[[ws us rs] n] rd ui]; reflexivity.
Qed.

Lemma accept_spec (w : StreamWriter) (h : Handler) :
  accept w h = (Ok tt, accepted w h).
Proof. reflexivity. Qed.

(** C7, at the failing input.  A connection whose stream ends before it
    has sent anything: [USERNAMES_LIST.remove(user_info)] raises
    [ValueError] on the empty tuple, the handler ends with that exception,
    and the lines after it have not run: the writer is still in [WRITERS]
    and has not been closed. *)
Theorem cleanup_raises_before_join (sv : Server) (w : StreamWriter) :
  server_handle_request [] w sv =
  (Raise ValueError,
   {| self := set_WRITERS (WRITERS (self sv) ++ [w]) (self sv);
      net := net sv |}).
Proof.
  unfold server_handle_request. unfold bind at 1. rewrite accept_spec.
  erewrite serve_break by (apply loop_body_eof; cbn; lia).
  unfold bind. rewrite cleanup_not_joined by reflexivity. reflexivity.
Qed.

(** *** Relations that every step of a computation respects *)

Section Respects.

Context {S : Type} (R : S -> S -> Prop).
Hypothesis R_refl : forall s, R s s.
Hypothesis R_trans : forall a b c, R a b -> R b c -> R a c.

Lemma respects_ret {A} (a : A) : respects R (ret a).
Proof. intros s. apply R_refl. Qed.

Lemma respects_raise {A} (e : exn) : respects R (@raise S A e).
Proof. intros s. apply R_refl. Qed.

Lemma respects_get : respects R get.
Proof. intros s. apply R_refl. Qed.

Lemma respects_bind {A B} (m : M S A) (k : A -> M S B) :
  respects R m -> (forall a, respects R (k a)) -> respects R (bind m k).
Proof.
  intros Hm Hk s. unfold bind. specialize (Hm s).
  destruct (m s) as [[a|e] s1]; cbn [snd] in *.
  - eapply R_trans; [exact Hm | apply Hk].
  - exact Hm.
Qed.

Lemma respects_try_except {A} (m : M S A) (handler : exn -> M S A) :
  respects R m -> (forall e, respects R (handler e)) ->
  respects R (try_except m handler).
Proof.
  intros Hm Hh s. unfold try_except. specialize (Hm s).
  destruct (m s) as [[a|e] s1]; cbn [snd] in *.
  - exact Hm.
  - eapply R_trans; [exact Hm | apply Hh].
Qed.

Lemma respects_for_each {A} (l : list A) (body : A -> M S unit) :
  (forall x, respects R (body x)) -> respects R (for_each l body).
Proof.
  intros Hb. induction l as [|x l IH]; cbn [for_each].
  - apply respects_ret.
  - apply respects_bind; [apply Hb | intros _; exact IH].
Qed.

Lemma respects_replicateM {A} (n : nat) (m : M S A) :
  respects R m -> respects R (replicateM n m).
Proof.
  intros Hm. induction n as [|n IH]; cbn [replicateM].
  - apply respects_ret.
  - apply respects_bind; [exact Hm | intros x].
    apply respects_bind; [exact IH | intros xs; apply respects_ret].
Qed.

Lemma respects_while_true (fuel : nat) (body : M S ctl) :
  respects R body -> respects R (while_true fuel body).
Proof.
  intros Hb. induction fuel as [|fuel IH]; cbn [while_true].
  - apply respects_ret.
  - apply respects_bind; [exact Hb | intros [| |]];
      [exact IH | apply respects_ret | apply respects_ret].
Qed.

Lemma respects_zoom {T A} (RT : T -> T -> Prop) (proj : S -> T) (upd : T -> S -> S)
      (m : M T A) :
  (forall s t', RT (proj s) t' -> R s (upd t' s)) ->
  respects RT m -> respects R (zoom proj upd m).
Proof.
  intros Hl Hm s. unfold zoom. specialize (Hm (proj s)).
  destruct (m (proj s)) as [r t']. cbn [snd] in *. apply Hl, Hm.
Qed.

End Respects.

(** *** The handler loop ends: reads only shorten the reader *)

Lemma shorter_refl rd : shorter rd rd.
Proof. unfold shorter. lia. Qed.

Lemma shorter_trans a b c : shorter a b -> shorter b c -> shorter a c.
Proof. unfold shorter. lia. Qed.

Lemma reader_shorter_refl h : reader_shorter h h.
Proof. apply shorter_refl. Qed.

Lemma reader_shorter_trans a b c :
  reader_shorter a b -> reader_shorter b c -> reader_shorter a c.
Proof. apply shorter_trans. Qed.

Create HintDb shorter.

#[local] Hint Resolve shorter_refl shorter_trans reader_shorter_refl
  reader_shorter_trans : shorter.

Lemma read_shorter (n : Z) : respects shorter (read n).
Proof.
  intros rd. unfold read, shorter.
  destruct (n =? 0); [cbn; lia|]. destruct (n <? 0); cbn [snd].
  - cbn. lia.
  - rewrite length_skipn. lia.
Qed.

Lemma lift_outcome_respects {S A} (R : S -> S -> Prop) (r : outcome A) :
  (forall s, R s s) -> respects R (lift_outcome r).
Proof. intros H s. apply H. Qed.

Lemma recv_int_shorter : respects shorter recv_int.
Proof.
  unfold recv_int, recv_single_value, recv_formatted_data.
  repeat (apply respects_bind; eauto with shorter; intros).
  - apply read_shorter.
  - apply lift_outcome_respects, shorter_refl.
  - destruct a; apply respects_ret, shorter_refl.
Qed.

Lemma recv_str_shorter : respects shorter recv_str.
Proof.
  unfold recv_str.
  apply respects_bind; eauto with shorter; [apply recv_int_shorter | intros n].
  apply respects_bind; eauto with shorter; [apply read_shorter | intros d].
  apply lift_outcome_respects, shorter_refl.
Qed.

Lemma recv_str_list_shorter : respects shorter recv_str_list.
Proof.
  unfold recv_str_list.
  apply respects_bind; eauto with shorter; [apply recv_int_shorter | intros n].
  apply respects_replicateM; eauto with shorter. apply recv_str_shorter.
Qed.

Lemma recv_reader_shorter {A} (m : M StreamReader A) :
  respects shorter m -> respects reader_shorter (recv m).
Proof.
  intros H. unfold recv. eapply respects_zoom; [|exact H].
  intros s t' Ht. exact Ht.
Qed.

Lemma srv_reader_shorter {A} (m : M Server A) : respects reader_shorter (srv m).
Proof.
  unfold srv. eapply (respects_zoom _ (fun _ _ => True)).
  - intros s t' _. unfold reader_shorter. cbn. apply shorter_refl.
  - intros s. exact I.
Qed.

Lemma list_index_respects {S A} (R : S -> S -> Prop) (l : list A) (i : nat) :
  (forall s, R s s) -> respects R (@list_index S A l i).
Proof.
  intros H s. unfold list_index. destruct (nth_error l i); apply H.
Qed.

Lemma set_user_info_shorter (u : option user_t) :
  respects reader_shorter (modify (set_user_info u)).
Proof. intros s. unfold reader_shorter. cbn. apply shorter_refl. Qed.

Ltac respects_step :=
  first
    [ apply srv_reader_shorter
    | apply set_user_info_shorter
    | apply respects_ret; eauto with shorter
    | apply list_index_respects; eauto with shorter
    | apply respects_bind; eauto with shorter; [|intros] ].

Lemma handle_join_shorter (w : StreamWriter) : respects reader_shorter (handle_join w).
Proof.
  unfold handle_join.
  apply respects_bind; eauto with shorter;
    [apply recv_reader_shorter, recv_str_shorter | intros name].
  apply respects_bind; eauto with shorter;
    [apply respects_get; eauto with shorter | intros h].
  destruct (existsb _ _); unfold drain; repeat respects_step.
Qed.

Lemma handle_post_shorter (w : StreamWriter) : respects reader_shorter (handle_post w).
Proof.
  unfold handle_post.
  apply respects_bind; eauto with shorter.
  - apply respects_try_except; eauto with shorter.
    + apply respects_bind; eauto with shorter;
        [apply recv_reader_shorter, recv_str_list_shorter | intros mi].
      apply respects_ret; eauto with shorter.
    + intros e. apply respects_ret; eauto with shorter.
  - intros [mi|]; unfold drain; repeat respects_step.
Qed.

Lemma dispatch_shorter (w : StreamWriter) (tag : Z) :
  respects reader_shorter (dispatch w tag).
Proof.
  unfold dispatch. apply respects_bind; eauto with shorter.
  - destruct (tag =? 471); [apply handle_join_shorter | respects_step].
  - intros [| |]; try respects_step.
    destruct (tag =? 472); [apply handle_post_shorter | respects_step].
Qed.

Lemma recv_int_ok (rd rd' : StreamReader) (n : Z) :
  recv_int rd = (Ok n, rd') -> (List.length rd' + 4 = List.length rd)%nat.
Proof.
  unfold recv_int, recv_single_value, recv_formatted_data.
  monad_unfold. cbn [calcsize]. rewrite read_4.
  destruct rd as [|a [|b [|c [|d rd]]]];
    cbn [firstn skipn struct_unpack List.length]; try discriminate.
  intros E. assert (rd' = rd) by congruence. subst. lia.
Qed.

Lemma loop_body_continue (w : StreamWriter) (h h' : Handler) :
  loop_body w h = (Ok Continue, h') ->
  (List.length (reader h') < List.length (reader h))%nat.
Proof.
  unfold loop_body, recv. monad_unfold.
  destruct (recv_int (reader h)) as [[n|e] rd1] eqn:E.
  - apply recv_int_ok in E. intros D.
    pose proof (dispatch_shorter w n (set_reader rd1 h)) as Hs.
    rewrite D in Hs. unfold reader_shorter, shorter in Hs. cbn in Hs. lia.
  - destruct e; discriminate.
Qed.

Lemma while_true_fuel (w : StreamWriter) (f1 : nat) :
  forall f2 h,
    (List.length (reader h) < f1)%nat -> (List.length (reader h) < f2)%nat ->
    while_true f1 (loop_body w) h = while_true f2 (loop_body w) h.
Proof.
  induction f1 as [|f1 IH]; intros f2 h H1 H2; [lia|].
  destruct f2 as [|f2]; [lia|]. cbn [while_true]. unfold bind.
  destruct (loop_body w h) as [[[| |]|e] h'] eqn:E; try reflexivity.
  apply loop_body_continue in E. apply IH; lia.
Qed.

Lemma while_true_ends (w : StreamWriter) (fuel : nat) :
  forall h,
    (List.length (reader h) < fuel)%nat ->
    fst (while_true fuel (loop_body w) h) <> Ok None.
Proof.
  induction fuel as [|fuel IH]; intros h H; [lia|].
  cbn [while_true]. unfold bind.
  destruct (loop_body w h) as [[[| |]|e] h'] eqn:E; cbn; try discriminate.
  apply loop_body_continue in E. apply IH. lia.
Qed.

(** The fuel of [serve] is enough: the handler never stops for lack of it. *)
Lemma serve_ends (w : StreamWriter) (h : Handler) :
  fst (serve w h) <> Ok None.
Proof.
  rewrite serve_eq. unfold bind.
  pose proof (while_true_ends w (S (List.length (reader h))) h ltac:(lia)) as W.
  destruct (while_true _ _ h) as [[[[| |]|]|e] h']; cbn [fst after_loop] in *;
    try contradiction; try discriminate;
    unfold bind, ret; destruct (cleanup w h') as [[[]|e] h'']; discriminate.
Qed.

Lemma server_handle_request_ends (rd : StreamReader) (w : StreamWriter) (sv : Server) :
  fst (server_handle_request rd w sv) <> Ok None.
Proof.
  unfold server_handle_request. unfold bind at 1. rewrite accept_spec.
  pose proof (serve_ends w
    (accepted w {| server := sv; reader := rd; user_info := None |})) as E.
  destruct (serve w _) as [r h']. exact E.
Qed.

Lemma serve_continue (w : StreamWriter) (h h' : Handler) :
  loop_body w h = (Ok Continue, h') -> serve w h = serve w h'.
Proof.
  intros E. rewrite !serve_eq. cbn [while_true]. unfold bind at 1 2.
  rewrite E.
  pose proof (loop_body_continue _ _ _ E) as L.
  rewrite (while_true_fuel w _ (S (List.length (reader h'))) h') by lia.
  reflexivity.
Qed.

(** C6, as the source has it.  A tag other than 471 and 472 is ignored:
    the iteration changes nothing but the reader and the loop goes on with
    the bytes that follow.  When the stream of a connection that has joined
    ends where a tag is expected, the loop is left and the clean-up runs:
    the connection's entry leaves [USERNAMES_LIST], its writer leaves
    [WRITERS] and is closed, and the handler returns. *)
Theorem unknown_tag_ignored_end_of_stream_disconnects
        (w : StreamWriter) (h : Handler) :
  (forall tag hdr rest,
      tag <> 471 -> tag <> 472 ->
      pack_i tag = Ok hdr -> reader h = hdr ++ rest ->
      loop_body w h = (Ok Continue, set_reader rest h) /\
      serve w h = serve w (set_reader rest h)) /\
  (forall u,
      (List.length (reader h) < 4)%nat ->
      user_info h = Some u ->
      In u (USERNAMES_LIST (self (server h))) ->
      In w (WRITERS (self (server h))) ->
      let h' := disconnected w u (set_reader [] h) in
      serve w h = (Ok (Some tt), h') /\
      net (server h') = net (server h) ++ [Closed w] /\
      RECENT_MESSAGES (self (server h')) = RECENT_MESSAGES (self (server h)) /\
      (NoDup (USERNAMES_LIST (self (server h))) ->
       ~ In u (USERNAMES_LIST (self (server h')))) /\
      (NoDup (WRITERS (self (server h))) ->
       ~ In w (WRITERS (self (server h'))))).
Proof.
  split.
  - intros tag hdr rest H1 H2 Ep Er.
    assert (L : loop_body w h = (Ok Continue, set_reader rest h)).
    { rewrite (loop_body_tag _ _ _ _ _ Ep Er). apply dispatch_other; assumption. }
    split; [exact L | apply serve_continue, L].
  - intros u Hr Eu Hu Hw. cbn zeta.
    split; [|split; [reflexivity|split; [reflexivity|split]]].
    + rewrite (serve_break _ _ _ (loop_body_eof w h Hr)). unfold bind.
      rewrite (cleanup_joined w u) by assumption. reflexivity.
    + intros Hn. apply (without_NoDup user_eqb user_eqb_eq), Hn.
    + intros Hn. apply (without_NoDup writer_eqb writer_eqb_eq), Hn.
Qed.

Lemma unknown_tag_ignored_end_of_stream_disconnects_witness :
  loop_body ann_writer
            (ann_handler (wire (send_single_value fmt_i (VInt 999)) ++ [x01])) =
  (Ok Continue, ann_handler [x01]) /\
  serve ann_writer (ann_handler [x01]) =
  (Ok (Some tt),
   {| server := {| self := {| WRITERS := [bob_writer]; USERNAMES_LIST := [];
                              RECENT_MESSAGES := [] |};
                   net := [Closed ann_writer] |};
      reader := []; user_info := Some ann |}).
Proof.
  split.
  - apply (proj1 (unknown_tag_ignored_end_of_stream_disconnects ann_writer
                    (ann_handler (wire (send_single_value fmt_i (VInt 999)) ++ [x01])))
                 999 (wire (send_single_value fmt_i (VInt 999))) [x01]);
      [lia | lia | reflexivity | reflexivity].
  - apply (proj2 (unknown_tag_ignored_end_of_stream_disconnects ann_writer
                    (ann_handler [x01])) ann);
      [cbn; lia | reflexivity | left; reflexivity | left; reflexivity].
Defined.

(** C6 as the specification states it fails: after the tag 999 Ann's
    connection is still registered and open, and the message that follows
    is handled. *)
Lemma unknown_tag_keeps_connection :
  let rd := wire (send_single_value fmt_i (VInt 999)) ++
            wire (send_single_value fmt_i (VInt 472) ;; send_str_list hello) in
  exists h1 h2,
    loop_body ann_writer (ann_handler rd) = (Ok Continue, h1) /\
    In ann (USERNAMES_LIST (self (server h1))) /\
    In ann_writer (WRITERS (self (server h1))) /\
    net (server h1) = [] /\
    loop_body ann_writer h1 = (Ok Continue, h2) /\
    RECENT_MESSAGES (self (server h2)) = [(lit "10:00:00", lit "ann", lit "hi")].
Proof.
  cbn zeta. eexists. eexists.
  split; [vm_compute; reflexivity|].
  split; [left; reflexivity|]. split; [left; reflexivity|].
  split; [reflexivity|].
  split; [vm_compute; reflexivity | reflexivity].
Qed.

(** *** Who may change [USERNAMES_LIST] *)

Lemma same_names_tcp_refl a : same_names_tcp a a.
Proof. reflexivity. Qed.

Lemma same_names_tcp_trans a b c :
  same_names_tcp a b -> same_names_tcp b c -> same_names_tcp a c.
Proof. unfold same_names_tcp. congruence. Qed.

Lemma same_names_sv_refl a : same_names_sv a a.
Proof. reflexivity. Qed.

Lemma same_names_sv_trans a b c :
  same_names_sv a b -> same_names_sv b c -> same_names_sv a c.
Proof. unfold same_names_sv, same_names_tcp. congruence. Qed.

Lemma same_names_refl a : same_names a a.
Proof. reflexivity. Qed.

Lemma same_names_trans a b c : same_names a b -> same_names b c -> same_names a c.
Proof. unfold same_names, same_names_sv, same_names_tcp. congruence. Qed.

Create HintDb names.

#[local] Hint Resolve same_names_tcp_refl same_names_tcp_trans same_names_sv_refl
  same_names_sv_trans same_names_refl same_names_trans : names.





Lemma zoom_RECENT_same_names {A} (m : M (list message_t) A) :
  respects same_names_tcp (zoom RECENT_MESSAGES set_RECENT_MESSAGES m).
Proof. intros s. unfold zoom. destruct (m (RECENT_MESSAGES s)). reflexivity. Qed.











(** *** Usernames stay unique *)

Lemma keeps_unique_refl h : keeps_unique h h.
Proof. intros H. exact H. Qed.

Lemma keeps_unique_trans a b c :
  keeps_unique a b -> keeps_unique b c -> keeps_unique a c.
Proof. unfold keeps_unique. tauto. Qed.

#[local] Hint Resolve keeps_unique_refl keeps_unique_trans : names.


Lemma existsb_name (name : str) (us : list user_t) :
  existsb (fun client_id => str_eqb name (snd client_id)) us = true <->
  In name (map snd us).
Proof.
  rewrite existsb_exists, in_map_iff. split.
  - intros (x & Hx & E). apply str_eqb_eq in E. exists x. split; [symmetry|]; assumption.
  - intros (x & E & Hx). exists x. split; [exact Hx | apply str_eqb_eq; congruence].
Qed.






Lemma remove_first_without {A} (eqb : A -> A -> bool) (x : A) (l l' : list A) :
  remove_first eqb x l = Some l' -> l' = without eqb x l.
Proof.
  revert l'. induction l as [|y l IH]; intros l'; cbn [remove_first without];
    [discriminate|].
  destruct (eqb y x); [congruence|].
  destruct (remove_first eqb x l) as [r|]; [|discriminate].
  intros E. rewrite <- (IH r eq_refl). congruence.
Qed.




(** *** A join under a name that is taken *)




(** *** A message posted *)

Lemma recv_send_str_list (ss : list str) (data rest : bytes) :
  sends (send_str_list ss) data -> recv_str_list (data ++ rest) = (Ok ss, rest).
Proof.
  intros Hs. destruct (send_str_list_ok ss [] _ (Hs [])) as (d & E & _ & R).
  cbn [app] in E. subst d. apply R.
Qed.

Lemma sends_str_list_wire (ss : list str) :
  fst (send_str_list ss []) = Ok tt ->
  sends (send_str_list ss) (wire (send_str_list ss)).
Proof.
  unfold wire. destruct (send_str_list ss []) as [r out] eqn:E. cbn [fst snd].
  intros ->. destruct (send_str_list_ok _ _ _ E) as (d & -> & Hd & _). exact Hd.
Qed.

Lemma send_sends (w : StreamWriter) (m : M bytes unit) (data : bytes) (sv : Server) :
  sends m data ->
  send w m sv = (Ok tt, {| self := self sv; net := net sv ++ [Wrote w data] |}).
Proof. intros Hs. unfold send. rewrite (Hs []). reflexivity. Qed.

Lemma send_tag_sends (v : Z) (tag : bytes) :
  pack_i v = Ok tag -> sends (send_single_value fmt_i (VInt v)) tag.
Proof.
  intros E out. unfold send_single_value, write. monad_unfold.
  cbn [struct_pack]. rewrite E. reflexivity.
Qed.

Lemma fan_out_spec (tag payload : bytes) (message_info : list str) (ws : list StreamWriter) :
  pack_i 372 = Ok tag ->
  sends (send_str_list message_info) payload ->
  forall sv,
    for_each ws (fun writer =>
      send writer (send_single_value fmt_i (VInt 372)) ;;
      send writer (send_str_list message_info)) sv =
    (Ok tt, {| self := self sv; net := net sv ++ fan_out tag payload ws |}).
Proof.
  intros Et Hs. induction ws as [|w ws IH]; intros sv.
  - cbn. unfold ret. rewrite app_nil_r. destruct sv; reflexivity.
  - cbn [for_each]. unfold bind at 1 2.
    rewrite (send_sends _ _ _ _ (send_tag_sends _ _ Et)).
    rewrite (send_sends _ _ _ _ Hs). rewrite IH. cbn [self net].
    unfold fan_out. cbn [flat_map]. rewrite <- !app_assoc. reflexivity.
Qed.

Lemma send_new_message_spec (tag payload : bytes) (message_info : list str) (sv : Server) :
  pack_i 372 = Ok tag ->
  sends (send_str_list message_info) payload ->
  send_new_message message_info sv =
  (Ok tt, {| self := self sv;
             net := net sv ++ fan_out tag payload (WRITERS (self sv)) |}).
Proof.
  intros Et Hs. unfold send_new_message. unfold bind, get.
  apply fan_out_spec; assumption.
Qed.

Lemma written_app (w : StreamWriter) (a b : list io) :
  written w (a ++ b) = written w a ++ written w b.
Proof.
  induction a as [|[w' d|w'] a IH]; cbn [app written]; [reflexivity| |exact IH].
  destruct (writer_eqb w' w); [rewrite IH, app_assoc|]; auto.
Qed.

Lemma written_fan_out_other (tag payload : bytes) (w : StreamWriter) (ws : list StreamWriter) :
  ~ In w ws -> written w (fan_out tag payload ws) = [].
Proof.
  induction ws as [|w' ws IH]; intros H; [reflexivity|].
  unfold fan_out in *. cbn [flat_map app written].
  destruct (writer_eqb w' w) eqn:E.
  - apply writer_eqb_eq in E. subst. destruct H. left. reflexivity.
  - apply IH. intros Hin. apply H. right. exact Hin.
Qed.

Lemma written_fan_out (tag payload : bytes) (w : StreamWriter) (ws : list StreamWriter) :
  NoDup ws -> In w ws -> written w (fan_out tag payload ws) = tag ++ payload.
Proof.
  induction 1 as [|w' ws Hw' Hn IH]; intros Hin; [destruct Hin|].
  unfold fan_out in *. cbn [flat_map app written].
  destruct (writer_eqb w' w) eqn:E.
  - apply writer_eqb_eq in E. subst w'.
    pose proof (written_fan_out_other tag payload w ws Hw') as O.
    unfold fan_out in O. rewrite O, app_nil_r. reflexivity.
  - destruct Hin as [->|Hin]; [|apply IH, Hin].
    rewrite (proj2 (writer_eqb_eq w w) eq_refl) in E. discriminate.
Qed.

Lemma handle_post_spec (w : StreamWriter) (h : Handler) (t u m : str)
      (tag payload rest : bytes) :
  pack_i 372 = Ok tag ->
  sends (send_str_list [t; u; m]) payload ->
  reader h = payload ++ rest ->
  handle_post w h = (Ok Continue, posted tag payload t u m rest h).
Proof.
  intros Et Hs Er. unfold handle_post. unfold bind at 1.
  unfold try_except, bind at 1. unfold recv, zoom.
  rewrite Er, (recv_send_str_list _ _ _ Hs). unfold ret at 1.
  unfold bind at 1. unfold srv at 1, zoom.
  rewrite (send_new_message_spec _ _ _ _ Et Hs).
  unfold drain, list_index. cbn [nth_error]. unfold bind, ret, srv, on_self, zoom.
  cbn [server set_server set_reader self set_self].
  rewrite update_history_spec. reflexivity.
Qed.

(** C3.  A message [(t, u, m)] posted on a connection.  The iteration
    first writes to every writer of [WRITERS], in their order, the tag 372
    and the three strings as the poster sent them, the history being still
    untouched, and then appends the triple to [RECENT_MESSAGES], once.  Each
    registered writer receives the frame once, and a client that reads it
    gets the tag 372 and the same three strings. *)
Theorem post_fans_out_then_records
        (w : StreamWriter) (h : Handler) (t u m : str)
        (hdr tag payload rest : bytes) :
  pack_i 472 = Ok hdr ->
  pack_i 372 = Ok tag ->
  sends (send_str_list [t; u; m]) payload ->
  reader h = hdr ++ payload ++ rest ->
  let ws := WRITERS (self (server h)) in
  let mid :=
    {| server := {| self := self (server h);
                    net := net (server h) ++ fan_out tag payload ws |};
       reader := rest; user_info := user_info h |} in
  let h' := posted tag payload t u m rest h in
  loop_body w h = (Ok Continue, h') /\
  srv (send_new_message [t; u; m]) (set_reader rest h) = (Ok tt, mid) /\
  srv (on_self (update_history t u m)) mid = (Ok tt, h') /\
  RECENT_MESSAGES (self (server h')) =
    evicted (RECENT_MESSAGES (self (server h))) ++ [(t, u, m)] /\
  (forall w', NoDup ws -> In w' ws ->
     written w' (net (server h')) = written w' (net (server h)) ++ tag ++ payload) /\
  (forall w', ~ In w' ws ->
     written w' (net (server h')) = written w' (net (server h))) /\
  (forall more,
     (k <- recv_int ;; message <- recv_str_list ;; ret (k, message))
       ((tag ++ payload) ++ more) = (Ok (372, [t; u; m]), more)).
Proof.
  intros Ep Et Hs Er. cbn zeta.
  split; [|split; [|split; [|split; [|split; [|split]]]]].
  - rewrite (loop_body_tag _ _ _ _ _ Ep Er). unfold dispatch.
    cbn [Z.eqb Pos.eqb]. unfold bind at 1. unfold ret at 1.
    rewrite (handle_post_spec w _ t u m tag payload rest Et Hs) by reflexivity.
    reflexivity.
  - unfold srv, zoom. rewrite (send_new_message_spec _ _ _ _ Et Hs). reflexivity.
  - unfold srv, on_self, zoom. cbn [server self].
    rewrite update_history_spec. reflexivity.
  - reflexivity.
  - intros w' Hn Hin. cbn [posted server net]. rewrite written_app.
    rewrite (written_fan_out _ _ _ _ Hn Hin). reflexivity.
  - intros w' Hout. cbn [posted server net]. rewrite written_app.
    rewrite (written_fan_out_other _ _ _ _ Hout). apply app_nil_r.
  - intros more. unfold bind. rewrite <- app_assoc.
    rewrite (recv_int_pack _ _ _ Et), (recv_send_str_list _ _ _ Hs). reflexivity.
Qed.

Lemma post_fans_out_then_records_witness :
  let hdr := wire (send_single_value fmt_i (VInt 472)) in
  let tag := wire (send_single_value fmt_i (VInt 372)) in
  let payload := wire (send_str_list hello) in
  loop_body ann_writer (ann_handler (hdr ++ payload ++ [])) =
  (Ok Continue,
   {| server :=
        {| self := {| WRITERS := [ann_writer; bob_writer];
                      USERNAMES_LIST := [ann];
                      RECENT_MESSAGES := [(lit "10:00:00", lit "ann", lit "hi")] |};
           net := [Wrote ann_writer tag; Wrote ann_writer payload;
                   Wrote bob_writer tag; Wrote bob_writer payload] |};
      reader := []; user_info := Some ann |}).
Proof.
  cbn zeta.
  apply (post_fans_out_then_records ann_writer
           (ann_handler (wire (send_single_value fmt_i (VInt 472)) ++
                         wire (send_str_list hello) ++ []))
           (lit "10:00:00") (lit "ann") (lit "hi")
           (wire (send_single_value fmt_i (VInt 472)))
           (wire (send_single_value fmt_i (VInt 372)))
           (wire (send_str_list hello)) []).
  - reflexivity.
  - reflexivity.
  - apply sends_str_list_wire. reflexivity.
  - reflexivity.
Defined.

(** ** The UDP peer *)

Section UDPProofs.

Variable str_of_list : list str -> str.

Lemma udp_print_all (l : list str) (self : UDP.ChatProtocol) :
  for_each l UDP.print self =
  (Ok tt,
   {| UDP.USERNAME := UDP.USERNAME self; UDP.NEW_USER := UDP.NEW_USER self;
      UDP.RECENT_MESSAGES := UDP.RECENT_MESSAGES self;
      UDP.transport_closed := UDP.transport_closed self;
      UDP.sent := UDP.sent self; UDP.stdout := UDP.stdout self ++ l |}).
Proof.
  revert self. induction l as [|x l IH]; intros self; cbn [for_each].
  - unfold ret. rewrite app_nil_r. destruct self; reflexivity.
  - unfold bind. unfold UDP.print at 1. unfold modify. rewrite IH. cbn.
    rewrite <- app_assoc. reflexivity.
Qed.

Lemma history_sync_first (now my_ip u : str) (l : list str) (addr : UDP.address)
      (self : UDP.ChatProtocol) :
  UDP.NEW_USER self = true ->
  UDP.datagram_received str_of_list now my_ip
    (UDP.pack_message 371 u (UDP.PList l)) addr self =
  (Ok tt, UDP.adopted self l).
Proof.
  intros E. unfold UDP.datagram_received, UDP.unpack_message, UDP.pack_message.
  cbn [UDP.protocol_num UDP.username UDP.message Z.eqb Pos.eqb].
  unfold bind at 1. unfold ret at 1. unfold bind at 1. unfold bind at 1.
  unfold get at 1. rewrite E. unfold bind at 1. unfold modify at 1.
  unfold bind at 1. cbn [UDP.iterate]. rewrite udp_print_all.
  reflexivity.
Qed.

Lemma history_sync_later (now my_ip u : str) (p : UDP.payload) (addr : UDP.address)
      (self : UDP.ChatProtocol) :
  UDP.NEW_USER self = false ->
  UDP.datagram_received str_of_list now my_ip (UDP.pack_message 371 u p) addr self =
  (Ok tt, self).
Proof.
  intros E. unfold UDP.datagram_received, UDP.unpack_message, UDP.pack_message.
  cbn [UDP.protocol_num UDP.username UDP.message Z.eqb Pos.eqb].
  monad_unfold. rewrite E. reflexivity.
Qed.

Lemma latch_same_refl a : latch_same a a.
Proof. reflexivity. Qed.

Lemma latch_same_trans a b c : latch_same a b -> latch_same b c -> latch_same a c.
Proof. unfold latch_same. congruence. Qed.

Create HintDb latch.

#[local] Hint Resolve latch_same_refl latch_same_trans : latch.

Lemma transport_close_latch : respects latch_same UDP.transport_close.
Proof. intros s. reflexivity. Qed.

Lemma send_history_latch (u : str) (addr : UDP.address) :
  respects latch_same (UDP.send_history u addr).
Proof. intros s. reflexivity. Qed.

Lemma on_history_latch {A} (m : M (list str) A) :
  respects latch_same (UDP.on_history m).
Proof.
  intros s. unfold UDP.on_history.
  destruct (UDP.RECENT_MESSAGES s) as [x|l]; [reflexivity|].
  destruct (m l). reflexivity.
Qed.

Lemma on_chat_broadcast_latch (line : str) :
  respects latch_same (UDP.on_chat_broadcast line).
Proof.
  unfold UDP.on_chat_broadcast, UDP.evict_if_full.
  apply respects_bind; eauto with latch.
  - apply respects_bind; eauto with latch; [apply respects_get; eauto with latch|].
    intros self. destruct (10 <=? _); [apply on_history_latch|].
    apply respects_ret; eauto with latch.
  - intros _. apply respects_bind; eauto with latch; [apply on_history_latch|].
    intros _ s. reflexivity.
Qed.

Lemma other_kinds_keep_latch (now my_ip : str) (d : UDP.envelope) (addr : UDP.address) :
  UDP.protocol_num d <> 371 ->
  respects latch_same (UDP.datagram_received str_of_list now my_ip d addr).
Proof.
  intros H. apply Z.eqb_neq in H. unfold UDP.datagram_received, UDP.unpack_message.
  rewrite H.
  repeat (apply respects_bind; eauto with latch; [|intros _]).
  - destruct (_ =? 370); [apply transport_close_latch|].
    apply respects_ret; eauto with latch.
  - apply respects_ret; eauto with latch.
  - destruct (_ =? 471); [|apply respects_ret; eauto with latch].
    destruct (negb _); [apply send_history_latch|].
    apply respects_ret; eauto with latch.
  - destruct (_ =? 472); [apply on_chat_broadcast_latch|].
    apply respects_ret; eauto with latch.
Qed.

Lemma latch_never_set (now my_ip : str) (d : UDP.envelope) (addr : UDP.address) :
  respects latch_stays (UDP.datagram_received str_of_list now my_ip d addr).
Proof.
  intros s E. destruct (Z.eq_dec (UDP.protocol_num d) 371) as [K|K].
  - destruct d as [k u p]. cbn in K. subst k.
    pose proof (history_sync_later now my_ip u p addr s E) as L.
    unfold UDP.pack_message in L. rewrite L. exact E.
  - rewrite (other_kinds_keep_latch now my_ip d addr K s). exact E.
Qed.

Lemma later_syncs_ignored (my_ip : str) (self : UDP.ChatProtocol)
      (later : list (str * UDP.envelope * UDP.address)) :
  UDP.NEW_USER self = false ->
  Forall (fun d => UDP.protocol_num (snd (fst d)) = 371) later ->
  UDP.receive_all str_of_list my_ip later self = (Ok tt, self).
Proof.
  intros E H. induction H as [|[[now [k u p]] addr] later Hk _ IH];
    cbn [UDP.receive_all]; [reflexivity|].
  cbn in Hk. subst k. unfold bind.
  pose proof (history_sync_later now my_ip u p addr self E) as L.
  unfold UDP.pack_message in L. rewrite L. exact IH.
Qed.

End UDPProofs.

(** C8.  History adoption.  A node whose latch [NEW_USER] is set and that
    receives an envelope of kind 371 takes the list it carries as its
    history, prints every entry of it in order and clears the latch.  With
    the latch cleared, an envelope of kind 371 changes nothing at all, and
    neither does any sequence of them.  No datagram sets the latch again,
    and no datagram of another kind touches it. *)
Theorem history_sync_adopted_once
        (str_of_list : list str -> str) (now my_ip u : str)
        (addr : UDP.address) (self : UDP.ChatProtocol) :
  (forall l,
      UDP.NEW_USER self = true ->
      UDP.datagram_received str_of_list now my_ip
        (UDP.pack_message 371 u (UDP.PList l)) addr self =
      (Ok tt, UDP.adopted self l) /\
      forall later,
        Forall (fun d => UDP.protocol_num (snd (fst d)) = 371) later ->
        UDP.receive_all str_of_list my_ip later (UDP.adopted self l) =
        (Ok tt, UDP.adopted self l)) /\
  (forall p,
      UDP.NEW_USER self = false ->
      UDP.datagram_received str_of_list now my_ip
        (UDP.pack_message 371 u p) addr self = (Ok tt, self)) /\
  (forall d,
      UDP.NEW_USER self = false ->
      UDP.NEW_USER (snd (UDP.datagram_received str_of_list now my_ip d addr self))
      = false) /\
  (forall d,
      UDP.protocol_num d <> 371 ->
      UDP.NEW_USER (snd (UDP.datagram_received str_of_list now my_ip d addr self))
      = UDP.NEW_USER self).
Proof.
  split; [|split; [|split]].
  - intros l E. split; [apply history_sync_first, E|].
    intros later H. apply later_syncs_ignored; [reflexivity | exact H].
  - intros p E. apply history_sync_later, E.
  - intros d E. apply (latch_never_set str_of_list now my_ip d addr self E).
  - intros d K. apply (other_kinds_keep_latch str_of_list now my_ip d addr K self).
Qed.

(** C9.  An announcement.  A node that receives an envelope of kind 471
    from another address sends one datagram, to that address on [PORT]: the
    kind 371 with its own name and its whole history when the announced
    name is not its own, the kind 370 with empty fields when it is.  From
    its own address it sends nothing.  Nothing else of the node changes. *)
Theorem announce_answered
        (str_of_list : list str -> str) (now my_ip u : str) (p : UDP.payload)
        (addr : UDP.address) (self : UDP.ChatProtocol) :
  let run := UDP.datagram_received str_of_list now my_ip
               (UDP.pack_message 471 u p) addr self in
  (fst addr <> my_ip -> u <> UDP.USERNAME self ->
   run = (Ok tt, UDP.replied self
                   (UDP.pack_message 371 (UDP.USERNAME self)
                                     (UDP.RECENT_MESSAGES self))
                   (fst addr, UDP.PORT))) /\
  (fst addr <> my_ip -> u = UDP.USERNAME self ->
   run = (Ok tt, UDP.replied self (UDP.pack_message 370 [] (UDP.PStr []))
                   (fst addr, UDP.PORT))) /\
  (fst addr = my_ip -> run = (Ok tt, self)).
Proof.
  cbn zeta. unfold UDP.datagram_received, UDP.unpack_message, UDP.pack_message.
  cbn [UDP.protocol_num UDP.username UDP.message Z.eqb Pos.eqb].
  split; [|split].
  - intros Ha Hu.
    assert (Ea : str_eqb (fst addr) my_ip = false).
    { destruct (str_eqb (fst addr) my_ip) eqn:E; [|reflexivity].
      apply str_eqb_eq in E. contradiction. }
    assert (Eu : str_eqb u (UDP.USERNAME self) = false).
    { destruct (str_eqb u (UDP.USERNAME self)) eqn:E; [|reflexivity].
      apply str_eqb_eq in E. contradiction. }
    rewrite Ea. unfold UDP.send_history, UDP.transport_sendto. monad_unfold.
    cbn [negb]. rewrite Eu. reflexivity.
  - intros Ha Hu.
    assert (Ea : str_eqb (fst addr) my_ip = false).
    { destruct (str_eqb (fst addr) my_ip) eqn:E; [|reflexivity].
      apply str_eqb_eq in E. contradiction. }
    rewrite Ea. unfold UDP.send_history, UDP.transport_sendto. monad_unfold.
    cbn [negb]. rewrite (proj2 (str_eqb_eq _ _) Hu). reflexivity.
  - intros Ha. rewrite (proj2 (str_eqb_eq _ _) Ha). reflexivity.
Qed.

Lemma history_sync_adopted_once_witness :
  let node := UDP.ChatProtocol_init (lit "ann") in
  let sync l := UDP.pack_message 371 (lit "bob") (UDP.PList l) in
  let bob := (lit "10.0.0.2", UDP.PORT) in
  UDP.datagram_received (@List.concat Z) (lit "10:00:01") (lit "10.0.0.1")
    (sync [lit "> 10:00:00 bob: hi"]) bob node =
  (Ok tt, UDP.adopted node [lit "> 10:00:00 bob: hi"]) /\
  UDP.datagram_received (@List.concat Z) (lit "10:00:01") (lit "10.0.0.1")
    (sync [lit "> 09:00:00 cat: yo"]) bob
    (UDP.adopted node [lit "> 10:00:00 bob: hi"]) =
  (Ok tt, UDP.adopted node [lit "> 10:00:00 bob: hi"]).
Proof.
  cbn zeta. split.
  - apply (proj1 (history_sync_adopted_once (@List.concat Z) (lit "10:00:01")
                    (lit "10.0.0.1") (lit "bob") (lit "10.0.0.2", UDP.PORT)
                    (UDP.ChatProtocol_init (lit "ann")))).
    reflexivity.
  - apply (proj1 (proj2 (history_sync_adopted_once (@List.concat Z) (lit "10:00:01")
                    (lit "10.0.0.1") (lit "bob") (lit "10.0.0.2", UDP.PORT)
                    (UDP.adopted (UDP.ChatProtocol_init (lit "ann"))
                                 [lit "> 10:00:00 bob: hi"])))).
    reflexivity.
Defined.

Lemma announce_answered_witness :
  let node := UDP.ChatProtocol_init (lit "ann") in
  let hears name ip :=
    UDP.datagram_received (@List.concat Z) (lit "10:00:01") (lit "10.0.0.1")
      (UDP.pack_message 471 name (UDP.PStr [])) (ip, 40000) node in
  hears (lit "bob") (lit "10.0.0.2") =
    (Ok tt, UDP.replied node (UDP.pack_message 371 (lit "ann") (UDP.PList []))
              (lit "10.0.0.2", 5238)) /\
  hears (lit "ann") (lit "10.0.0.2") =
    (Ok tt, UDP.replied node (UDP.pack_message 370 [] (UDP.PStr []))
              (lit "10.0.0.2", 5238)) /\
  hears (lit "ann") (lit "10.0.0.1") = (Ok tt, node).
Proof.
  cbn zeta. split; [|split].
  - apply (proj1 (announce_answered (@List.concat Z) (lit "10:00:01") (lit "10.0.0.1")
                    (lit "bob") (UDP.PStr []) (lit "10.0.0.2", 40000)
                    (UDP.ChatProtocol_init (lit "ann")))); discriminate.
  - apply (proj1 (proj2 (announce_answered (@List.concat Z) (lit "10:00:01")
                    (lit "10.0.0.1") (lit "ann") (UDP.PStr [])
                    (lit "10.0.0.2", 40000) (UDP.ChatProtocol_init (lit "ann")))));
      [discriminate | reflexivity].
  - apply (proj2 (proj2 (announce_answered (@List.concat Z) (lit "10:00:01")
                    (lit "10.0.0.1") (lit "ann") (UDP.PStr [])
                    (lit "10.0.0.1", 40000) (UDP.ChatProtocol_init (lit "ann"))))).
    reflexivity.
Defined.

(** ** The TCP client *)

Lemma bind_ok {S A B} (m : M S A) (k : A -> M S B) (s s' : S) (a : A) :
  m s = (Ok a, s') -> bind m k s = k a s'.
Proof. intros E. unfold bind. rewrite E. reflexivity. Qed.

Lemma for_each_send_history (w : StreamWriter) (history : list message_t) :
  forall sv sv',
    for_each history
      (fun message => send w (send_str_list (list_of_message message))) sv =
    (Ok tt, sv') ->
    exists payloads,
      history_frames history payloads /\
      sv' = {| self := self sv; net := net sv ++ map (Wrote w) payloads |}.
Proof.
  induction history as [|m history IH]; intros sv sv' E.
  - cbn in E. unfold ret in E. exists []. split; [constructor|].
    cbn. rewrite app_nil_r. destruct sv. cbn. congruence.
  - cbn [for_each] in E. unfold bind in E.
    destruct (send w _ sv) as [[[]|e] sv1] eqn:E1; [|discriminate].
    unfold send in E1.
    destruct (send_str_list (list_of_message m) []) as [r data] eqn:Es.
    assert (r = Ok tt) by congruence. subst r.
    destruct (send_str_list_ok _ _ _ Es) as (d & Ed & Hd & _).
    cbn [app] in Ed. subst d.
    destruct (IH _ _ E) as (pls & Hp & ->).
    exists (data :: pls). split; [constructor; assumption|].
    assert (sv1 = {| self := self sv; net := net sv ++ [Wrote w data] |})
      by congruence.
    subst sv1. cbn. rewrite <- app_assoc. reflexivity.
Qed.

Lemma send_history_run (w : StreamWriter) (history : list message_t) (sv sv' : Server) :
  send_history w history sv = (Ok tt, sv') ->
  exists tag count payloads,
    pack_i 371 = Ok tag /\
    pack_i (Z.of_nat (List.length history)) = Ok count /\
    history_frames history payloads /\
    sv' = {| self := self sv;
             net := net sv ++ Wrote w tag :: Wrote w count :: map (Wrote w) payloads |}.
Proof.
  unfold send_history. unfold bind at 1. unfold send at 1.
  unfold send_single_value at 1. unfold bind at 1, lift_outcome at 1.
  cbn [struct_pack].
  destruct (pack_i 371) as [tag|e] eqn:Et; [|discriminate].
  unfold write, modify. cbn [app].
  unfold bind at 1. unfold send at 1.
  unfold send_single_value at 1. unfold bind at 1, lift_outcome at 1.
  cbn [struct_pack].
  destruct (pack_i (Z.of_nat (List.length history))) as [count|e] eqn:Ec;
    [|discriminate].
  cbn [app].
  destruct (negb (Nat.eqb (List.length history) 0)) eqn:En.
  - intros E. apply for_each_send_history in E. destruct E as (pls & Hp & ->).
    exists tag, count, pls. repeat split; try assumption.
    cbn. rewrite <- !app_assoc. reflexivity.
  - destruct history; [|discriminate]. unfold ret. intros E.
    exists tag, count, []. repeat split; try assumption; [constructor|].
    cbn in *. rewrite <- app_assoc in E. cbn in E. congruence.
Qed.

Lemma written_own (w : StreamWriter) (payloads : list bytes) :
  written w (map (Wrote w) payloads) = List.concat payloads.
Proof.
  induction payloads as [|p ps IH]; [reflexivity|].
  cbn [map written List.concat]. rewrite (proj2 (writer_eqb_eq w w) eq_refl), IH.
  reflexivity.
Qed.

Lemma c_recv_run {A} (m : M StreamReader A) (c : Client) (rd' : StreamReader) (a : A) :
  m (c_reader c) = (Ok a, rd') -> c_recv m c = (Ok a, set_c_reader rd' c).
Proof. intros E. unfold c_recv, zoom. rewrite E. reflexivity. Qed.

Lemma c_send_run (m : M bytes unit) (data : bytes) (c : Client) :
  sends m data -> c_send m c = (Ok tt, set_c_writer (c_writer c ++ data) c).
Proof. intros Hs. unfold c_send, zoom. rewrite Hs. reflexivity. Qed.

Lemma print_past_message_run (m : message_t) (payload rest : bytes) (c : Client) :
  sends (send_str_list (list_of_message m)) payload ->
  c_reader c = payload ++ rest ->
  print_past_message c =
  (Ok tt, {| c_reader := rest; c_writer := c_writer c; c_closed := c_closed c;
             stdin := stdin c; stdout := stdout c ++ [history_line m];
             tasks := tasks c |}).
Proof.
  intros Hs Er. unfold print_past_message.
  erewrite bind_ok by
    (apply c_recv_run; rewrite Er; apply recv_send_str_list, Hs).
  destruct m as [[t u] x]. reflexivity.
Qed.

Lemma replay_history (history : list message_t) (payloads : list bytes) :
  history_frames history payloads ->
  forall a c rest,
    c_reader c = List.concat payloads ++ rest ->
    for_each (List.seq a (List.length history)) (fun _ => print_past_message) c =
    (Ok tt, {| c_reader := rest; c_writer := c_writer c; c_closed := c_closed c;
               stdin := stdin c;
               stdout := stdout c ++ map history_line history;
               tasks := tasks c |}).
Proof.
  induction 1 as [|m pl history payloads Hm _ IH]; intros a c rest Er.
  - cbn in *. unfold ret. rewrite app_nil_r. destruct c; cbn in *; congruence.
  - cbn [List.length List.seq for_each List.concat] in *.
    rewrite <- app_assoc in Er.
    erewrite bind_ok by (eapply print_past_message_run; eassumption).
    rewrite (IH (S a) _ rest) by reflexivity.
    cbn. rewrite <- app_assoc. reflexivity.
Qed.

Lemma replay_or_skip (history : list message_t) (payloads : list bytes)
      (c : Client) (rest : bytes) :
  history_frames history payloads ->
  c_reader c = List.concat payloads ++ rest ->
  (if Z.of_nat (List.length history) =? 0 then ret tt
   else for_each (List.seq 0 (List.length history))
                 (fun _ => print_past_message)) c =
  (Ok tt, {| c_reader := rest; c_writer := c_writer c; c_closed := c_closed c;
             stdin := stdin c;
             stdout := stdout c ++ map history_line history;
             tasks := tasks c |}).
Proof.
  intros Hp Er. destruct history as [|m history].
  - inversion Hp; subst. cbn in *. unfold ret. rewrite app_nil_r.
    destruct c; cbn in *; congruence.
  - replace (Z.of_nat (List.length (m :: history)) =? 0) with false
      by (symmetry; apply Z.eqb_neq; cbn [List.length]; lia).
    apply (replay_history _ _ Hp); exact Er.
Qed.

Lemma input_run (p line : str) (rest : list str) (c : Client) :
  stdin c = line :: rest ->
  input p c =
  (Ok line, {| c_reader := c_reader c; c_writer := c_writer c;
               c_closed := c_closed c; stdin := rest;
               stdout := stdout c ++ [p]; tasks := tasks c |}).
Proof.
  intros E. unfold input, print. monad_unfold. cbn. rewrite E. reflexivity.
Qed.

Lemma recv_bool_true (rd : StreamReader) :
  recv_bool (pack_q true ++ rd) = (Ok true, rd).
Proof. reflexivity. Qed.

Lemma start_chatting_accepted
      (c : Client) (username : str) (more : list str)
      (history : list message_t) (tag ubytes tag' count rest : bytes)
      (payloads : list bytes) :
  stdin c = username :: more ->
  pack_i 471 = Ok tag ->
  sends (send_str username) ubytes ->
  pack_i 371 = Ok tag' ->
  pack_i (Z.of_nat (List.length history)) = Ok count ->
  history_frames history payloads ->
  c_reader c = pack_q true ++ (tag' ++ count ++ List.concat payloads) ++ rest ->
  start_chatting c =
  (Ok (Some username),
   after_join c (tag ++ ubytes) rest more (prompt :: map history_line history)).
Proof.
  intros Ei Et Hu Et' Ec Hp Er. unfold start_chatting.
  erewrite bind_ok by (apply c_send_run, send_tag_sends, Et).
  erewrite bind_ok by (apply input_run; exact Ei).
  erewrite bind_ok by (apply c_send_run, Hu).
  erewrite bind_ok.
  2:{ unfold try_except. erewrite bind_ok.
      2:{ apply c_recv_run. cbn [c_reader set_c_writer]. rewrite Er.
          apply recv_bool_true. }
      cbn [negb]. reflexivity. }
  cbv iota.
  erewrite bind_ok.
  2:{ apply c_recv_run. cbn [c_reader set_c_reader]. rewrite <- !app_assoc.
      apply recv_int_pack, Et'. }
  cbn [Z.eqb Pos.eqb].
  erewrite bind_ok.
  2:{ erewrite bind_ok.
      2:{ apply c_recv_run. cbn [c_reader set_c_reader].
          apply recv_int_pack, Ec. }
      rewrite Nat2Z.id.
      apply (replay_or_skip history payloads _ rest Hp). reflexivity. }
  unfold ret, after_join. destruct c as [rd wr cl si so ts]. cbn in *.
  rewrite <- !app_assoc. reflexivity.
Qed.

(** C10.  A client that the server accepts, after the user has typed
    [username], with the history [history]: [start_chatting] prints the
    history and returns the name.  When the name is the empty string,
    [connect_to_server] returns there: it creates no task, reads no further
    line of input and writes nothing after the join request.  With any
    other name it creates the two tasks. *)
Theorem empty_username_never_chats
        (c : Client) (username : str) (more : list str)
        (w : StreamWriter) (history : list message_t)
        (s : ServerTCP) (sv' : Server) (tag ubytes rest : bytes) :
  stdin c = username :: more ->
  pack_i 471 = Ok tag ->
  sends (send_str username) ubytes ->
  send_history w history {| self := s; net := [] |} = (Ok tt, sv') ->
  c_reader c = pack_q true ++ written w (net sv') ++ rest ->
  let c' := after_join c (tag ++ ubytes) rest more
                       (prompt :: map history_line history) in
  start_chatting c = (Ok (Some username), c') /\
  (username = [] ->
   connect_to_server c = (Ok tt, c') /\ tasks c' = tasks c /\
   stdin c' = more /\ c_writer c' = c_writer c ++ tag ++ ubytes) /\
  (username <> [] ->
   connect_to_server c =
   (Ok tt, with_tasks [task_send_message username; task_recv_new_message] c')).
Proof.
  intros Ei Et Hu Hh Er. cbn zeta.
  destruct (send_history_run _ _ _ _ Hh) as (tag' & count & pls & Et' & Ec & Hp & ->).
  cbn [net app written] in Er.
  rewrite (proj2 (writer_eqb_eq w w) eq_refl), written_own in Er.
  assert (St : start_chatting c =
               (Ok (Some username),
                after_join c (tag ++ ubytes) rest more
                           (prompt :: map history_line history))).
  { apply (start_chatting_accepted c username more history tag ubytes tag' count
             rest pls); assumption. }
  split; [exact St|]. split.
  - intros ->. split; [|repeat split].
    unfold connect_to_server. erewrite bind_ok by exact St. reflexivity.
  - intros Hne. unfold connect_to_server. erewrite bind_ok by exact St.
    destruct username as [|ch username]; [contradiction|].
    cbn [falsy]. unfold create_task, with_tasks, after_join. monad_unfold.
    cbn. rewrite <- app_assoc. reflexivity.
Qed.

Lemma empty_username_never_chats_witness :
  let history := [(lit "10:00:00", lit "ann", lit "hi")] in
  let request name := wire (send_single_value fmt_i (VInt 471)) ++ wire (send_str name) in
  connect_to_server (accepted_client history [[]; lit "anyone?"]) =
  (Ok tt,
   {| c_reader := []; c_writer := request []; c_closed := false;
      stdin := [lit "anyone?"];
      stdout := [prompt; lit "10:00:00 ann: hi"]; tasks := [] |}) /\
  connect_to_server (accepted_client history [lit "bob"; lit "anyone?"]) =
  (Ok tt,
   {| c_reader := []; c_writer := request (lit "bob"); c_closed := false;
      stdin := [lit "anyone?"];
      stdout := [prompt; lit "10:00:00 ann: hi"];
      tasks := [task_send_message (lit "bob"); task_recv_new_message] |}).
Proof.
  cbn zeta. split.
  - apply (proj1 (proj2 (empty_username_never_chats
             (accepted_client [(lit "10:00:00", lit "ann", lit "hi")] [[]; lit "anyone?"])
             [] [lit "anyone?"] cat_writer [(lit "10:00:00", lit "ann", lit "hi")]
             ServerTCP_init _
             (wire (send_single_value fmt_i (VInt 471))) (wire (send_str [])) []
             eq_refl eq_refl (fun out => eq_refl) eq_refl eq_refl)) eq_refl).
  - apply (proj2 (proj2 (empty_username_never_chats
             (accepted_client [(lit "10:00:00", lit "ann", lit "hi")]
                              [lit "bob"; lit "anyone?"])
             (lit "bob") [lit "anyone?"] cat_writer
             [(lit "10:00:00", lit "ann", lit "hi")]
             ServerTCP_init _
             (wire (send_single_value fmt_i (VInt 471))) (wire (send_str (lit "bob"))) []
             eq_refl eq_refl (fun out => eq_refl) eq_refl eq_refl))).
    discriminate.
Defined.

(** ** More on the wire codec *)

Lemma z2b_b2z (b : byte) : z2b (b2z b) = b.
Proof.
  unfold z2b, b2z. rewrite N2Z.id, Byte.of_to_N. reflexivity.
Qed.

Ltac zcmp :=
  repeat match goal with
         | |- context [?a <? ?b] => destruct (Z.ltb_spec a b)
         | |- context [?a <=? ?b] => destruct (Z.leb_spec a b)
         | |- context [?a =? ?b] => destruct (Z.eqb_spec a b)
         end;
  cbn [andb negb orb].

Lemma encode_1 (z0 : Z) :
  0 <= z0 < 128 -> encode_code_point z0 = Some [z2b z0].
Proof.
  intros H. unfold encode_code_point, scalar_value, is_surrogate.
  zcmp; try lia. reflexivity.
Qed.

Lemma encode_2 (z0 z1 : Z) :
  194 <= z0 <= 223 -> 128 <= z1 <= 191 ->
  encode_code_point ((z0 - 192) * 64 + (z1 - 128)) = Some [z2b z0; z2b z1].
Proof.
  intros H0 H1. unfold encode_code_point, scalar_value, is_surrogate.
  zcmp; try lia. repeat f_equal; byte_arith.
Qed.

Lemma encode_3 (z0 z1 z2 : Z) :
  224 <= z0 <= 239 ->
  (if z0 =? 224 then 160 else 128) <= z1 <= (if z0 =? 237 then 159 else 191) ->
  128 <= z2 <= 191 ->
  encode_code_point ((z0 - 224) * 4096 + (z1 - 128) * 64 + (z2 - 128)) =
  Some [z2b z0; z2b z1; z2b z2].
Proof.
  intros H0 H1 H2. unfold encode_code_point, scalar_value, is_surrogate.
  destruct (Z.eqb_spec z0 224); destruct (Z.eqb_spec z0 237);
    zcmp; try lia; repeat f_equal; byte_arith.
Qed.

Lemma encode_4 (z0 z1 z2 z3 : Z) :
  240 <= z0 <= 244 ->
  (if z0 =? 240 then 144 else 128) <= z1 <= (if z0 =? 244 then 143 else 191) ->
  128 <= z2 <= 191 -> 128 <= z3 <= 191 ->
  encode_code_point
    ((z0 - 240) * 262144 + (z1 - 128) * 4096 + (z2 - 128) * 64 + (z3 - 128)) =
  Some [z2b z0; z2b z1; z2b z2; z2b z3].
Proof.
  intros H0 H1 H2 H3. unfold encode_code_point, scalar_value, is_surrogate.
  destruct (Z.eqb_spec z0 240); destruct (Z.eqb_spec z0 244);
    zcmp; try lia; repeat f_equal; byte_arith.
Qed.

Lemma cons_ok_inv (c : Z) (r : outcome str) (s : str) :
  cons_ok c r = Ok s -> exists s', r = Ok s' /\ s = c :: s'.
Proof.
  destruct r as [s'|e]; cbn; [|discriminate].
  intros E. exists s'. split; [reflexivity | congruence].
Qed.

Lemma in_range_iff (lo hi x : Z) : in_range lo hi x = true <-> lo <= x <= hi.
Proof. unfold in_range. rewrite andb_true_iff, !Z.leb_le. tauto. Qed.

Lemma encode_cons (c : Z) (cb rest : bytes) (s : str) :
  encode_code_point c = Some cb -> encode s = Ok rest ->
  encode (c :: s) = Ok (cb ++ rest).
Proof. intros E1 E2. cbn [encode]. rewrite E1, E2. reflexivity. Qed.

(** The decoder accepts only what the encoder writes. *)
Lemma encode_decode (n : nat) :
  forall bs s, (List.length bs <= n)%nat -> decode bs = Ok s -> encode s = Ok bs.
Proof.
  induction n as [|n IH]; intros bs s Hn E.
  - destruct bs; [|cbn in Hn; lia]. cbn in E.
    assert (s = []) by congruence. subst. reflexivity.
  - destruct bs as [|b0 r0].
    { cbn in E. assert (s = []) by congruence. subst. reflexivity. }
    cbn [List.length] in Hn. cbn [decode] in E.
    destruct (b2z b0 <? 128) eqn:C0.
    { apply Z.ltb_lt in C0. apply cons_ok_inv in E. destruct E as (s' & E & ->).
      apply IH in E; [|lia].
      rewrite (encode_cons _ [z2b (b2z b0)] r0 s'); [|apply encode_1|exact E].
      - rewrite z2b_b2z. reflexivity.
      - pose proof (b2z_range b0). lia. }
    destruct r0 as [|b1 r1]; [discriminate|]. cbn [List.length] in Hn.
    destruct (in_range 194 223 (b2z b0)) eqn:C1.
    { apply in_range_iff in C1.
      destruct (continuation b1) eqn:K1; [|discriminate].
      apply in_range_iff in K1.
      apply cons_ok_inv in E. destruct E as (s' & E & ->).
      apply IH in E; [|lia]. unfold tail6.
      rewrite (encode_cons _ [z2b (b2z b0); z2b (b2z b1)] r1 s');
        [|apply encode_2; assumption|exact E].
      rewrite !z2b_b2z. reflexivity. }
    destruct r1 as [|b2 r2]; [discriminate|]. cbn [List.length] in Hn.
    destruct (in_range 224 239 (b2z b0)) eqn:C2.
    { apply in_range_iff in C2.
      destruct (in_range _ _ (b2z b1) && continuation b2) eqn:K; [|discriminate].
      apply andb_true_iff in K. destruct K as [K1 K2].
      apply in_range_iff in K1, K2.
      apply cons_ok_inv in E. destruct E as (s' & E & ->).
      apply IH in E; [|lia]. unfold tail6.
      rewrite (encode_cons _ [z2b (b2z b0); z2b (b2z b1); z2b (b2z b2)] r2 s');
        [|apply encode_3; assumption|exact E].
      rewrite !z2b_b2z. reflexivity. }
    destruct r2 as [|b3 r3]; [discriminate|]. cbn [List.length] in Hn.
    destruct (in_range 240 244 (b2z b0)) eqn:C3; [|discriminate].
    apply in_range_iff in C3.
    destruct (in_range _ _ (b2z b1) && continuation b2 && continuation b3) eqn:K;
      [|discriminate].
    apply andb_true_iff in K. destruct K as [K K3].
    apply andb_true_iff in K. destruct K as [K1 K2].
    apply in_range_iff in K1, K2, K3.
    apply cons_ok_inv in E. destruct E as (s' & E & ->).
    apply IH in E; [|lia]. unfold tail6.
    rewrite (encode_cons _ [z2b (b2z b0); z2b (b2z b1); z2b (b2z b2); z2b (b2z b3)]
                         r3 s');
      [|apply encode_4; assumption|exact E].
    rewrite !z2b_b2z. reflexivity.
Qed.

Lemma Ok_eq {A} (x y : A) : Ok x = Ok y -> x = y.
Proof. congruence. Qed.

Lemma recv_int_range (rd rd' : StreamReader) (n : Z) :
  recv_int rd = (Ok n, rd') -> -2147483648 <= n <= 2147483647.
Proof.
  unfold recv_int, recv_single_value, recv_formatted_data.
  monad_unfold. cbn [calcsize]. rewrite read_4.
  destruct rd as [|a [|b [|c [|d rd]]]];
    cbn [firstn skipn struct_unpack]; try discriminate.
  intros E.
  pose proof (b2z_range a). pose proof (b2z_range b).
  pose proof (b2z_range c). pose proof (b2z_range d).
  apply (f_equal fst) in E. cbn [fst] in E. apply Ok_eq in E. subst n.
  destruct (_ <? 2147483648) eqn:S;
    [apply Z.ltb_lt in S | apply Z.ltb_ge in S]; lia.
Qed.

Lemma read_length (n : Z) (rd rd' : StreamReader) (data : bytes) :
  read n rd = (Ok data, rd') ->
  (List.length data + List.length rd' = List.length rd)%nat.
Proof.
  unfold read. destruct (n =? 0); [|destruct (n <? 0)]; intros E.
  - assert (data = []) by congruence. assert (rd' = rd) by congruence.
    subst. reflexivity.
  - assert (data = rd) by congruence. assert (rd' = []) by congruence.
    subst. cbn. lia.
  - assert (data = firstn (Z.to_nat n) rd) by congruence.
    assert (rd' = skipn (Z.to_nat n) rd) by congruence. subst.
    rewrite <- (firstn_skipn (Z.to_nat n) rd) at 3. rewrite length_app. reflexivity.
Qed.

(** What [recv_str] returns was encoded in the bytes it consumed after the
    prefix. *)
Lemma recv_str_inv (rd rd' : StreamReader) (s : str) :
  recv_str rd = (Ok s, rd') ->
  exists body,
    encode s = Ok body /\
    (4 + List.length body + List.length rd' = List.length rd)%nat.
Proof.
  unfold recv_str. unfold bind at 1.
  destruct (recv_int rd) as [[n|e] rd1] eqn:En; [|discriminate].
  apply recv_int_ok in En. unfold bind.
  destruct (read n rd1) as [[data|e] rd2] eqn:Er; [|discriminate].
  apply read_length in Er. unfold lift_outcome.
  destruct (decode data) as [s'|e] eqn:Ed; [|discriminate].
  intros E. assert (s' = s) by congruence. assert (rd2 = rd') by congruence. subst.
  exists data. split; [eapply encode_decode; [apply Nat.le_refl | exact Ed] | lia].
Qed.

Lemma send_str_encoded (s : str) (body : bytes) :
  encode s = Ok body -> Z.of_nat (List.length body) <= 2147483647 ->
  exists data, sends (send_str s) data.
Proof.
  intros Ee Hl.
  destruct (pack_i_total (Z.of_nat (List.length body))) as (hdr & Ep); [lia|].
  exists (hdr ++ body). intros out.
  unfold send_str, write. monad_unfold. rewrite Ee, Ep. reflexivity.
Qed.

Lemma replicateM_recv_str_inv (k : nat) :
  forall rd rd' ss,
    replicateM k recv_str rd = (Ok ss, rd') ->
    List.length ss = k /\
    Forall (fun s => exists body,
                encode s = Ok body /\ (List.length body <= List.length rd)%nat) ss.
Proof.
  induction k as [|k IH]; intros rd rd' ss; cbn [replicateM].
  - unfold ret. intros E. assert (ss = []) by congruence. subst.
    split; [reflexivity | constructor].
  - unfold bind at 1.
    destruct (recv_str rd) as [[s|e] rd1] eqn:E1; [|discriminate].
    unfold bind at 1.
    destruct (replicateM k recv_str rd1) as [[ss'|e] rd2] eqn:E2; [|discriminate].
    unfold ret. intros E. assert (ss = s :: ss') by congruence. subst.
    apply recv_str_inv in E1. destruct E1 as (body & Eb & Hl).
    destruct (IH _ _ _ E2) as (Hk & Hf). split; [cbn; lia|].
    constructor.
    + exists body. split; [exact Eb | lia].
    + eapply Forall_impl; [|exact Hf].
      intros s0 (b0 & Eb0 & Hb0). exists b0. split; [exact Eb0 | lia].
Qed.

Lemma for_each_send_str_encoded (ss : list str) (bound : nat) :
  Z.of_nat bound <= 2147483647 ->
  Forall (fun s => exists body,
              encode s = Ok body /\ (List.length body <= bound)%nat) ss ->
  exists data, sends (for_each ss send_str) data.
Proof.
  intros Hb. induction 1 as [|s ss (body & Eb & Hl) _ (d2 & H2)].
  - exists []. intros out. cbn. unfold ret. rewrite app_nil_r. reflexivity.
  - destruct (send_str_encoded s body Eb) as (d1 & H1); [lia|].
    exists (d1 ++ d2). intros out. cbn [for_each]. unfold bind.
    rewrite H1, H2, app_assoc. reflexivity.
Qed.

Lemma recv_str_list_resendable (rd rd' : StreamReader) (ss : list str) :
  recv_str_list rd = (Ok ss, rd') ->
  Z.of_nat (List.length rd) <= 2147483647 ->
  exists data, sends (send_str_list ss) data.
Proof.
  unfold recv_str_list. unfold bind at 1.
  destruct (recv_int rd) as [[n|e] rd1] eqn:En; [|discriminate].
  pose proof (recv_int_range _ _ _ En) as Hn. apply recv_int_ok in En.
  intros E Hb. apply replicateM_recv_str_inv in E. destruct E as (Hk & Hf).
  destruct (pack_i_total (Z.of_nat (List.length ss))) as (hdr & Ep); [lia|].
  destruct (for_each_send_str_encoded ss (List.length rd) Hb) as (d & Hd).
  { eapply Forall_impl; [|exact Hf].
    intros s (b & Eb & Hl). exists b. split; [exact Eb | lia]. }
  exists (hdr ++ d). intros out.
  unfold send_str_list, write. monad_unfold. rewrite Ep.
  rewrite (Hd (out ++ hdr)), app_assoc. reflexivity.
Qed.

(** X1.  [send_single_value] and [recv_single_value] on ['<i']: an integer
    of the 32-bit signed range is written on four bytes and read back,
    whatever follows on the stream; any other integer makes
    [send_single_value] raise [struct.error] with nothing written.  On
    ['<?'] a boolean is written on one byte and read back. *)
Theorem single_value_round_trip (v : Z) (b : bool) (out rest : bytes) :
  (-2147483648 <= v <= 2147483647 ->
   exists data,
     send_single_value fmt_i (VInt v) out = (Ok tt, out ++ data) /\
     List.length data = 4%nat /\
     recv_single_value fmt_i (data ++ rest) = (Ok (VInt v), rest)) /\
  (v < -2147483648 \/ 2147483647 < v ->
   send_single_value fmt_i (VInt v) out = (Raise struct_error, out)) /\
  (send_single_value fmt_q (VBool b) out = (Ok tt, out ++ pack_q b) /\
   recv_single_value fmt_q (pack_q b ++ rest) = (Ok (VBool b), rest)).
Proof.
  split; [|split].
  - intros Hv. destruct (pack_i_total v Hv) as (data & Ep). exists data.
    split; [apply (send_tag_sends _ _ Ep)|].
    split; [apply (pack_i_length _ _ Ep)|].
    unfold recv_single_value, recv_formatted_data, bind.
    pose proof (read_exact data rest) as R.
    rewrite (pack_i_length _ _ Ep) in R. cbn [calcsize].
    change (Z.of_nat 4) with 4 in R. rewrite R. unfold lift_outcome.
    rewrite (unpack_pack_i _ _ Ep). reflexivity.
  - intros Hv. unfold send_single_value, bind, lift_outcome.
    cbn [struct_pack]. unfold pack_i.
    replace ((-2147483648 <=? v) && (v <=? 2147483647)) with false; [reflexivity|].
    symmetry. apply andb_false_iff.
    destruct Hv; [left; apply Z.leb_gt | right; apply Z.leb_gt]; lia.
  - split; [reflexivity|]. destruct b; reflexivity.
Qed.

Lemma single_value_round_trip_witness :
  recv_single_value fmt_i (wire (send_single_value fmt_i (VInt (-471))) ++ [x2a]) =
    (Ok (VInt (-471)), [x2a]) /\
  send_single_value fmt_i (VInt 2147483648) [x2a] = (Raise struct_error, [x2a]).
Proof.
  split.
  - destruct (proj1 (single_value_round_trip (-471) true [] [x2a]) ltac:(lia))
      as (data & E1 & _ & E2).
    cbn [app] in E1. unfold wire. rewrite E1. exact E2.
  - apply (proj1 (proj2 (single_value_round_trip 2147483648 true [x2a] []))).
    right. lia.
Defined.

(** X2.  [recv_formatted_data] on a stream that has fewer bytes left than
    the format takes raises [struct.error], and the bytes that were left
    are consumed. *)
Theorem short_stream_is_struct_error (f : frmt) (rd : StreamReader) :
  Z.of_nat (List.length rd) < calcsize f ->
  recv_formatted_data f rd = (Raise struct_error, []).
Proof.
  intros H. unfold recv_formatted_data, bind, lift_outcome.
  destruct f; cbn [calcsize] in *.
  - rewrite read_4.
    destruct rd as [|a [|b [|c [|d rd]]]]; cbn in H |- *; try reflexivity; lia.
  - destruct rd as [|a rd]; [reflexivity | cbn in H; lia].
Qed.

Lemma short_stream_is_struct_error_witness :
  recv_formatted_data fmt_i [x01; x02; x03] = (Raise struct_error, []) /\
  recv_formatted_data fmt_q [] = (Raise struct_error, []).
Proof.
  split.
  - apply (short_stream_is_struct_error fmt_i [x01; x02; x03]). cbn. lia.
  - apply (short_stream_is_struct_error fmt_q []). cbn. lia.
Defined.

(** X3.  A negative length prefix: [recv_str] takes everything up to the
    end of the stream as the body of the string. *)
Theorem negative_length_reads_to_the_end (v : Z) (hdr body : bytes) :
  v < 0 -> pack_i v = Ok hdr ->
  recv_str (hdr ++ body) = (decode body, []).
Proof.
  intros Hv Ep. unfold recv_str, bind. rewrite (recv_int_pack _ _ _ Ep).
  unfold read.
  replace (v =? 0) with false by (symmetry; apply Z.eqb_neq; lia).
  replace (v <? 0) with true by (symmetry; apply Z.ltb_lt; lia).
  unfold lift_outcome. destruct (decode body); reflexivity.
Qed.

Lemma negative_length_reads_to_the_end_witness :
  recv_str ([xff; xff; xff; xff] ++ [x68; x69; x00; x00; x00; x00]) =
  (Ok [0x68; 0x69; 0; 0; 0; 0], []).
Proof.
  apply (negative_length_reads_to_the_end (-1) [xff; xff; xff; xff]
           [x68; x69; x00; x00; x00; x00]); [lia | reflexivity].
Defined.

(** X4.  A count that is zero or negative: [recv_str_list] returns the
    empty list and consumes the four bytes of the count only. *)
Theorem non_positive_count_is_empty_list (v : Z) (hdr rest : bytes) :
  v <= 0 -> pack_i v = Ok hdr ->
  recv_str_list (hdr ++ rest) = (Ok [], rest).
Proof.
  intros Hv Ep. unfold recv_str_list, bind. rewrite (recv_int_pack _ _ _ Ep).
  replace (Z.to_nat v) with 0%nat by lia. reflexivity.
Qed.

Lemma non_positive_count_is_empty_list_witness :
  recv_str_list ([xfd; xff; xff; xff] ++ [x68; x69]) = (Ok [], [x68; x69]).
Proof.
  apply (non_positive_count_is_empty_list (-3) [xfd; xff; xff; xff] [x68; x69]);
    [lia | reflexivity].
Defined.

(** X5.  What was received can be sent.  The strings that [recv_str_list]
    returns from a stream of less than 2^31 bytes are always accepted by
    [send_str_list], which writes a frame from which [recv_str_list]
    returns them again; and each string that [recv_str] returns is the
    decoding of exactly the bytes consumed after its prefix. *)
Theorem received_strings_can_be_sent (rd rd' : StreamReader) :
  (forall ss,
      recv_str_list rd = (Ok ss, rd') ->
      Z.of_nat (List.length rd) <= 2147483647 ->
      exists data,
        sends (send_str_list ss) data /\
        forall rest, recv_str_list (data ++ rest) = (Ok ss, rest)) /\
  (forall s,
      recv_str rd = (Ok s, rd') ->
      exists body,
        encode s = Ok body /\
        (4 + List.length body + List.length rd' = List.length rd)%nat).
Proof.
  split.
  - intros ss E Hb. destruct (recv_str_list_resendable _ _ _ E Hb) as (data & Hd).
    exists data. split; [exact Hd|]. intros rest.
    destruct (send_str_list_ok ss [] _ (Hd [])) as (d & Ed & _ & R).
    cbn [app] in Ed. subst d. apply R.
  - intros s E. apply recv_str_inv, E.
Qed.

Lemma received_strings_can_be_sent_witness :
  exists data,
    sends (send_str_list [[0x68; 0x69]]) data /\
    forall rest, recv_str_list (data ++ rest) = (Ok [[0x68; 0x69]], rest).
Proof.
  apply (proj1 (received_strings_can_be_sent
                  [x01; x00; x00; x00; xff; xff; xff; xff; x68; x69] [])
               [[0x68; 0x69]]); [reflexivity | cbn; lia].
Defined.

(** ** More on the TCP server *)

Lemma send_history_total (w : StreamWriter) (history : list message_t)
      (tag count : bytes) (payloads : list bytes) (sv : Server) :
  pack_i 371 = Ok tag ->
  pack_i (Z.of_nat (List.length history)) = Ok count ->
  history_frames history payloads ->
  send_history w history sv =
  (Ok tt, {| self := self sv;
             net := net sv ++ Wrote w tag :: Wrote w count :: map (Wrote w) payloads |}).
Proof.
  intros Et Ec Hp. unfold send_history.
  erewrite bind_ok by (apply send_sends, send_tag_sends, Et).
  erewrite bind_ok by (apply send_sends, send_tag_sends, Ec).
  assert (L : forall sv0,
             for_each history
               (fun message => send w (send_str_list (list_of_message message))) sv0 =
             (Ok tt, {| self := self sv0;
                        net := net sv0 ++ map (Wrote w) payloads |})).
  { clear Ec. induction Hp as [|m pl history payloads Hm _ IH]; intros sv0.
    - cbn. unfold ret. rewrite app_nil_r. destruct sv0; reflexivity.
    - cbn [for_each map]. erewrite bind_ok by (apply send_sends, Hm).
      rewrite IH. cbn [self net]. rewrite <- app_assoc. reflexivity. }
  destruct (negb (Nat.eqb (List.length history) 0)) eqn:En.
  - rewrite L. cbn [self net]. rewrite <- !app_assoc. reflexivity.
  - destruct history; [|discriminate]. inversion Hp; subst.
    unfold ret. cbn [self net map]. rewrite <- !app_assoc. reflexivity.
Qed.

Lemma existsb_name_false (name : str) (us : list user_t) :
  ~ In name (map snd us) ->
  existsb (fun client_id => str_eqb name (snd client_id)) us = false.
Proof.
  intros H.
  destruct (existsb (fun client_id => str_eqb name (snd client_id)) us) eqn:E;
    [|reflexivity].
  apply existsb_name in E. contradiction.
Qed.

Lemma handle_join_free (w : StreamWriter) (h : Handler) (name : str)
      (body rest tag count : bytes) (payloads : list bytes) :
  sends (send_str name) body ->
  reader h = body ++ rest ->
  ~ In name (usernames (server h)) ->
  pack_i 371 = Ok tag ->
  pack_i (Z.of_nat (List.length (RECENT_MESSAGES (self (server h))))) = Ok count ->
  history_frames (RECENT_MESSAGES (self (server h))) payloads ->
  handle_join w h = (Ok Continue, joined w name tag count payloads rest h).
Proof.
  intros Hs Er Hfree Et Ec Hp. unfold handle_join. unfold bind at 1.
  unfold recv, zoom. rewrite Er, (recv_send_str _ _ _ Hs).
  unfold bind at 1. unfold get at 1.
  cbn [server set_reader self].
  rewrite (existsb_name_false _ _ Hfree).
  unfold drain.
  erewrite bind_ok.
  2:{ unfold srv, zoom. erewrite send_sends by (intros out; reflexivity).
      reflexivity. }
  erewrite bind_ok by reflexivity.
  erewrite bind_ok by reflexivity.
  erewrite bind_ok by reflexivity.
  erewrite bind_ok by reflexivity.
  erewrite bind_ok.
  2:{ unfold srv, zoom. cbn [server set_server set_user_info].
      erewrite send_history_total by eassumption. reflexivity. }
  unfold joined, welcome, ret. cbn. rewrite <- !app_assoc. reflexivity.
Qed.

Lemma written_welcome (w : StreamWriter) (tag count : bytes) (payloads : list bytes) :
  written w (welcome w tag count payloads) =
  pack_q true ++ tag ++ count ++ List.concat payloads.
Proof.
  unfold welcome. cbn [app written].
  rewrite (proj2 (writer_eqb_eq w w) eq_refl), written_own. reflexivity.
Qed.

Lemma loop_body_join_free (w : StreamWriter) (h : Handler) (name : str)
      (hdr body rest tag count : bytes) (payloads : list bytes) :
  pack_i 471 = Ok hdr ->
  sends (send_str name) body ->
  reader h = hdr ++ body ++ rest ->
  ~ In name (usernames (server h)) ->
  pack_i 371 = Ok tag ->
  pack_i (Z.of_nat (List.length (RECENT_MESSAGES (self (server h))))) = Ok count ->
  history_frames (RECENT_MESSAGES (self (server h))) payloads ->
  loop_body w h = (Ok Continue, joined w name tag count payloads rest h).
Proof.
  intros Ep Hs Er Hfree Et Ec Hp.
  rewrite (loop_body_tag _ _ _ _ _ Ep Er). unfold dispatch.
  cbn [Z.eqb Pos.eqb].
  erewrite bind_ok
    by (apply (handle_join_free w _ name body rest tag count payloads);
        solve [assumption | reflexivity]).
  reflexivity.
Qed.

(** X6.  The join handshake.  A join request under a name that is not
    taken, on a server whose history entries can be encoded: the server
    answers true, appends the record [(address, name)] to [USERNAMES_LIST],
    keeps it in [user_info] and sends the history; and a client that typed
    that name and reads what the server wrote to its connection prints the
    prompt and the lines of the server's history, oldest first, and returns
    the name, having written exactly the request that the server read. *)
Theorem join_handshake
        (w : StreamWriter) (h : Handler) (name : str)
        (hdr body rest tag count : bytes) (payloads : list bytes) :
  pack_i 471 = Ok hdr ->
  pack_i 371 = Ok tag ->
  pack_i (Z.of_nat (List.length (RECENT_MESSAGES (self (server h))))) = Ok count ->
  sends (send_str name) body ->
  reader h = hdr ++ body ++ rest ->
  ~ In name (usernames (server h)) ->
  history_frames (RECENT_MESSAGES (self (server h))) payloads ->
  loop_body w h = (Ok Continue, joined w name tag count payloads rest h) /\
  forall (c : Client) (more : list str) (crest : bytes),
    stdin c = name :: more ->
    c_reader c = written w (welcome w tag count payloads) ++ crest ->
    start_chatting c =
    (Ok (Some name),
     after_join c (hdr ++ body) crest more
                (prompt :: map history_line (RECENT_MESSAGES (self (server h))))).
Proof.
  intros Ep Et Ec Hs Er Hfree Hp.
  split.
  - apply (loop_body_join_free w h name hdr body rest tag count payloads);
      assumption.
  - intros c more crest Ei Ec'. rewrite written_welcome in Ec'.
    apply (start_chatting_accepted c name more _ hdr body tag count crest payloads);
      assumption.
Qed.

Lemma join_handshake_witness :
  let h := {| server := room;
              reader := wire (send_single_value fmt_i (VInt 471)) ++
                        wire (send_str (lit "bob")) ++ [];
              user_info := None |} in
  let tag := [x73; x01; x00; x00] in
  let count := [x00; x00; x00; x00] in
  loop_body bob_writer h =
  (Ok Continue, joined bob_writer (lit "bob") tag count [] [] h) /\
  start_chatting
    {| c_reader := written bob_writer (welcome bob_writer tag count []) ++ [];
       c_writer := []; c_closed := false; stdin := [lit "bob"];
       stdout := []; tasks := [] |} =
  (Ok (Some (lit "bob")),
   {| c_reader := [];
      c_writer := wire (send_single_value fmt_i (VInt 471)) ++
                  wire (send_str (lit "bob"));
      c_closed := false; stdin := []; stdout := [prompt]; tasks := [] |}).
Proof.
  cbn zeta.
  destruct (join_handshake bob_writer
              {| server := room;
                 reader := wire (send_single_value fmt_i (VInt 471)) ++
                           wire (send_str (lit "bob")) ++ [];
                 user_info := None |}
              (lit "bob") (wire (send_single_value fmt_i (VInt 471)))
              (wire (send_str (lit "bob"))) []
              [x73; x01; x00; x00] [x00; x00; x00; x00] [])
    as (L & C).
  - reflexivity.
  - reflexivity.
  - reflexivity.
  - intros out. reflexivity.
  - reflexivity.
  - intros [H|[]]. discriminate.
  - constructor.
  - split; [exact L|].
    apply (C {| c_reader := written bob_writer
                              (welcome bob_writer [x73; x01; x00; x00]
                                       [x00; x00; x00; x00] []) ++ [];
                c_writer := []; c_closed := false; stdin := [lit "bob"];
                stdout := []; tasks := [] |} [] []); reflexivity.
Defined.

Lemma user_fresh (addr name : str) (us : list user_t) :
  ~ In name (map snd us) -> ~ In (addr, name) us.
Proof.
  intros H Hin. apply H. apply in_map_iff. exists (addr, name). split; auto.
Qed.

(** X7.  A connection that joins under a free name and whose stream then
    ends: the handler returns normally and the registry is what it was
    before the connection arrived; the connection was sent the answer and
    the history, and its writer was closed. *)
Theorem join_then_end_of_stream
        (sv : Server) (w : StreamWriter) (name : str)
        (hdr body tag count : bytes) (payloads : list bytes) :
  pack_i 471 = Ok hdr ->
  pack_i 371 = Ok tag ->
  pack_i (Z.of_nat (List.length (RECENT_MESSAGES (self sv)))) = Ok count ->
  sends (send_str name) body ->
  ~ In w (WRITERS (self sv)) ->
  ~ In name (usernames sv) ->
  history_frames (RECENT_MESSAGES (self sv)) payloads ->
  server_handle_request (hdr ++ body) w sv =
  (Ok (Some tt),
   {| self := self sv;
      net := net sv ++ welcome w tag count payloads ++ [Closed w] |}).
Proof.
  intros Ep Et Ec Hs Hw Hfree Hp.
  unfold server_handle_request. unfold bind at 1. rewrite accept_spec.
  erewrite serve_continue.
  2:{ apply (loop_body_join_free w _ name hdr body [] tag count payloads);
        try assumption.
      cbn. rewrite app_nil_r. reflexivity. }
  erewrite serve_break by (apply loop_body_eof; cbn; lia).
  unfold bind.
  rewrite (cleanup_joined w (peername w, name)).
  - unfold disconnected, joined, accepted. cbn.
    rewrite (without_app_fresh _ writer_eqb_eq _ _ Hw).
    rewrite (without_app_fresh _ user_eqb_eq _ _ (user_fresh _ _ _ Hfree)).
    rewrite <- app_assoc. destruct sv as [[ws us rs] n]. reflexivity.
  - reflexivity.
  - cbn. apply in_or_app. right. left. reflexivity.
  - cbn. apply in_or_app. right. left. reflexivity.
Qed.

Lemma join_then_end_of_stream_witness :
  server_handle_request
    (wire (send_single_value fmt_i (VInt 471)) ++ wire (send_str (lit "cat")))
    cat_writer room =
  (Ok (Some tt),
   {| self := self room;
      net := net room ++
             welcome cat_writer [x73; x01; x00; x00] [x00; x00; x00; x00] [] ++
             [Closed cat_writer] |}).
Proof.
  apply (join_then_end_of_stream room cat_writer (lit "cat")
           (wire (send_single_value fmt_i (VInt 471)))
           (wire (send_str (lit "cat")))
           [x73; x01; x00; x00] [x00; x00; x00; x00] []).
  - reflexivity.
  - reflexivity.
  - reflexivity.
  - intros out. reflexivity.
  - intros [H|[H|[]]]; discriminate.
  - intros [H|[]]. discriminate.
  - constructor.
Defined.

(** X10.  A join whose username cannot be read (the stream ends after the
    tag 471, or the bytes are not valid text): the exception of [recv_str]
    is not caught.  The handler ends with it; nothing is answered, the
    clean-up does not run, the writer stays in [WRITERS] and is not
    closed. *)
Theorem unreadable_username_escapes
        (w : StreamWriter) (h : Handler) (hdr rd1 rd2 : bytes) (e : exn) :
  pack_i 471 = Ok hdr ->
  reader h = hdr ++ rd1 ->
  recv_str rd1 = (Raise e, rd2) ->
  loop_body w h = (Raise e, set_reader rd2 h) /\
  serve w h = (Raise e, set_reader rd2 h) /\
  (forall sv,
      server_handle_request (hdr ++ rd1) w sv =
      (Raise e, {| self := set_WRITERS (WRITERS (self sv) ++ [w]) (self sv);
                   net := net sv |})).
Proof.
  intros Ep Er E.
  assert (L : forall h0, reader h0 = hdr ++ rd1 ->
                         loop_body w h0 = (Raise e, set_reader rd2 h0)).
  { intros h0 Er0. rewrite (loop_body_tag _ _ _ _ _ Ep Er0). unfold dispatch.
    cbn [Z.eqb Pos.eqb]. unfold bind at 1. unfold handle_join. unfold bind at 1.
    unfold recv, zoom. cbn [reader set_reader]. rewrite E. reflexivity. }
  split; [apply L, Er|]. split; [apply serve_raise, L, Er|].
  intros sv. unfold server_handle_request. unfold bind at 1. rewrite accept_spec.
  erewrite serve_raise by (apply L; reflexivity). reflexivity.
Qed.

Lemma unreadable_username_escapes_witness :
  server_handle_request (wire (send_single_value fmt_i (VInt 471)) ++ [x03; x00])
                        cat_writer room =
  (Raise struct_error,
   {| self := set_WRITERS [ann_writer; bob_writer; cat_writer] (self room);
      net := [] |}).
Proof.
  apply (proj2 (proj2 (unreadable_username_escapes cat_writer
           {| server := room;
              reader := wire (send_single_value fmt_i (VInt 471)) ++ [x03; x00];
              user_info := None |}
           (wire (send_single_value fmt_i (VInt 471))) [x03; x00] []
           struct_error eq_refl eq_refl eq_refl))).
Defined.

Lemma handle_post_received (w : StreamWriter) (h : Handler)
      (message_info : list str) (tag payload rest : bytes) :
  pack_i 372 = Ok tag ->
  sends (send_str_list message_info) payload ->
  reader h = payload ++ rest ->
  handle_post w h =
  (time <- list_index message_info 0 ;;
   username <- list_index message_info 1 ;;
   message <- list_index message_info 2 ;;
   srv (on_self (update_history time username message)) ;;
   ret Continue)
    {| server := {| self := self (server h);
                    net := net (server h) ++
                           fan_out tag payload (WRITERS (self (server h))) |};
       reader := rest; user_info := user_info h |}.
Proof.
  intros Et Hs Er. unfold handle_post. unfold bind at 1.
  unfold try_except, bind at 1. unfold recv, zoom.
  rewrite Er, (recv_send_str_list _ _ _ Hs). unfold ret at 1.
  unfold bind at 1. unfold srv at 1, zoom.
  rewrite (send_new_message_spec _ _ _ _ Et Hs).
  unfold drain. unfold bind at 1. unfold ret at 1. reflexivity.
Qed.

(** X11.  A message of fewer than three strings.  The strings are written
    with the tag 372 to every writer of [WRITERS]; then [message_info[k]]
    raises [IndexError], which is not caught: the history is as before, the
    handler ends with the exception and the clean-up does not run. *)
Theorem short_message_is_sent_then_raises
        (w : StreamWriter) (h : Handler) (message_info : list str)
        (hdr tag payload rest : bytes) :
  pack_i 472 = Ok hdr ->
  pack_i 372 = Ok tag ->
  sends (send_str_list message_info) payload ->
  reader h = hdr ++ payload ++ rest ->
  (List.length message_info < 3)%nat ->
  let h' := {| server := {| self := self (server h);
                            net := net (server h) ++
                                   fan_out tag payload (WRITERS (self (server h))) |};
               reader := rest; user_info := user_info h |} in
  loop_body w h = (Raise IndexError, h') /\
  serve w h = (Raise IndexError, h').
Proof.
  intros Ep Et Hs Er Hl. cbn zeta.
  assert (L : loop_body w h =
              (Raise IndexError,
               {| server := {| self := self (server h);
                               net := net (server h) ++
                                      fan_out tag payload (WRITERS (self (server h))) |};
                  reader := rest; user_info := user_info h |})).
  { rewrite (loop_body_tag _ _ _ _ _ Ep Er). unfold dispatch.
    cbn [Z.eqb Pos.eqb]. unfold bind at 1. unfold ret at 1.
    rewrite (handle_post_received w _ message_info tag payload rest Et Hs)
      by reflexivity.
    cbn [server set_reader user_info].
    destruct message_info as [|a [|b [|c l]]]; cbn in Hl; try lia; reflexivity. }
  split; [exact L | apply serve_raise, L].
Qed.

Lemma short_message_is_sent_then_raises_witness :
  let payload := wire (send_str_list [lit "hi"]) in
  let tag := wire (send_single_value fmt_i (VInt 372)) in
  serve ann_writer
        (ann_handler (wire (send_single_value fmt_i (VInt 472)) ++ payload ++ [])) =
  (Raise IndexError,
   {| server := {| self := self room;
                   net := [Wrote ann_writer tag; Wrote ann_writer payload;
                           Wrote bob_writer tag; Wrote bob_writer payload] |};
      reader := []; user_info := Some ann |}).
Proof.
  cbn zeta.
  apply (proj2 (short_message_is_sent_then_raises ann_writer
           (ann_handler (wire (send_single_value fmt_i (VInt 472)) ++
                         wire (send_str_list [lit "hi"]) ++ []))
           [lit "hi"] (wire (send_single_value fmt_i (VInt 472)))
           (wire (send_single_value fmt_i (VInt 372)))
           (wire (send_str_list [lit "hi"])) []
           eq_refl eq_refl
           (sends_str_list_wire [lit "hi"] eq_refl) eq_refl
           ltac:(cbn; lia))).
Defined.

(** X12.  A message of more than three strings.  All of them are written
    with the tag 372 to every writer of [WRITERS]; the history receives the
    triple of the first three, and the loop goes on. *)
Theorem long_message_is_sent_whole
        (w : StreamWriter) (h : Handler) (t u m : str) (extra : list str)
        (hdr tag payload rest : bytes) :
  pack_i 472 = Ok hdr ->
  pack_i 372 = Ok tag ->
  sends (send_str_list (t :: u :: m :: extra)) payload ->
  reader h = hdr ++ payload ++ rest ->
  loop_body w h = (Ok Continue, posted tag payload t u m rest h) /\
  forall more,
    (k <- recv_int ;; message <- recv_str_list ;; ret (k, message))
      ((tag ++ payload) ++ more) = (Ok (372, t :: u :: m :: extra), more).
Proof.
  intros Ep Et Hs Er. split.
  - rewrite (loop_body_tag _ _ _ _ _ Ep Er). unfold dispatch.
    cbn [Z.eqb Pos.eqb]. unfold bind at 1. unfold ret at 1.
    rewrite (handle_post_received w _ (t :: u :: m :: extra) tag payload rest Et Hs)
      by reflexivity.
    unfold list_index. cbn [nth_error]. unfold bind, ret, srv, on_self, zoom.
    cbn [server set_server set_reader self set_self user_info].
    rewrite update_history_spec. reflexivity.
  - intros more. unfold bind. rewrite <- app_assoc.
    rewrite (recv_int_pack _ _ _ Et), (recv_send_str_list _ _ _ Hs). reflexivity.
Qed.

Lemma long_message_is_sent_whole_witness :
  let four := [lit "10:00:00"; lit "ann"; lit "hi"; lit "more"] in
  loop_body ann_writer
    (ann_handler (wire (send_single_value fmt_i (VInt 472)) ++
                  wire (send_str_list four) ++ [])) =
  (Ok Continue,
   posted (wire (send_single_value fmt_i (VInt 372))) (wire (send_str_list four))
          (lit "10:00:00") (lit "ann") (lit "hi") []
          (ann_handler (wire (send_single_value fmt_i (VInt 472)) ++
                        wire (send_str_list four) ++ []))).
Proof.
  cbn zeta.
  apply (proj1 (long_message_is_sent_whole ann_writer
           (ann_handler (wire (send_single_value fmt_i (VInt 472)) ++
                         wire (send_str_list
                                 [lit "10:00:00"; lit "ann"; lit "hi"; lit "more"]) ++ []))
           (lit "10:00:00") (lit "ann") (lit "hi") [lit "more"]
           (wire (send_single_value fmt_i (VInt 472)))
           (wire (send_single_value fmt_i (VInt 372)))
           (wire (send_str_list [lit "10:00:00"; lit "ann"; lit "hi"; lit "more"])) []
           eq_refl eq_refl
           (sends_str_list_wire
              [lit "10:00:00"; lit "ann"; lit "hi"; lit "more"] eq_refl) eq_refl)).
Defined.

(** X13.  A message whose strings cannot be read (the stream ends inside
    them, or they are not valid text): the exception is caught, the loop is
    left and the clean-up runs.  Nothing is sent to anyone and the history
    is as before; a connection that had joined loses its record and its
    writer, which is closed. *)
Theorem unreadable_message_disconnects
        (w : StreamWriter) (h : Handler) (hdr rd1 rd2 : bytes) (e : exn) :
  pack_i 472 = Ok hdr ->
  reader h = hdr ++ rd1 ->
  recv_str_list rd1 = (Raise e, rd2) ->
  loop_body w h = (Ok Break, set_reader rd2 h) /\
  forall u,
    user_info h = Some u ->
    In u (USERNAMES_LIST (self (server h))) ->
    In w (WRITERS (self (server h))) ->
    serve w h = (Ok (Some tt), disconnected w u (set_reader rd2 h)).
Proof.
  intros Ep Er E.
  assert (L : loop_body w h = (Ok Break, set_reader rd2 h)).
  { rewrite (loop_body_tag _ _ _ _ _ Ep Er). unfold dispatch.
    cbn [Z.eqb Pos.eqb]. unfold bind at 1. unfold ret at 1.
    unfold handle_post. unfold bind at 1. unfold try_except, bind at 1.
    unfold recv, zoom. cbn [reader set_reader]. rewrite E. reflexivity. }
  split; [exact L|]. intros u Eu Hu Hw.
  rewrite (serve_break _ _ _ L). unfold bind.
  rewrite (cleanup_joined w u) by assumption. reflexivity.
Qed.

Lemma unreadable_message_disconnects_witness :
  serve ann_writer
        (ann_handler (wire (send_single_value fmt_i (VInt 472)) ++
                      [x03; x00; x00; x00; x01; x00; x00; x00; xff])) =
  (Ok (Some tt),
   disconnected ann_writer ann (ann_handler [])).
Proof.
  apply (proj2 (unreadable_message_disconnects ann_writer
           (ann_handler (wire (send_single_value fmt_i (VInt 472)) ++
                         [x03; x00; x00; x00; x01; x00; x00; x00; xff]))
           (wire (send_single_value fmt_i (VInt 472)))
           [x03; x00; x00; x00; x01; x00; x00; x00; xff] []
           UnicodeDecodeError eq_refl eq_refl eq_refl) ann);
    [reflexivity | left; reflexivity | left; reflexivity].
Defined.

(** X14.  A connection that joins twice, under two free names, and whose
    stream then ends.  Both joins are accepted and [user_info] holds the
    second record only, so the clean-up removes that one: the record of the
    first name stays in [USERNAMES_LIST] after the connection is gone. *)
Theorem second_join_leaves_first_record
        (sv : Server) (w : StreamWriter) (a b : str)
        (hdr body_a body_b tag count : bytes) (payloads : list bytes) :
  pack_i 471 = Ok hdr ->
  pack_i 371 = Ok tag ->
  pack_i (Z.of_nat (List.length (RECENT_MESSAGES (self sv)))) = Ok count ->
  sends (send_str a) body_a ->
  sends (send_str b) body_b ->
  a <> b ->
  ~ In a (usernames sv) ->
  ~ In b (usernames sv) ->
  ~ In w (WRITERS (self sv)) ->
  history_frames (RECENT_MESSAGES (self sv)) payloads ->
  server_handle_request (hdr ++ body_a ++ hdr ++ body_b) w sv =
  (Ok (Some tt),
   {| self := set_USERNAMES_LIST
                (USERNAMES_LIST (self sv) ++ [(peername w, a)]) (self sv);
      net := net sv ++ welcome w tag count payloads ++
             welcome w tag count payloads ++ [Closed w] |}).
Proof.
  intros Ep Et Ec Ha Hb Hab Hfa Hfb Hw Hp.
  unfold server_handle_request. unfold bind at 1. rewrite accept_spec.
  erewrite serve_continue.
  2:{ apply (loop_body_join_free w _ a hdr body_a (hdr ++ body_b) tag count payloads);
        try assumption. reflexivity. }
  erewrite serve_continue.
  2:{ apply (loop_body_join_free w _ b hdr body_b [] tag count payloads);
        try assumption.
      - cbn. rewrite app_nil_r. reflexivity.
      - unfold usernames. cbn. rewrite map_app, in_app_iff. cbn.
        intros [H|[H|[]]]; [apply Hfb, H | apply Hab, H]. }
  erewrite serve_break by (apply loop_body_eof; cbn; lia).
  unfold bind.
  rewrite (cleanup_joined w (peername w, b)).
  - unfold disconnected, joined, accepted. cbn.
    rewrite (without_app_fresh _ writer_eqb_eq _ _ Hw).
    rewrite (without_app_fresh _ user_eqb_eq).
    + rewrite <- !app_assoc. reflexivity.
    + rewrite in_app_iff. cbn. intros [H|[H|[]]].
      * apply (user_fresh (peername w) b _ Hfb), H.
      * apply Hab. congruence.
  - reflexivity.
  - cbn. apply in_or_app. right. left. reflexivity.
  - cbn. apply in_or_app. right. left. reflexivity.
Qed.

Lemma second_join_leaves_first_record_witness :
  server_handle_request
    (wire (send_single_value fmt_i (VInt 471)) ++ wire (send_str (lit "cat")) ++
     wire (send_single_value fmt_i (VInt 471)) ++ wire (send_str (lit "dog")))
    cat_writer room =
  (Ok (Some tt),
   {| self := set_USERNAMES_LIST [ann; (lit "10.0.0.3", lit "cat")] (self room);
      net := net room ++
             welcome cat_writer [x73; x01; x00; x00] [x00; x00; x00; x00] [] ++
             welcome cat_writer [x73; x01; x00; x00] [x00; x00; x00; x00] [] ++
             [Closed cat_writer] |}).
Proof.
  apply (second_join_leaves_first_record room cat_writer (lit "cat") (lit "dog")
           (wire (send_single_value fmt_i (VInt 471)))
           (wire (send_str (lit "cat"))) (wire (send_str (lit "dog")))
           [x73; x01; x00; x00] [x00; x00; x00; x00] []).
  - reflexivity.
  - reflexivity.
  - reflexivity.
  - intros out. reflexivity.
  - intros out. reflexivity.
  - discriminate.
  - intros [H|[]]. discriminate.
  - intros [H|[]]. discriminate.
  - intros [H|[H|[]]]; discriminate.
  - constructor.
Defined.

(** *** What a step leaves in place *)

Lemma respects_weaken {S A} (R R' : S -> S -> Prop) (m : M S A) :
  (forall a b, R a b -> R' a b) -> respects R m -> respects R' m.
Proof. intros H Hm s. apply H, Hm. Qed.

Create HintDb keeps.

Section KeepsOthers.

Variable w : StreamWriter.
Variable uo : option user_t.

Lemma keeps_others_tcp_refl a : keeps_others_tcp w uo a a.
Proof. repeat split; auto. Qed.

Lemma keeps_others_tcp_trans a b c :
  keeps_others_tcp w uo a b -> keeps_others_tcp w uo b c ->
  keeps_others_tcp w uo a c.
Proof.
  intros (A1 & A2 & A3) (B1 & B2 & B3). repeat split; auto.
Qed.

Lemma keeps_others_refl a : keeps_others w uo a a.
Proof. apply keeps_others_tcp_refl. Qed.

Lemma keeps_others_trans a b c :
  keeps_others w uo a b -> keeps_others w uo b c -> keeps_others w uo a c.
Proof. apply keeps_others_tcp_trans. Qed.

Lemma same_self_refl a : same_self a a.
Proof. reflexivity. Qed.

Lemma same_self_trans a b c : same_self a b -> same_self b c -> same_self a c.
Proof. unfold same_self. congruence. Qed.

#[local] Hint Resolve keeps_others_tcp_refl keeps_others_tcp_trans
  keeps_others_refl keeps_others_trans same_self_refl same_self_trans : keeps.

Lemma send_same_self (w' : StreamWriter) (m : M bytes unit) :
  respects same_self (send w' m).
Proof. intros sv. unfold send. destruct (m []). reflexivity. Qed.

Lemma close_same_self (w' : StreamWriter) : respects same_self (close w').
Proof. intros sv. reflexivity. Qed.

Lemma send_history_same_self (w' : StreamWriter) (history : list message_t) :
  respects same_self (send_history w' history).
Proof.
  unfold send_history.
  apply respects_bind; eauto with keeps; [apply send_same_self | intros _].
  apply respects_bind; eauto with keeps; [apply send_same_self | intros _].
  destruct (negb _).
  - apply respects_for_each; eauto with keeps. intros x. apply send_same_self.
  - apply respects_ret; eauto with keeps.
Qed.

Lemma send_new_message_same_self (message_info : list str) :
  respects same_self (send_new_message message_info).
Proof.
  unfold send_new_message.
  apply respects_bind; eauto with keeps;
    [apply respects_get; eauto with keeps | intros sv].
  apply respects_for_each; eauto with keeps. intros w'.
  apply respects_bind; eauto with keeps;
    [apply send_same_self | intros _; apply send_same_self].
Qed.

Lemma srv_same_self {A} (m : M Server A) :
  respects same_self m -> respects (keeps_others w uo) (srv m).
Proof.
  intros H s. unfold srv, zoom. specialize (H (server s)).
  destruct (m (server s)) as [r sv']. cbn [snd] in *.
  unfold keeps_others. cbn [server set_server]. unfold same_self in H.
  rewrite H. apply keeps_others_tcp_refl.
Qed.

Lemma srv_on_self_keeps {A} (m : M ServerTCP A) :
  respects (keeps_others_tcp w uo) m ->
  respects (keeps_others w uo) (srv (on_self m)).
Proof.
  intros H s. unfold srv, on_self, zoom. specialize (H (self (server s))).
  destruct (m (self (server s))) as [r t']. exact H.
Qed.

Lemma remove_own_writer_keeps :
  respects (keeps_others_tcp w uo)
           (zoom WRITERS set_WRITERS (list_remove writer_eqb w)).
Proof.
  intros s. unfold zoom, list_remove.
  destruct (remove_first writer_eqb w (WRITERS s)) as [l'|] eqn:E; cbn [snd].
  - apply remove_first_without in E. subst l'.
    repeat split; cbn; auto.
    intros w' Hne Hin. apply (without_keeps _ writer_eqb_eq); assumption.
  - repeat split; cbn; auto.
Qed.

Lemma append_writer_keeps (w' : StreamWriter) :
  respects (keeps_others_tcp w uo)
           (zoom WRITERS set_WRITERS (list_append w')).
Proof.
  intros s. repeat split; cbn; auto.
  intros w0 _ Hin. apply in_or_app. left. exact Hin.
Qed.

Lemma append_user_keeps (u : user_t) :
  respects (keeps_others_tcp w uo)
           (zoom USERNAMES_LIST set_USERNAMES_LIST (list_append u)).
Proof.
  intros s. repeat split; cbn; auto.
  intros u0 _ Hin. apply in_or_app. left. exact Hin.
Qed.

Lemma remove_own_user_keeps :
  respects (keeps_others_tcp w uo)
           (zoom USERNAMES_LIST set_USERNAMES_LIST (USERNAMES_LIST_remove uo)).
Proof.
  intros s. unfold zoom, USERNAMES_LIST_remove.
  destruct uo as [u|]; [|repeat split; cbn; auto].
  unfold list_remove.
  destruct (remove_first user_eqb u (USERNAMES_LIST s)) as [l'|] eqn:E; cbn [snd].
  - apply remove_first_without in E. subst l'.
    repeat split; cbn; auto.
    intros u' Hne Hin. apply (without_keeps _ user_eqb_eq); [congruence | exact Hin].
  - repeat split; cbn; auto.
Qed.

Lemma update_history_keeps (t u x : str) :
  respects (keeps_others_tcp w uo) (update_history t u x).
Proof.
  intros s. rewrite update_history_spec. repeat split; cbn; auto.
  intros H. rewrite length_app. cbn [List.length].
  unfold evicted. destruct (10 <=? Z.of_nat (List.length (RECENT_MESSAGES s))) eqn:E.
  - apply Z.leb_le in E. destruct (RECENT_MESSAGES s); cbn in *; lia.
  - apply Z.leb_gt in E. lia.
Qed.

Lemma get_history_keeps : respects (keeps_others_tcp w uo) get_history.
Proof. intros s. apply keeps_others_tcp_refl. Qed.

Lemma recv_keeps {A} (m : M StreamReader A) : respects (keeps_others w uo) (recv m).
Proof.
  intros s. unfold recv, zoom. destruct (m (reader s)).
  unfold keeps_others. cbn. apply keeps_others_tcp_refl.
Qed.

Lemma set_user_info_keeps (u : option user_t) :
  respects (keeps_others w uo) (modify (set_user_info u)).
Proof. intros s. unfold keeps_others. cbn. apply keeps_others_tcp_refl. Qed.

End KeepsOthers.

#[local] Hint Resolve keeps_others_tcp_refl keeps_others_tcp_trans
  keeps_others_refl keeps_others_trans same_self_refl same_self_trans : keeps.

Ltac keeps_step :=
  first
    [ apply recv_keeps
    | apply set_user_info_keeps
    | apply respects_ret; eauto with keeps
    | apply respects_get; eauto with keeps
    | apply list_index_respects; eauto with keeps
    | apply srv_same_self;
      first [ apply send_same_self
            | apply close_same_self
            | apply send_history_same_self
            | apply send_new_message_same_self ]
    | apply srv_on_self_keeps;
      first [ apply remove_own_writer_keeps
            | apply append_writer_keeps
            | apply append_user_keeps
            | apply remove_own_user_keeps
            | apply get_history_keeps
            | apply update_history_keeps ]
    | apply respects_bind; eauto with keeps; [|intros] ].

Lemma handle_join_keeps (w : StreamWriter) (uo : option user_t) :
  respects (keeps_others w uo) (handle_join w).
Proof.
  unfold handle_join.
  apply respects_bind; eauto with keeps; [keeps_step | intros name].
  apply respects_bind; eauto with keeps; [keeps_step | intros h].
  destruct (existsb _ _); unfold drain; repeat keeps_step.
Qed.

Lemma handle_post_keeps (w : StreamWriter) (uo : option user_t) :
  respects (keeps_others w uo) (handle_post w).
Proof.
  unfold handle_post.
  apply respects_bind; eauto with keeps.
  - apply respects_try_except; eauto with keeps; [|intros e]; repeat keeps_step.
  - intros [mi|]; unfold drain; repeat keeps_step.
Qed.

Lemma loop_body_keeps (w : StreamWriter) (uo : option user_t) :
  respects (keeps_others w uo) (loop_body w).
Proof.
  unfold loop_body.
  apply respects_bind; eauto with keeps.
  - apply respects_try_except; eauto with keeps; [repeat keeps_step|].
    intros []; first [apply respects_ret | apply respects_raise];
      eauto with keeps.
  - intros [tag|]; [|keeps_step]. unfold dispatch.
    apply respects_bind; eauto with keeps.
    + destruct (tag =? 471); [apply handle_join_keeps | keeps_step].
    + intros [| |]; try keeps_step.
      destruct (tag =? 472); [apply handle_post_keeps | keeps_step].
Qed.

Lemma accept_keeps (w : StreamWriter) (uo : option user_t) :
  respects (keeps_others w uo) (accept w).
Proof. unfold accept. repeat keeps_step. Qed.

Lemma cleanup_keeps (w : StreamWriter) (h : Handler) :
  keeps_others w (user_info h) h (snd (cleanup w h)).
Proof.
  unfold cleanup. unfold bind at 1. unfold get at 1.
  assert (R : respects (keeps_others w (user_info h))
                (srv (on_self (zoom USERNAMES_LIST set_USERNAMES_LIST
                                    (USERNAMES_LIST_remove (user_info h)))) ;;
                 srv (on_self (zoom WRITERS set_WRITERS
                                    (list_remove writer_eqb w))) ;;
                 srv (close w))).
  { repeat keeps_step. }
  exact (R h).
Qed.

(** X8.  In every state that the server can reach, whatever the
    connections send and however their handlers end, [RECENT_MESSAGES]
    holds at most ten messages. *)
Theorem history_never_exceeds_ten (sv : Server) :
  reachable sv -> (List.length (RECENT_MESSAGES (self sv)) <= 10)%nat.
Proof.
  induction 1 as [|sv sv' _ IH St].
  - cbn. lia.
  - destruct St as [w h r h' <- E | w h r h' <- E | w h r h' <- E].
    + pose proof (accept_keeps w None h) as K. rewrite E in K.
      apply K, IH.
    + pose proof (loop_body_keeps w None h) as K. rewrite E in K.
      apply K, IH.
    + pose proof (cleanup_keeps w h) as K. rewrite E in K.
      apply K, IH.
Qed.

Lemma history_never_exceeds_ten_witness :
  (List.length
     (RECENT_MESSAGES
        (self (server (snd (loop_body ann_writer
           {| server := {| self := ServerTCP_init; net := [] |};
              reader := wire (send_single_value fmt_i (VInt 472)) ++
                        wire (send_str_list hello);
              user_info := None |}))))) <= 10)%nat.
Proof.
  apply history_never_exceeds_ten.
  eapply reachable_step; [apply reachable_init|].
  eapply (step_loop_body _ ann_writer
            {| server := {| self := ServerTCP_init; net := [] |};
               reader := wire (send_single_value fmt_i (VInt 472)) ++
                         wire (send_str_list hello);
               user_info := None |});
    [reflexivity | apply surjective_pairing].
Defined.

(** X9.  A step of the handler of one connection touches only that
    connection's own entries.  An iteration of the loop, however it ends,
    removes no record from [USERNAMES_LIST] and no writer but its own from
    [WRITERS]; the clean-up, however it ends, removes no record but the one
    in [user_info] and no writer but its own. *)
Theorem steps_keep_the_entries_of_others (w : StreamWriter) (h : Handler) :
  let h1 := snd (loop_body w h) in
  let h2 := snd (cleanup w h) in
  (forall w', w' <> w -> In w' (WRITERS (self (server h))) ->
              In w' (WRITERS (self (server h1))) /\
              In w' (WRITERS (self (server h2)))) /\
  (forall u', In u' (USERNAMES_LIST (self (server h))) ->
              In u' (USERNAMES_LIST (self (server h1)))) /\
  (forall u', Some u' <> user_info h ->
              In u' (USERNAMES_LIST (self (server h))) ->
              In u' (USERNAMES_LIST (self (server h2)))).
Proof.
  cbn zeta.
  destruct (loop_body_keeps w None h) as (L1 & L2 & _).
  destruct (cleanup_keeps w h) as (C1 & C2 & _).
  split; [|split].
  - intros w' Hne Hin. split; [apply L1 | apply C1]; assumption.
  - intros u' Hin. apply L2; [discriminate | exact Hin].
  - intros u' Hne Hin. apply C2; assumption.
Qed.

Lemma steps_keep_the_entries_of_others_witness :
  In ann_writer
     (WRITERS (self (server (snd (cleanup bob_writer
        {| server := room; reader := []; user_info := None |}))))) /\
  In ann
     (USERNAMES_LIST (self (server (snd (cleanup bob_writer
        {| server := room; reader := []; user_info := None |}))))).
Proof.
  split.
  - apply (proj1 (steps_keep_the_entries_of_others bob_writer
                    {| server := room; reader := []; user_info := None |})
                 ann_writer); [discriminate | left; reflexivity].
  - apply (proj2 (proj2 (steps_keep_the_entries_of_others bob_writer
                    {| server := room; reader := []; user_info := None |}))
                 ann); [discriminate | left; reflexivity].
Defined.

Lemma handle_post_read (w : StreamWriter) (h : Handler)
      (message_info : list str) (rd' : StreamReader) (tag payload : bytes) :
  recv_str_list (reader h) = (Ok message_info, rd') ->
  pack_i 372 = Ok tag ->
  sends (send_str_list message_info) payload ->
  handle_post w h =
  (time <- list_index message_info 0 ;;
   username <- list_index message_info 1 ;;
   message <- list_index message_info 2 ;;
   srv (on_self (update_history time username message)) ;;
   ret Continue)
    {| server := {| self := self (server h);
                    net := net (server h) ++
                           fan_out tag payload (WRITERS (self (server h))) |};
       reader := rd'; user_info := user_info h |}.
Proof.
  intros Er Et Hs. unfold handle_post. unfold bind at 1.
  unfold try_except, bind at 1. unfold recv, zoom.
  rewrite Er. unfold ret at 1.
  unfold bind at 1. unfold srv at 1, zoom.
  cbn [server set_reader].
  rewrite (send_new_message_spec _ _ _ _ Et Hs).
  unfold drain. unfold bind at 1. unfold ret at 1. reflexivity.
Qed.

Lemma handle_post_unread (w : StreamWriter) (h : Handler) (rd' : StreamReader)
      (e : exn) :
  recv_str_list (reader h) = (Raise e, rd') ->
  handle_post w h = (Ok Break, set_reader rd' h).
Proof.
  intros E. unfold handle_post. unfold bind at 1. unfold try_except, bind at 1.
  unfold recv, zoom. rewrite E. reflexivity.
Qed.

(** X23.  Handling a message never fails in the fan-out.  On a reader of
    less than 2^31 bytes, whatever they are, the branch of the tag 472 ends
    in one of three ways: the strings could not be read and the loop is
    left; fewer than three strings were read and [IndexError] is raised
    after they were sent on; or the message was sent on and recorded.  What
    the server has decoded it can always encode again. *)
Theorem post_fails_only_with_index_error (w : StreamWriter) (h : Handler) :
  Z.of_nat (List.length (reader h)) <= 2147483647 ->
  (fst (handle_post w h) = Ok Break /\
   server (snd (handle_post w h)) = server h) \/
  (fst (handle_post w h) = Raise IndexError /\
   self (server (snd (handle_post w h))) = self (server h)) \/
  (fst (handle_post w h) = Ok Continue /\
   exists t u m extra,
     fst (recv_str_list (reader h)) = Ok (t :: u :: m :: extra) /\
     RECENT_MESSAGES (self (server (snd (handle_post w h)))) =
     evicted (RECENT_MESSAGES (self (server h))) ++ [(t, u, m)]).
Proof.
  intros Hb.
  destruct (recv_str_list (reader h)) as [[mi|e] rd'] eqn:Er.
  - destruct (recv_str_list_resendable _ _ _ Er Hb) as (payload & Hs).
    destruct (pack_i_total 372 ltac:(lia)) as (tag & Et).
    rewrite (handle_post_read w h mi rd' tag payload Er Et Hs).
    destruct mi as [|t [|u [|m extra]]].
    + right. left. split; reflexivity.
    + right. left. split; reflexivity.
    + right. left. split; reflexivity.
    + right. right. unfold list_index. cbn [nth_error].
      unfold bind, ret, srv, on_self, zoom.
      cbn [server set_server self set_self].
      rewrite update_history_spec. cbn [fst snd].
      split; [reflexivity|]. exists t, u, m, extra. split; reflexivity.
  - left. rewrite (handle_post_unread w h rd' e Er). split; reflexivity.
Qed.

Lemma post_fails_only_with_index_error_witness :
  fst (handle_post ann_writer
         (ann_handler [x03; x00; x00; x00; xff; xff; xff; xff; x68; x69])) =
  Ok Break.
Proof.
  destruct (post_fails_only_with_index_error ann_writer
              (ann_handler [x03; x00; x00; x00; xff; xff; xff; xff; x68; x69]))
    as [[H _]|[[H _]|[H _]]].
  - cbn. lia.
  - exact H.
  - exfalso. vm_compute in H. discriminate.
  - exfalso. vm_compute in H. discriminate.
Defined.

(** ** More on the TCP client *)

Lemma start_chatting_prefix (c : Client) (username : str) (more : list str)
      (tag ubytes : bytes) {A} (k : str -> M Client A) :
  stdin c = username :: more ->
  pack_i 471 = Ok tag ->
  sends (send_str username) ubytes ->
  (c_send (send_single_value fmt_i (VInt 471)) ;;
   name <- input prompt ;;
   c_send (send_str name) ;;
   k name) c =
  k username {| c_reader := c_reader c; c_writer := c_writer c ++ tag ++ ubytes;
       c_closed := c_closed c; stdin := more; stdout := stdout c ++ [prompt];
       tasks := tasks c |}.
Proof.
  intros Ei Et Hu.
  erewrite bind_ok by (apply c_send_run, send_tag_sends, Et).
  erewrite bind_ok by (apply input_run; exact Ei).
  erewrite bind_ok by (apply c_send_run, Hu).
  unfold set_c_writer. cbn. rewrite <- app_assoc. reflexivity.
Qed.

Lemma c_recv_raise {A} (m : M StreamReader A) (c : Client) (rd' : StreamReader)
      (e : exn) :
  m (c_reader c) = (Raise e, rd') -> c_recv m c = (Raise e, set_c_reader rd' c).
Proof. intros E. unfold c_recv, zoom. rewrite E. reflexivity. Qed.

(** X15.  A client that is refused.  When the answer of the server is the
    byte 0, or when the stream ends before any answer, [start_chatting]
    closes the writer and returns nothing (in the second case after printing
    a notice), and [connect_to_server] ends there: no task is created, no
    further input is read and nothing more is written. *)
Theorem refused_client_stops
        (c : Client) (username : str) (more : list str) (tag ubytes : bytes) :
  stdin c = username :: more ->
  pack_i 471 = Ok tag ->
  sends (send_str username) ubytes ->
  let stopped rd notice :=
    {| c_reader := rd; c_writer := c_writer c ++ tag ++ ubytes;
       c_closed := true; stdin := more;
       stdout := stdout c ++ prompt :: notice; tasks := tasks c |} in
  (forall rest,
      c_reader c = pack_q false ++ rest ->
      start_chatting c = (Ok None, stopped rest []) /\
      connect_to_server c = (Ok tt, stopped rest [])) /\
  (c_reader c = [] ->
   start_chatting c =
     (Ok None, stopped [] [lit "Exception during Entering username"]) /\
   connect_to_server c =
     (Ok tt, stopped [] [lit "Exception during Entering username"])).
Proof.
  intros Ei Et Hu. cbn zeta. split.
  - intros rest Er.
    assert (St : start_chatting c =
                 (Ok None,
                  {| c_reader := rest; c_writer := c_writer c ++ tag ++ ubytes;
                     c_closed := true; stdin := more;
                     stdout := stdout c ++ [prompt]; tasks := tasks c |})).
    { unfold start_chatting.
      rewrite (start_chatting_prefix c username more tag ubytes _ Ei Et Hu).
      unfold try_except, c_recv, c_close, zoom. monad_unfold.
      cbn [c_reader]. rewrite Er. reflexivity. }
    split; [exact St|].
    unfold connect_to_server. erewrite bind_ok by exact St. reflexivity.
  - intros Er.
    assert (St : start_chatting c =
                 (Ok None,
                  {| c_reader := []; c_writer := c_writer c ++ tag ++ ubytes;
                     c_closed := true; stdin := more;
                     stdout := stdout c ++
                               [prompt; lit "Exception during Entering username"];
                     tasks := tasks c |})).
    { unfold start_chatting.
      rewrite (start_chatting_prefix c username more tag ubytes _ Ei Et Hu).
      erewrite bind_ok.
      2:{ unfold try_except. unfold bind at 1.
          erewrite c_recv_raise by (cbn [c_reader]; rewrite Er; reflexivity).
          reflexivity. }
      cbv iota. unfold ret, set_c_reader. cbn. rewrite <- app_assoc. reflexivity. }
    split; [exact St|].
    unfold connect_to_server. erewrite bind_ok by exact St. reflexivity.
Qed.

Lemma refused_client_stops_witness :
  let c rd := {| c_reader := rd; c_writer := []; c_closed := false;
                 stdin := [lit "ann"; lit "hello?"]; stdout := []; tasks := [] |} in
  let request := wire (send_single_value fmt_i (VInt 471)) ++ wire (send_str (lit "ann")) in
  connect_to_server (c (pack_q false ++ [x2a])) =
  (Ok tt, {| c_reader := [x2a]; c_writer := request; c_closed := true;
             stdin := [lit "hello?"]; stdout := [prompt]; tasks := [] |}) /\
  connect_to_server (c []) =
  (Ok tt, {| c_reader := []; c_writer := request; c_closed := true;
             stdin := [lit "hello?"];
             stdout := [prompt; lit "Exception during Entering username"];
             tasks := [] |}).
Proof.
  cbn zeta. split.
  - apply (proj1 (refused_client_stops
             {| c_reader := pack_q false ++ [x2a]; c_writer := []; c_closed := false;
                stdin := [lit "ann"; lit "hello?"]; stdout := []; tasks := [] |}
             (lit "ann") [lit "hello?"]
             (wire (send_single_value fmt_i (VInt 471))) (wire (send_str (lit "ann")))
             eq_refl eq_refl (fun out => eq_refl)) [x2a] eq_refl).
  - apply (proj2 (refused_client_stops
             {| c_reader := []; c_writer := []; c_closed := false;
                stdin := [lit "ann"; lit "hello?"]; stdout := []; tasks := [] |}
             (lit "ann") [lit "hello?"]
             (wire (send_single_value fmt_i (VInt 471))) (wire (send_str (lit "ann")))
             eq_refl eq_refl (fun out => eq_refl)) eq_refl).
Defined.

(** X16.  An accepted client whose next tag is not 371.  The history is
    not read: [start_chatting] prints nothing but the prompt, leaves the
    bytes after the tag on the stream and returns the name, and with a name
    that is not empty the chat starts.  When the stream ends where that tag
    is expected, [struct.error] leaves [start_chatting] and
    [connect_to_server]; the writer is not closed. *)
Theorem accepted_without_history
        (c : Client) (username : str) (more : list str) (tag ubytes : bytes) :
  stdin c = username :: more ->
  pack_i 471 = Ok tag ->
  sends (send_str username) ubytes ->
  let c' rd := {| c_reader := rd; c_writer := c_writer c ++ tag ++ ubytes;
                  c_closed := c_closed c; stdin := more;
                  stdout := stdout c ++ [prompt]; tasks := tasks c |} in
  (forall v hdr rest,
      v <> 371 -> pack_i v = Ok hdr ->
      c_reader c = pack_q true ++ hdr ++ rest ->
      start_chatting c = (Ok (Some username), c' rest) /\
      (username <> [] ->
       connect_to_server c =
       (Ok tt, with_tasks [task_send_message username; task_recv_new_message]
                          (c' rest)))) /\
  (forall short,
      (List.length short < 4)%nat ->
      c_reader c = pack_q true ++ short ->
      start_chatting c = (Raise struct_error, c' []) /\
      connect_to_server c = (Raise struct_error, c' [])).
Proof.
  intros Ei Et Hu. cbn zeta. split.
  - intros v hdr rest Hv Ep Er.
    assert (St : start_chatting c =
                 (Ok (Some username),
                  {| c_reader := rest; c_writer := c_writer c ++ tag ++ ubytes;
                     c_closed := c_closed c; stdin := more;
                     stdout := stdout c ++ [prompt]; tasks := tasks c |})).
    { unfold start_chatting.
      rewrite (start_chatting_prefix c username more tag ubytes _ Ei Et Hu).
      erewrite bind_ok.
      2:{ unfold try_except. erewrite bind_ok.
          2:{ apply c_recv_run. cbn [c_reader]. rewrite Er. apply recv_bool_true. }
          cbn [negb]. reflexivity. }
      cbv iota.
      erewrite bind_ok.
      2:{ apply c_recv_run. cbn [c_reader set_c_reader].
          apply recv_int_pack, Ep. }
      replace (v =? 371) with false by (symmetry; apply Z.eqb_neq; exact Hv).
      reflexivity. }
    split; [exact St|]. intros Hne.
    unfold connect_to_server. erewrite bind_ok by exact St.
    destruct username as [|ch username]; [contradiction|].
    cbn [falsy]. unfold create_task, with_tasks. monad_unfold.
    cbn. rewrite <- app_assoc. reflexivity.
  - intros short Hs Er.
    assert (St : start_chatting c =
                 (Raise struct_error,
                  {| c_reader := []; c_writer := c_writer c ++ tag ++ ubytes;
                     c_closed := c_closed c; stdin := more;
                     stdout := stdout c ++ [prompt]; tasks := tasks c |})).
    { unfold start_chatting.
      rewrite (start_chatting_prefix c username more tag ubytes _ Ei Et Hu).
      erewrite bind_ok.
      2:{ unfold try_except. erewrite bind_ok.
          2:{ apply c_recv_run. cbn [c_reader]. rewrite Er. apply recv_bool_true. }
          cbn [negb]. reflexivity. }
      cbv iota. unfold bind at 1. unfold c_recv, zoom.
      cbn [c_reader set_c_reader]. rewrite (short_tag_read _ Hs). reflexivity. }
    split; [exact St|].
    unfold connect_to_server. unfold bind. rewrite St. reflexivity.
Qed.

Lemma accepted_without_history_witness :
  let c rd := {| c_reader := rd; c_writer := []; c_closed := false;
                 stdin := [lit "ann"]; stdout := []; tasks := [] |} in
  let request := wire (send_single_value fmt_i (VInt 471)) ++ wire (send_str (lit "ann")) in
  start_chatting
    (c (pack_q true ++ wire (send_single_value fmt_i (VInt 372)) ++ [x2a])) =
  (Ok (Some (lit "ann")),
   {| c_reader := [x2a]; c_writer := request; c_closed := false;
      stdin := []; stdout := [prompt]; tasks := [] |}) /\
  connect_to_server (c (pack_q true ++ [x73; x01])) =
  (Raise struct_error,
   {| c_reader := []; c_writer := request; c_closed := false;
      stdin := []; stdout := [prompt]; tasks := [] |}).
Proof.
  cbn zeta. split.
  - apply (proj1 (accepted_without_history
             {| c_reader := pack_q true ++
                            wire (send_single_value fmt_i (VInt 372)) ++ [x2a];
                c_writer := []; c_closed := false;
                stdin := [lit "ann"]; stdout := []; tasks := [] |}
             (lit "ann") []
             (wire (send_single_value fmt_i (VInt 471))) (wire (send_str (lit "ann")))
             eq_refl eq_refl (fun out => eq_refl))
           372 (wire (send_single_value fmt_i (VInt 372))) [x2a]);
      [lia | reflexivity | reflexivity].
  - apply (proj2 (accepted_without_history
             {| c_reader := pack_q true ++ [x73; x01];
                c_writer := []; c_closed := false;
                stdin := [lit "ann"]; stdout := []; tasks := [] |}
             (lit "ann") []
             (wire (send_single_value fmt_i (VInt 471))) (wire (send_str (lit "ann")))
             eq_refl eq_refl (fun out => eq_refl))
           [x73; x01]); [cbn; lia | reflexivity].
Defined.

(** *** The two loops *)

Lemma read_line_run (line : str) (rest : list str) (c : Client) :
  stdin c = line :: rest ->
  read_line c =
  (Ok line, {| c_reader := c_reader c; c_writer := c_writer c;
               c_closed := c_closed c; stdin := rest;
               stdout := stdout c; tasks := tasks c |}).
Proof. intros E. unfold read_line. monad_unfold. rewrite E. reflexivity. Qed.

Lemma send_message_run (username : str) (hdr : bytes)
      (said : list (str * str)) (frames : list bytes) :
  pack_i 472 = Ok hdr ->
  typed_frames username said frames ->
  forall (c : Client) (t_last : str) (later more : list str),
    stdin c = map snd said ++ [] :: more ->
    send_message (map fst said ++ t_last :: later) username c =
    (Ok (Some tt),
     typed_client c (List.concat (map (fun p => hdr ++ p) frames)) more [goodbye]).
Proof.
  intros Ep. induction 1 as [|[t l] p said frames [Hl Hs] _ IH];
    intros c t_last later more Ei.
  - cbn [map app send_message] in *.
    erewrite bind_ok by (apply read_line_run; exact Ei).
    unfold typed_client, print. monad_unfold. cbn. rewrite app_nil_r. reflexivity.
  - cbn [map app send_message fst snd] in *.
    erewrite bind_ok by (apply read_line_run; exact Ei).
    destruct l as [|ch l]; [contradiction|].
    erewrite bind_ok by (apply c_send_run, send_tag_sends, Ep).
    erewrite bind_ok by (apply c_send_run, Hs).
    rewrite (IH _ t_last later more) by reflexivity.
    unfold typed_client. cbn. rewrite <- !app_assoc. reflexivity.
Qed.

Lemma print_line_eq (a b c : str) : print_line a b c = format_line a b c.
Proof.
  unfold print_line, format_line. rewrite <- !app_assoc. reflexivity.
Qed.

Lemma recv_new_message_body_frame (m : message_t) (tag payload rest : bytes)
      (c : Client) :
  pack_i 372 = Ok tag ->
  sends (send_str_list (list_of_message m)) payload ->
  c_reader c = (tag ++ payload) ++ rest ->
  recv_new_message_body c = (Ok Continue, heard_client c rest [history_line m]).
Proof.
  intros Et Hs Er. unfold recv_new_message_body.
  erewrite bind_ok.
  2:{ unfold try_except. erewrite bind_ok.
      2:{ apply c_recv_run. rewrite Er, <- app_assoc. apply recv_int_pack, Et. }
      reflexivity. }
  cbn [Z.eqb Pos.eqb].
  erewrite bind_ok
    by (apply c_recv_run; cbn [c_reader set_c_reader];
        apply recv_send_str_list, Hs).
  destruct m as [[t u] x]. cbn [list_of_message list_index nth_error].
  unfold print, heard_client, history_line. monad_unfold. cbn.
  rewrite print_line_eq. reflexivity.
Qed.

Lemma recv_new_message_body_end (c : Client) :
  (List.length (c_reader c) < 4)%nat ->
  recv_new_message_body c = (Ok Break, set_c_reader [] c).
Proof.
  intros H. unfold recv_new_message_body, try_except. unfold bind at 1 2.
  erewrite c_recv_raise by (apply short_tag_read, H). reflexivity.
Qed.

Lemma recv_frames_run (tag : bytes) (msgs : list message_t) (payloads : list bytes) :
  pack_i 372 = Ok tag ->
  history_frames msgs payloads ->
  forall (fuel : nat) (c : Client) (tail : bytes),
    (List.length payloads < fuel)%nat ->
    (List.length tail < 4)%nat ->
    c_reader c = List.concat (map (fun p => tag ++ p) payloads) ++ tail ->
    while_true fuel recv_new_message_body c =
    (Ok (Some Break), heard_client c [] (map history_line msgs)).
Proof.
  intros Et. induction 1 as [|m p msgs payloads Hm _ IH];
    intros fuel c tail Hf Ht Er.
  - destruct fuel as [|fuel]; [cbn in Hf; lia|]. cbn [while_true].
    erewrite bind_ok
      by (apply recv_new_message_body_end; rewrite Er; exact Ht).
    unfold ret, heard_client, set_c_reader. cbn. rewrite app_nil_r. reflexivity.
  - destruct fuel as [|fuel]; [cbn in Hf; lia|]. cbn [while_true].
    cbn [map List.concat] in Er. rewrite <- app_assoc in Er.
    erewrite bind_ok
      by (eapply (recv_new_message_body_frame m tag p); eassumption).
    rewrite (IH fuel _ tail) by (cbn in *; solve [lia | reflexivity]).
    unfold heard_client. cbn. rewrite <- app_assoc. reflexivity.
Qed.

Lemma frames_length (tag : bytes) (payloads : list bytes) (tail : bytes) :
  List.length tag = 4%nat ->
  (List.length payloads <=
   List.length (List.concat (map (fun p => tag ++ p) payloads) ++ tail))%nat.
Proof.
  intros Ht. induction payloads as [|p ps IH]; cbn [map List.concat List.length].
  - lia.
  - rewrite <- app_assoc, !length_app, Ht. rewrite length_app in IH. lia.
Qed.

(** X17.  The sending loop.  For every line typed before the first empty
    one it writes the tag 472 and the three strings: the time read in that
    iteration, the name and the line, in the order typed.  At the empty
    line it prints the farewell and returns: the lines after it are not
    read, and nothing else is written or printed. *)
Theorem send_message_sends_until_empty_line
        (c : Client) (username : str) (hdr : bytes)
        (said : list (str * str)) (frames : list bytes)
        (t_last : str) (later more : list str) :
  pack_i 472 = Ok hdr ->
  typed_frames username said frames ->
  stdin c = map snd said ++ [] :: more ->
  send_message (map fst said ++ t_last :: later) username c =
  (Ok (Some tt),
   typed_client c (List.concat (map (fun p => hdr ++ p) frames)) more [goodbye]).
Proof.
  intros Ep Hf Ei. apply (send_message_run username hdr said frames Ep Hf). exact Ei.
Qed.

Lemma send_message_sends_until_empty_line_witness :
  send_message [lit "10:00:00"; lit "10:00:05"; lit "10:00:09"] (lit "ann")
    {| c_reader := []; c_writer := []; c_closed := false;
       stdin := [lit "hi"; []; lit "unread"]; stdout := []; tasks := [] |} =
  (Ok (Some tt),
   {| c_reader := [];
      c_writer := wire (send_single_value fmt_i (VInt 472)) ++
                  wire (send_str_list hello);
      c_closed := false; stdin := [lit "unread"]; stdout := [goodbye];
      tasks := [] |}).
Proof.
  pose proof (send_message_sends_until_empty_line
    {| c_reader := []; c_writer := []; c_closed := false;
       stdin := [lit "hi"; []; lit "unread"]; stdout := []; tasks := [] |}
    (lit "ann") (wire (send_single_value fmt_i (VInt 472)))
    [(lit "10:00:00", lit "hi")] [wire (send_str_list hello)]
    (lit "10:00:05") [lit "10:00:09"] [lit "unread"] eq_refl) as H.
  apply H.
  - constructor; [|constructor]. split; [discriminate|].
    apply (sends_str_list_wire hello). reflexivity.
  - reflexivity.
Defined.

(** X18.  The receiving loop.  On a stream that holds broadcasts (the tag
    372 and three strings each) and then ends, it prints one line
    [time username: text] for each, in their order, and leaves the loop
    without an exception; a tag other than 372 is skipped and the loop
    goes on with the bytes after it. *)
Theorem recv_new_message_prints_broadcasts
        (c : Client) (tag : bytes) (msgs : list message_t) (payloads : list bytes) :
  pack_i 372 = Ok tag ->
  (forall tail,
      history_frames msgs payloads ->
      (List.length tail < 4)%nat ->
      c_reader c = List.concat (map (fun p => tag ++ p) payloads) ++ tail ->
      recv_new_message c =
      (Ok (Some Break), heard_client c [] (map history_line msgs))) /\
  (forall v hdr rest,
      v <> 372 -> pack_i v = Ok hdr -> c_reader c = hdr ++ rest ->
      recv_new_message_body c = (Ok Continue, set_c_reader rest c)).
Proof.
  intros Et. split.
  - intros tail Hp Ht Er. unfold recv_new_message. unfold bind, get.
    apply (recv_frames_run tag msgs payloads Et Hp _ c tail); [|exact Ht|exact Er].
    rewrite Er. pose proof (frames_length tag payloads tail (pack_i_length _ _ Et)).
    lia.
  - intros v hdr rest Hv Ep Er. unfold recv_new_message_body.
    erewrite bind_ok.
    2:{ unfold try_except. erewrite bind_ok.
        2:{ apply c_recv_run. rewrite Er. apply recv_int_pack, Ep. }
        reflexivity. }
    cbv iota beta.
    replace (v =? 372) with false by (symmetry; apply Z.eqb_neq; exact Hv).
    reflexivity.
Qed.

Lemma recv_new_message_prints_broadcasts_witness :
  let c rd := {| c_reader := rd; c_writer := []; c_closed := false;
                 stdin := []; stdout := []; tasks := [] |} in
  let frame := wire (send_single_value fmt_i (VInt 372)) ++ wire (send_str_list hello) in
  recv_new_message (c (List.concat [frame] ++ [x01])) =
  (Ok (Some Break),
   {| c_reader := []; c_writer := []; c_closed := false;
      stdin := []; stdout := [lit "10:00:00 ann: hi"]; tasks := [] |}) /\
  recv_new_message_body (c (wire (send_single_value fmt_i (VInt 370)) ++ frame)) =
  (Ok Continue, c frame).
Proof.
  cbn zeta. split.
  - apply (proj1 (recv_new_message_prints_broadcasts
             {| c_reader := List.concat [wire (send_single_value fmt_i (VInt 372)) ++
                                         wire (send_str_list hello)] ++ [x01];
                c_writer := []; c_closed := false;
                stdin := []; stdout := []; tasks := [] |}
             (wire (send_single_value fmt_i (VInt 372)))
             [(lit "10:00:00", lit "ann", lit "hi")]
             [wire (send_str_list hello)] eq_refl) [x01]).
    + constructor; [|constructor]. apply (sends_str_list_wire hello). reflexivity.
    + cbn. lia.
    + reflexivity.
  - apply (proj2 (recv_new_message_prints_broadcasts
             {| c_reader := wire (send_single_value fmt_i (VInt 370)) ++
                            wire (send_single_value fmt_i (VInt 372)) ++
                            wire (send_str_list hello);
                c_writer := []; c_closed := false;
                stdin := []; stdout := []; tasks := [] |}
             (wire (send_single_value fmt_i (VInt 372))) [] [] eq_refl)
           370 (wire (send_single_value fmt_i (VInt 370)))
           (wire (send_single_value fmt_i (VInt 372)) ++ wire (send_str_list hello)));
      [lia | reflexivity | reflexivity].
Defined.

(** ** A chat session, end to end *)

Lemma typed_frames_history (username : str) (said : list (str * str))
      (frames : list bytes) :
  typed_frames username said frames ->
  history_frames (map (message_of username) said) frames.
Proof.
  induction 1 as [|s p said frames [_ Hs] _ IH]; cbn [map]; constructor.
  - exact Hs.
  - exact IH.
Qed.

Lemma loop_body_post (w : StreamWriter) (h : Handler) (t u m : str)
      (hdr tag payload rest : bytes) :
  pack_i 472 = Ok hdr ->
  pack_i 372 = Ok tag ->
  sends (send_str_list [t; u; m]) payload ->
  reader h = hdr ++ payload ++ rest ->
  loop_body w h = (Ok Continue, posted tag payload t u m rest h).
Proof.
  intros Ep Et Hs Er. rewrite (loop_body_tag _ _ _ _ _ Ep Er). unfold dispatch.
  cbn [Z.eqb Pos.eqb]. unfold bind at 1. unfold ret at 1.
  rewrite (handle_post_spec w _ t u m tag payload rest Et Hs) by reflexivity.
  reflexivity.
Qed.

Lemma serve_posts (w : StreamWriter) (username : str) (hdr tag : bytes)
      (said : list (str * str)) (frames : list bytes) (rest : bytes) :
  pack_i 472 = Ok hdr ->
  pack_i 372 = Ok tag ->
  typed_frames username said frames ->
  forall h,
    reader h = List.concat (map (fun p => hdr ++ p) frames) ++ rest ->
    serve w h =
    serve w (posted_all tag frames (map (message_of username) said) rest h).
Proof.
  intros Ep Et. induction 1 as [|[t l] p said frames [_ Hs] _ IH]; intros h Er.
  - f_equal. unfold posted_all, record_all. cbn [map List.concat app] in Er.
    cbn [flat_map fold_left]. rewrite app_nil_r.
    destruct h as [[[ws us rs] n] rd ui]. cbn [reader] in Er. subst rd.
    reflexivity.
  - cbn [map List.concat] in Er. rewrite <- !app_assoc in Er.
    rewrite (serve_continue _ _ _
               (loop_body_post w h t username l hdr tag p _ Ep Et Hs Er)).
    rewrite IH by reflexivity.
    f_equal. unfold posted_all, posted, record_all. cbn.
    rewrite <- !app_assoc. reflexivity.
Qed.

Lemma written_fan_outs (tag : bytes) (w : StreamWriter) (ws : list StreamWriter)
      (frames : list bytes) :
  NoDup ws -> In w ws ->
  written w (flat_map (fun p => fan_out tag p ws) frames) =
  List.concat (map (fun p => tag ++ p) frames).
Proof.
  intros Hn Hin. induction frames as [|p frames IH]; [reflexivity|].
  cbn [flat_map map List.concat]. rewrite written_app, IH.
  rewrite (written_fan_out _ _ _ _ Hn Hin). reflexivity.
Qed.

(** X19.  A chat session.  A client types lines and then an empty line;
    the handler of its connection, which has joined, reads what
    [send_message] wrote, up to the end of the stream.  Every line is
    written to each writer of [WRITERS] and then recorded, in the order
    typed, with the time of the sender; after the last one the connection
    is cleaned up and its writer closed.  And the receiving loop of every
    client whose writer is registered, reading what the server wrote to it,
    prints the lines [time username: text] in that order. *)
Theorem chat_session
        (c : Client) (username : str) (hdr tag : bytes)
        (said : list (str * str)) (frames : list bytes)
        (t_last : str) (later more : list str)
        (w : StreamWriter) (h : Handler) (u : user_t) :
  pack_i 472 = Ok hdr ->
  pack_i 372 = Ok tag ->
  typed_frames username said frames ->
  stdin c = map snd said ++ [] :: more ->
  user_info h = Some u ->
  In u (USERNAMES_LIST (self (server h))) ->
  In w (WRITERS (self (server h))) ->
  let msgs := map (message_of username) said in
  let sent := List.concat (map (fun p => hdr ++ p) frames) in
  let heard := List.concat (map (fun p => tag ++ p) frames) in
  send_message (map fst said ++ t_last :: later) username c =
    (Ok (Some tt), typed_client c sent more [goodbye]) /\
  (reader h = sent ->
   let h' := disconnected w u (posted_all tag frames msgs [] h) in
   serve w h = (Ok (Some tt), h') /\
   RECENT_MESSAGES (self (server h')) =
     record_all (RECENT_MESSAGES (self (server h))) msgs /\
   forall w' (c' : Client),
     NoDup (WRITERS (self (server h))) ->
     In w' (WRITERS (self (server h))) ->
     written w' (net (server h')) = written w' (net (server h)) ++ heard /\
     (c_reader c' = heard ->
      recv_new_message c' =
      (Ok (Some Break), heard_client c' [] (map history_line msgs)))).
Proof.
  intros Ep Et Hf Ei Eu Hu Hw. cbn zeta.
  split; [apply (send_message_run username hdr said frames Ep Hf); exact Ei|].
  intros Er. split; [|split].
  - rewrite (serve_posts w username hdr tag said frames [] Ep Et Hf h)
      by (rewrite app_nil_r; exact Er).
    erewrite serve_break by (apply loop_body_eof; cbn; lia).
    unfold bind. rewrite (cleanup_joined w u) by assumption.
    reflexivity.
  - reflexivity.
  - intros w' c' Hn Hin. split.
    + cbn [disconnected posted_all server net].
      rewrite !written_app, (written_fan_outs _ _ _ _ Hn Hin). cbn [written].
      rewrite app_nil_r. reflexivity.
    + intros Ec. unfold recv_new_message. unfold bind, get.
      apply (recv_frames_run tag _ frames Et (typed_frames_history _ _ _ Hf)
                             _ c' []);
        [|cbn; lia|rewrite app_nil_r; exact Ec].
      rewrite Ec.
      pose proof (frames_length tag frames [] (pack_i_length _ _ Et)) as L.
      rewrite app_nil_r in L. lia.
Qed.

Lemma chat_session_witness :
  let sent := wire (send_single_value fmt_i (VInt 472)) ++ wire (send_str_list hello) in
  let heard := wire (send_single_value fmt_i (VInt 372)) ++ wire (send_str_list hello) in
  serve ann_writer (ann_handler (List.concat [sent])) =
  (Ok (Some tt),
   {| server :=
        {| self := {| WRITERS := [bob_writer]; USERNAMES_LIST := [];
                      RECENT_MESSAGES := [(lit "10:00:00", lit "ann", lit "hi")] |};
           net := [Wrote ann_writer (wire (send_single_value fmt_i (VInt 372)));
                   Wrote ann_writer (wire (send_str_list hello));
                   Wrote bob_writer (wire (send_single_value fmt_i (VInt 372)));
                   Wrote bob_writer (wire (send_str_list hello));
                   Closed ann_writer] |};
      reader := []; user_info := Some ann |}) /\
  recv_new_message
    {| c_reader := List.concat [heard]; c_writer := []; c_closed := false;
       stdin := []; stdout := []; tasks := [] |} =
  (Ok (Some Break),
   {| c_reader := []; c_writer := []; c_closed := false;
      stdin := []; stdout := [lit "10:00:00 ann: hi"]; tasks := [] |}).
Proof.
  cbn zeta.
  assert (Hf : typed_frames (lit "ann") [(lit "10:00:00", lit "hi")]
                            [wire (send_str_list hello)]).
  { constructor; [|constructor]. split; [discriminate|].
    apply (sends_str_list_wire hello). reflexivity. }
  destruct (chat_session
              {| c_reader := []; c_writer := []; c_closed := false;
                 stdin := [lit "hi"; []]; stdout := []; tasks := [] |}
              (lit "ann") (wire (send_single_value fmt_i (VInt 472)))
              (wire (send_single_value fmt_i (VInt 372)))
              [(lit "10:00:00", lit "hi")] [wire (send_str_list hello)]
              (lit "10:00:05") [] []
              ann_writer
              (ann_handler (List.concat [wire (send_single_value fmt_i (VInt 472)) ++
                                         wire (send_str_list hello)]))
              ann eq_refl eq_refl Hf eq_refl eq_refl
              (or_introl eq_refl) (or_introl eq_refl))
    as (_ & S).
  specialize (S eq_refl). cbv zeta in S. destruct S as (S1 & _ & S3).
  assert (HN : NoDup [ann_writer; bob_writer]).
  { constructor; [intros [H|[]]; discriminate|].
    constructor; [intros []|constructor]. }
  split; [exact S1|].
  apply (proj2 (S3 bob_writer
           {| c_reader := List.concat [wire (send_single_value fmt_i (VInt 372)) ++
                                       wire (send_str_list hello)];
              c_writer := []; c_closed := false;
              stdin := []; stdout := []; tasks := [] |}
           HN (or_intror (or_introl eq_refl))) eq_refl).
Defined.

(** ** More on the UDP peer *)

Lemma get_messages_loop_step (ch : Z) (l : str) (rest : list str)
      (self : UDP.ChatProtocol) :
  UDPInput.get_messages_loop ((ch :: l) :: rest) self =
  UDPInput.get_messages_loop rest
    (UDP.replied self (UDP.pack_message 472 (UDP.USERNAME self) (UDP.PStr (ch :: l)))
                 UDPInput.BROADCAST).
Proof. reflexivity. Qed.

Lemma get_messages_loop_run (more : list str) (said : list str) :
  Forall (fun l => l <> []) said ->
  forall self : UDP.ChatProtocol,
    let chat l := (UDP.pack_message 472 (UDP.USERNAME self) (UDP.PStr l),
                   UDPInput.BROADCAST) in
    UDPInput.get_messages_loop (said ++ [] :: more) self =
      (Ok tt, UDPInput.spoken self (map chat said) true) /\
    UDPInput.get_messages_loop said self =
      (Raise EOFError,
       UDPInput.spoken self (map chat said) (UDP.transport_closed self)).
Proof.
  induction 1 as [|l said Hl _ IH]; intros self; cbn zeta.
  - cbn [app map]. unfold UDPInput.spoken. rewrite app_nil_r.
    split; [reflexivity|]. destruct self; reflexivity.
  - destruct l as [|ch l]; [contradiction|]. cbn [app map].
    rewrite !get_messages_loop_step.
    destruct (IH (UDP.replied self
                    (UDP.pack_message 472 (UDP.USERNAME self) (UDP.PStr (ch :: l)))
                    UDPInput.BROADCAST)) as [I1 I2].
    cbn zeta in I1, I2. rewrite I1, I2.
    unfold UDPInput.spoken, UDP.replied. cbn. rewrite <- !app_assoc.
    split; reflexivity.
Qed.

Lemma get_messages_start (lines : list str) (self : UDP.ChatProtocol) :
  UDPInput.get_messages lines self =
  UDPInput.get_messages_loop lines
    (UDP.replied self (UDP.pack_message 471 (UDP.USERNAME self) (UDP.PStr []))
                 UDPInput.BROADCAST).
Proof. reflexivity. Qed.

(** X20.  The input task of a peer.  It first sends the announcement (kind
    471, its name, an empty message) to the broadcast address, then one
    envelope of kind 472 to the broadcast address for every line typed
    before the first empty one, in order; at the empty line it closes the
    transport and stops.  When the input ends without an empty line, the
    task ends with [EOFError] and the transport stays open.  The history,
    the latch and the output of the node are never touched. *)
Theorem get_messages_announces_then_chats
        (self : UDP.ChatProtocol) (said more : list str) :
  Forall (fun l => l <> []) said ->
  let announce := (UDP.pack_message 471 (UDP.USERNAME self) (UDP.PStr []),
                   UDPInput.BROADCAST) in
  let chat l := (UDP.pack_message 472 (UDP.USERNAME self) (UDP.PStr l),
                 UDPInput.BROADCAST) in
  UDPInput.get_messages (said ++ [] :: more) self =
    (Ok tt, UDPInput.spoken self (announce :: map chat said) true) /\
  UDPInput.get_messages said self =
    (Raise EOFError,
     UDPInput.spoken self (announce :: map chat said) (UDP.transport_closed self)).
Proof.
  intros Hs. cbn zeta. rewrite !get_messages_start.
  destruct (get_messages_loop_run more said Hs
              (UDP.replied self
                 (UDP.pack_message 471 (UDP.USERNAME self) (UDP.PStr []))
                 UDPInput.BROADCAST)) as [I1 I2].
  cbn zeta in I1, I2. rewrite I1, I2.
  unfold UDPInput.spoken, UDP.replied. cbn. rewrite <- !app_assoc.
  split; reflexivity.
Qed.

Lemma get_messages_announces_then_chats_witness :
  UDPInput.get_messages [lit "hi"; []; lit "unread"] (UDP.ChatProtocol_init (lit "ann")) =
  (Ok tt,
   UDPInput.spoken (UDP.ChatProtocol_init (lit "ann"))
     [(UDP.pack_message 471 (lit "ann") (UDP.PStr []), UDPInput.BROADCAST);
      (UDP.pack_message 472 (lit "ann") (UDP.PStr (lit "hi")), UDPInput.BROADCAST)]
     true).
Proof.
  apply (proj1 (get_messages_announces_then_chats
                  (UDP.ChatProtocol_init (lit "ann")) [lit "hi"] [lit "unread"]
                  ltac:(constructor; [discriminate | constructor]))).
Defined.

Section UDPExtra.

Variable str_of_list : list str -> str.

Lemma name_taken_hangs_up (now my_ip u : str) (p : UDP.payload) (addr : UDP.address)
      (self : UDP.ChatProtocol) :
  UDP.datagram_received str_of_list now my_ip (UDP.pack_message 370 u p) addr self =
  (Ok tt, hung_up self).
Proof. reflexivity. Qed.

Lemma announce_from_other (now my_ip u : str) (p : UDP.payload) (addr : UDP.address)
      (self : UDP.ChatProtocol) :
  fst addr <> my_ip ->
  UDP.datagram_received str_of_list now my_ip (UDP.pack_message 471 u p) addr self =
  (Ok tt,
   UDP.replied self
     (if negb (str_eqb u (UDP.USERNAME self))
      then UDP.pack_message 371 (UDP.USERNAME self) (UDP.RECENT_MESSAGES self)
      else UDP.pack_message 370 [] (UDP.PStr []))
     (fst addr, UDP.PORT)).
Proof.
  intros Ha. unfold UDP.datagram_received, UDP.unpack_message, UDP.pack_message.
  cbn [UDP.protocol_num UDP.username UDP.message Z.eqb Pos.eqb].
  assert (Ea : str_eqb (fst addr) my_ip = false).
  { destruct (str_eqb (fst addr) my_ip) eqn:E; [|reflexivity].
    apply str_eqb_eq in E. contradiction. }
  rewrite Ea. reflexivity.
Qed.

Lemma push_window {A} (N : nat) (L : list A) (x : A) :
  (10 <= N)%nat ->
  ((List.length L < N)%nat -> (List.length L < 10)%nat) ->
  evicted (last_n N L) ++ [x] = last_n N (L ++ [x]).
Proof.
  intros HN Hs. unfold evicted. rewrite last_n_length. unfold last_n.
  rewrite length_app. cbn [List.length]. rewrite skipn_app.
  destruct (10 <=? Z.of_nat (Nat.min (List.length L) N)) eqn:E.
  - apply Z.leb_le in E. rewrite tl_skipn.
    assert (N <= List.length L)%nat by lia.
    replace (List.length L + 1 - N)%nat with (S (List.length L - N)) by lia.
    replace (S (List.length L - N) - List.length L)%nat with 0%nat by lia.
    reflexivity.
  - apply Z.leb_gt in E.
    assert (List.length L < N)%nat by lia.
    replace (List.length L - N)%nat with 0%nat by lia.
    replace (List.length L + 1 - N)%nat with 0%nat by lia.
    reflexivity.
Qed.

Lemma receive_chats_from (my_ip : str) (chats : list UDP.heard) :
  forall (self : UDP.ChatProtocol) (l : list str),
    UDP.RECENT_MESSAGES self = UDP.PList l ->
    let lines := map (UDP.line_of str_of_list) chats in
    UDP.receive_all str_of_list my_ip (map UDP.datagram_of chats) self =
    (Ok tt,
     UDP.heard_state self (last_n (Nat.max (List.length l) 10) (l ++ lines))
                     (UDP.stdout self ++ lines)).
Proof.
  induction chats as [|c chats IH] using rev_ind; intros self l El; cbn zeta.
  - cbn [map UDP.receive_all]. unfold ret, UDP.heard_state, last_n.
    rewrite !app_nil_r.
    replace (List.length l - Nat.max (List.length l) 10)%nat with 0%nat by lia.
    cbn [skipn]. rewrite <- El. destruct self; reflexivity.
  - rewrite !map_app, receive_all_app. unfold bind at 1.
    cbn zeta in IH. rewrite (IH self l El). cbn [map UDP.receive_all]. unfold bind.
    pose proof (datagram_received_472 str_of_list my_ip c) as D.
    unfold UDP.datagram_of in *. rewrite D.
    erewrite on_chat_broadcast_spec by reflexivity.
    unfold ret, UDP.heard_state.
    cbn [UDP.USERNAME UDP.NEW_USER UDP.transport_closed UDP.sent UDP.stdout].
    rewrite push_window; [|lia|rewrite length_app; lia].
    rewrite <- !app_assoc. reflexivity.
Qed.

End UDPExtra.

(** X21.  The handshake of two peers with different addresses.  The
    peer [b] answers the announcement of [a] with one datagram to the
    address of [a]; when [a] receives that answer, with its latch set: if
    the names differ, [a] holds the history of [b] as [b] had it when it
    answered and has printed it; if the names are equal, [a] has closed its
    transport and nothing else of it has changed. *)
Theorem announce_handshake
        (str_of_list : list str -> str) (now_a now_b ip_a ip_b : str)
        (port_a port_b : Z) (a b : UDP.ChatProtocol) (l : list str) :
  ip_a <> ip_b ->
  UDP.NEW_USER a = true ->
  UDP.RECENT_MESSAGES b = UDP.PList l ->
  let announce := UDP.pack_message 471 (UDP.USERNAME a) (UDP.PStr []) in
  exists reply,
    UDP.datagram_received str_of_list now_b ip_b announce (ip_a, port_a) b =
      (Ok tt, UDP.replied b reply (ip_a, UDP.PORT)) /\
    (UDP.USERNAME a <> UDP.USERNAME b ->
     UDP.datagram_received str_of_list now_a ip_a reply (ip_b, port_b) a =
       (Ok tt, UDP.adopted a l)) /\
    (UDP.USERNAME a = UDP.USERNAME b ->
     UDP.datagram_received str_of_list now_a ip_a reply (ip_b, port_b) a =
       (Ok tt, hung_up a)).
Proof.
  intros Hip Ea El. cbn zeta.
  eexists. split; [apply announce_from_other; exact Hip|]. split.
  - intros Hne.
    replace (str_eqb (UDP.USERNAME a) (UDP.USERNAME b)) with false.
    + cbn [negb]. rewrite El. apply history_sync_first, Ea.
    + symmetry. destruct (str_eqb _ _) eqn:E; [|reflexivity].
      apply str_eqb_eq in E. contradiction.
  - intros Heq. rewrite (proj2 (str_eqb_eq _ _) Heq). cbn [negb].
    apply name_taken_hangs_up.
Qed.

Lemma announce_handshake_witness :
  let a := UDP.ChatProtocol_init (lit "ann") in
  let b l := UDP.heard_state (UDP.ChatProtocol_init (lit "bob")) l [] in
  exists reply,
    UDP.datagram_received (@List.concat Z) (lit "10:00:01") (lit "10.0.0.2")
      (UDP.pack_message 471 (lit "ann") (UDP.PStr [])) (lit "10.0.0.1", 5238)
      (b [lit "> 10:00:00 bob: hi"]) =
    (Ok tt, UDP.replied (b [lit "> 10:00:00 bob: hi"]) reply (lit "10.0.0.1", UDP.PORT)) /\
    UDP.datagram_received (@List.concat Z) (lit "10:00:02") (lit "10.0.0.1")
      reply (lit "10.0.0.2", 5238) a =
    (Ok tt, UDP.adopted a [lit "> 10:00:00 bob: hi"]).
Proof.
  cbn zeta.
  destruct (announce_handshake (@List.concat Z) (lit "10:00:02") (lit "10:00:01")
              (lit "10.0.0.1") (lit "10.0.0.2") 5238 5238
              (UDP.ChatProtocol_init (lit "ann"))
              (UDP.heard_state (UDP.ChatProtocol_init (lit "bob"))
                               [lit "> 10:00:00 bob: hi"] [])
              [lit "> 10:00:00 bob: hi"])
    as (reply & R1 & R2 & _).
  - discriminate.
  - reflexivity.
  - reflexivity.
  - exists reply. split; [exact R1|]. apply R2. discriminate.
Defined.

(** X22.  The window of a peer's history.  A node whose history is the
    list [l], after the chat envelopes [chats], holds the last
    [max(len(l), 10)] entries of [l] followed by the lines heard, and has
    printed those lines: below ten entries the history grows, from ten on
    every line heard pushes the oldest entry out.  So a history of more
    than ten entries, as a node may adopt from a peer, keeps its length and
    is never cut back to ten. *)
Theorem history_window
        (str_of_list : list str -> str) (my_ip : str)
        (self : UDP.ChatProtocol) (l : list str) (chats : list UDP.heard) :
  UDP.RECENT_MESSAGES self = UDP.PList l ->
  let lines := map (UDP.line_of str_of_list) chats in
  let window := last_n (Nat.max (List.length l) 10) (l ++ lines) in
  UDP.receive_all str_of_list my_ip (map UDP.datagram_of chats) self =
    (Ok tt, UDP.heard_state self window (UDP.stdout self ++ lines)) /\
  List.length window =
    Nat.min (List.length l + List.length chats) (Nat.max (List.length l) 10) /\
  ((10 <= List.length l)%nat -> List.length window = List.length l).
Proof.
  intros El. cbn zeta.
  split; [apply (receive_chats_from str_of_list my_ip chats self l El)|].
  rewrite last_n_length, length_app, length_map. split; [reflexivity | lia].
Qed.

Lemma history_window_witness :
  let twelve := List.repeat (lit "> old") 12 in
  let node := UDP.adopted (UDP.ChatProtocol_init (lit "ann")) twelve in
  let chat := {| UDP.h_now := lit "10:00:00"; UDP.h_username := lit "bob";
                 UDP.h_text := lit "hi"; UDP.h_addr := (lit "10.0.0.2", 5238) |} in
  UDP.RECENT_MESSAGES
    (snd (UDP.receive_all (@List.concat Z) (lit "10.0.0.1")
                          (map UDP.datagram_of [chat]) node)) =
  UDP.PList (List.repeat (lit "> old") 11 ++ [lit "> 10:00:00 bob: hi"]) /\
  List.length
    (last_n (Nat.max (List.length twelve) 10)
            (twelve ++ map (UDP.line_of (@List.concat Z)) [chat])) =
  List.length twelve.
Proof.
  cbn zeta.
  pose proof (history_window (@List.concat Z) (lit "10.0.0.1")
             (UDP.adopted (UDP.ChatProtocol_init (lit "ann"))
                          (List.repeat (lit "> old") 12))
             (List.repeat (lit "> old") 12)
             [{| UDP.h_now := lit "10:00:00"; UDP.h_username := lit "bob";
                 UDP.h_text := lit "hi"; UDP.h_addr := (lit "10.0.0.2", 5238) |}]
             eq_refl) as H.
  cbv zeta in H. destruct H as (H1 & _ & H3). split.
  - rewrite H1. reflexivity.
  - apply H3. cbn. lia.
Defined.
